(** * AgentGroup: the group coordinator of pycityagent/simulation/agentgroup.py

    A shallow embedding of the class [AgentGroup]: its fields, the
    coroutines [init_agents], [message_dispatch], [save_status], [step] and
    [run], and the properties of the group coordinator that follow from
    them.

    The collaborators of the group (agents, messager, simulator, avro files,
    clock) are not part of the module.  They are an interface
    ([Collaborators]) over an abstract world state: every call the group
    makes on a collaborator is answered by the world, may raise, and is
    recorded with its answer in the list of events of the computation. *)

From Stdlib Require Import ZArith Ascii String List Lia.
From stdpp Require Import base option list gmap strings fin_maps.

Import ListNotations.
Set Warnings "-register-all".
Local Open Scope Z_scope.
Local Open Scope string_scope.
Local Open Scope list_scope.

(** ** Python values and exceptions *)

Module Py.

(** Exceptions the code of the module can raise by itself, and those a
    collaborator raises ([External]). *)
Inductive exn : Type :=
| KeyError (key : string)
| TypeError
| ValueError
| IndexError
| External (what : string).

Inductive result (A : Type) : Type :=
| Ok (a : A)
| Raise (e : exn).
Arguments Ok {A} a.
Arguments Raise {A} e.

(** The values that travel through the group: message payloads, memory
    fields, avro records.  A [dict] keeps its items in insertion order;
    a float is carried by its bit pattern and never computed with. *)
Inductive value : Type :=
| VNone
| VBool (b : bool)
| VInt (z : Z)
| VFloat (bits : Z)
| VStr (s : string)
| VBytes (b : string)
| VList (l : list value)
| VDict (items : list (string * value)).

Fixpoint dict_get (items : list (string * value)) (k : string) : option value :=
  match items with
  | [] => None
  | (k', v) :: rest => if String.eqb k' k then Some v else dict_get rest k
  end.

Fixpoint dict_set (items : list (string * value)) (k : string) (v : value)
  : list (string * value) :=
  match items with
  | [] => [(k, v)]
  | (k', v') :: rest =>
      if String.eqb k' k then (k, v) :: rest else (k', v') :: dict_set rest k v
  end.

(** [d[k]] *)
Definition getitem (d : value) (k : string) : result value :=
  match d with
  | VDict items =>
      match dict_get items k with
      | Some v => Ok v
      | None => Raise (KeyError k)
      end
  | _ => Raise TypeError
  end.

(** [k in d], reached in the module only once [d[...]] has succeeded, that
    is on a dict. *)
Definition contains (d : value) (k : string) : bool :=
  match d with
  | VDict items => bool_decide (is_Some (dict_get items k))
  | _ => false
  end.

(** [d[k] = v] *)
Definition setitem (d : value) (k : string) (v : value) : result value :=
  match d with
  | VDict items => Ok (VDict (dict_set items k v))
  | _ => Raise TypeError
  end.

(** [x[0]] *)
Definition index0 (x : value) : result value :=
  match x with
  | VList (v :: _) => Ok v
  | VList [] => Raise IndexError
  | VDict _ => Raise (KeyError "0")
  | _ => Raise TypeError
  end.

(** [s.lstrip(c)], [s.rstrip(c)] and [s.strip(c)] for a one-character [c]. *)
Fixpoint lstrip (c : ascii) (s : string) : string :=
  match s with
  | EmptyString => EmptyString
  | String c' s' => if Ascii.eqb c' c then lstrip c s' else s
  end.

Fixpoint rstrip (c : ascii) (s : string) : string :=
  match s with
  | EmptyString => EmptyString
  | String c' s' =>
      match rstrip c s' with
      | EmptyString => if Ascii.eqb c' c then EmptyString else String c' EmptyString
      | r => String c' r
      end
  end.

Definition strip (c : ascii) (s : string) : string := rstrip c (lstrip c s).

(** [s.split(c)] for a one-character separator: never the empty list. *)
Fixpoint split (c : ascii) (s : string) : list string :=
  match s with
  | EmptyString => [EmptyString]
  | String c' s' =>
      if Ascii.eqb c' c then EmptyString :: split c s'
      else match split c s' with
           | [] => [String c' EmptyString]
           | w :: ws => String c' w :: ws
           end
  end.

End Py.
Export Py.

(** ** Data model *)

(** The agent classes imported by the module.  [CitizenAgent] and
    [InstitutionAgent] derive from [Agent]. *)
Inductive AgentClass : Type := BaseAgent | CitizenAgent | InstitutionAgent.

(** [issubclass(c, InstitutionAgent)] *)
Definition issubclass_InstitutionAgent (c : AgentClass) : bool :=
  match c with
  | InstitutionAgent => true
  | _ => false
  end.

(** A reference to an agent object: what the group reads of it is its
    [_uuid] and its class; its memory and behaviour live in the world. *)
Record Agent : Type := { _uuid : string; agent_type : AgentClass }.

(** A message of the messager: [message.topic.value] and [message.payload]. *)
Record Message : Type := { topic : string; payload : value }.

(** The schemas of pycityagent.utils, used by name only. *)
Inductive Schema : Type :=
| STATUS_SCHEMA | PROFILE_SCHEMA | DIALOG_SCHEMA | SURVEY_SCHEMA
| INSTITUTION_STATUS_SCHEMA.

Record AgentGroup : Type := {
  group_uuid : string;
  agents : list Agent;
  exp_id : string;
  enable_avro : bool;
  avro_path : string;
  initialized : bool;
  id2agent : gmap string Agent;
  (** how many dispatch tasks [init_agents] has created; the attribute
      [message_dispatch_task] refers to the latest one only *)
  message_dispatch_task : nat
}.

(** [self.avro_file[kind]], that is [avro_path / "<kind>.avro"] *)
Definition avro_file (g : AgentGroup) (kind : string) : string :=
  avro_path g +:+ "/" +:+ kind +:+ ".avro".

(** ** Calls on collaborators and their record *)

(** Calls awaited for their effect. *)
Inductive ucall : Type :=
| BindToSimulator (a : Agent)
| MessagerConnect
| MessagerStartListening
| MessagerSubscribe (topic : string) (a : Agent)
| OpenFile (path : string) (mode : string)
| FastavroWriter (path : string) (schema : Schema) (records : list value)
    (codec : option string)
| AgentRun (a : Agent)
| HandleAgentChat (a : Agent) (payload : value)
| HandleUserChat (a : Agent) (payload : value)
| HandleUserSurvey (a : Agent) (payload : value)
| HandleGather (a : Agent) (payload : value).

(** Calls that return a value. *)
Inductive vcall : Type :=
| ProfileExport (a : Agent)
| MemoryGet (a : Agent) (key : string)
| GetSimulatorDay
| GetSimulatorSecondFromStartOfDay.

(** Calls that return an integer: [int(await self.simulator.get_time())]
    and [int(datetime.now().timestamp() * 1000)]. *)
Inductive icall : Type := GetTime | NowMs.

(** What a computation of the group did, in order: the calls with their
    answers, and the marks [EvSetMessager], [EvCreateTask], [EvSleep] (calls
    without an answer) and [EvStep] (entry of [step]). *)
Inductive event : Type :=
| EvU (c : ucall) (r : result unit)
| EvV (c : vcall) (r : result value)
| EvI (c : icall) (r : result Z)
| EvIsConnected (b : bool)
| EvFetchMessages (r : result (list Message))
| EvSetMessager (a : Agent)
| EvCreateTask
| EvSleep
| EvStep.

(** The collaborators, over a world state [W]. *)
Class Collaborators (W : Type) : Type := {
  do_unit : ucall -> W -> result unit * W;
  do_value : vcall -> W -> result value * W;
  do_int : icall -> W -> result Z * W;
  is_connected : W -> bool;
  fetch_messages : W -> result (list Message) * W;
  (** [json.loads(payload.decode("utf-8"))] *)
  json_loads : string -> result value
}.

(** ** Computations of the group *)

Record St (W : Type) : Type := { self : AgentGroup; world : W }.
Arguments self {W} s.
Arguments world {W} s.

Record Out (W A : Type) : Type := { res : result A; st : St W; evs : list event }.
Arguments res {W A} o.
Arguments st {W A} o.
Arguments evs {W A} o.

Definition M (W A : Type) : Type := St W -> Out W A.

Section Group.

Context {W : Type} `{!Collaborators W}.

Definition ret {A} (a : A) : M W A :=
  fun s => {| res := Ok a; st := s; evs := [] |}.

Definition raise {A} (e : exn) : M W A :=
  fun s => {| res := Raise e; st := s; evs := [] |}.

Definition bind {A B} (m : M W A) (f : A -> M W B) : M W B :=
  fun s =>
    let o := m s in
    match res o with
    | Ok a => let o' := f a (st o) in
              {| res := res o'; st := st o'; evs := evs o ++ evs o' |}
    | Raise e => {| res := Raise e; st := st o; evs := evs o |}
    end.

#[global] Instance M_ret : MRet (M W) := @ret.
#[global] Instance M_bind : MBind (M W) := fun A B f m => bind m f.

Definition lift {A} (r : result A) : M W A :=
  match r with
  | Ok a => ret a
  | Raise e => raise e
  end.

Definition get_self : M W AgentGroup :=
  fun s => {| res := Ok (self s); st := s; evs := [] |}.

Definition set_self (g : AgentGroup) : M W unit :=
  fun s => {| res := Ok tt; st := {| self := g; world := world s |}; evs := [] |}.

Definition mark (e : event) : M W unit :=
  fun s => {| res := Ok tt; st := s; evs := [e] |}.

Definition await_unit (c : ucall) : M W unit :=
  fun s =>
    let '(r, w) := do_unit c (world s) in
    {| res := r; st := {| self := self s; world := w |}; evs := [EvU c r] |}.

Definition await_value (c : vcall) : M W value :=
  fun s =>
    let '(r, w) := do_value c (world s) in
    {| res := r; st := {| self := self s; world := w |}; evs := [EvV c r] |}.

Definition await_int (c : icall) : M W Z :=
  fun s =>
    let '(r, w) := do_int c (world s) in
    {| res := r; st := {| self := self s; world := w |}; evs := [EvI c r] |}.

Definition messager_is_connected : M W bool :=
  fun s =>
    let b := is_connected (world s) in
    {| res := Ok b; st := s; evs := [EvIsConnected b] |}.

Definition messager_fetch_messages : M W (list Message) :=
  fun s =>
    let '(r, w) := fetch_messages (world s) in
    {| res := r; st := {| self := self s; world := w |}; evs := [EvFetchMessages r] |}.

(** [for x in l: body(x)] *)
Fixpoint for_each {A} (body : A -> M W unit) (l : list A) : M W unit :=
  match l with
  | [] => ret tt
  | x :: l' => body x;; for_each body l'
  end.

(** [out = []; for x in l: out.append(body(x))] *)
Fixpoint collect {A B} (body : A -> M W B) (l : list A) : M W (list B) :=
  match l with
  | [] => ret []
  | x :: l' => y ← body x; ys ← collect body l'; ret (y :: ys)
  end.

End Group.

(** ** The coroutines of [AgentGroup] *)

Section Coroutines.

Context {W : Type} `{!Collaborators W}.

(** The topic of agent [a] for one kind of message, as [init_agents]
    formats it. *)
Definition agent_topic (exp : string) (a : Agent) (kind : string) : string :=
  "exps/" +:+ exp +:+ "/agents/" +:+ _uuid a +:+ "/" +:+ kind.

(** Body of the subscription loop of [init_agents]. *)
Definition subscribe_agent (exp : string) (a : Agent) : M W unit :=
  mark (EvSetMessager a);;
  await_unit (MessagerSubscribe (agent_topic exp a "agent-chat") a);;
  await_unit (MessagerSubscribe (agent_topic exp a "user-chat") a);;
  await_unit (MessagerSubscribe (agent_topic exp a "user-survey") a);;
  await_unit (MessagerSubscribe (agent_topic exp a "gather") a).

(** [{agent._uuid: agent for agent in agents}]: a later agent replaces an
    earlier one with the same [_uuid]. *)
Definition dict_of_agents (l : list Agent) : gmap string Agent :=
  foldl (fun m a => <[_uuid a := a]> m) ∅ l.

(** [self.agents[0]] *)
Definition first_agent (g : AgentGroup) : M W Agent :=
  match agents g with
  | [] => raise IndexError
  | a :: _ => ret a
  end.

(** Body of the profile loop of [init_agents]. *)
Definition export_profile (a : Agent) : M W value :=
  profile ← await_value (ProfileExport a);
  profile ← lift (index0 profile);
  profile ← lift (setitem profile "id" (VStr (_uuid a)));
  ret profile.

(** The [if self.enable_avro:] block of [init_agents]. *)
Definition create_avro_files (g : AgentGroup) : M W unit :=
  (* profile *)
  a0 ← first_agent g;
  (if negb (issubclass_InstitutionAgent (agent_type a0)) then
     await_unit (OpenFile (avro_file g "profile") "wb");;
     profiles ← collect export_profile (agents g);
     await_unit (FastavroWriter (avro_file g "profile") PROFILE_SCHEMA profiles None)
   else ret tt);;
  (* dialog *)
  await_unit (OpenFile (avro_file g "dialog") "wb");;
  await_unit (FastavroWriter (avro_file g "dialog") DIALOG_SCHEMA [] None);;
  (* status *)
  await_unit (OpenFile (avro_file g "status") "wb");;
  a0 ← first_agent g;
  (if negb (issubclass_InstitutionAgent (agent_type a0)) then
     await_unit (FastavroWriter (avro_file g "status") STATUS_SCHEMA [] None)
   else
     await_unit (FastavroWriter (avro_file g "status") INSTITUTION_STATUS_SCHEMA [] None));;
  (* survey *)
  await_unit (OpenFile (avro_file g "survey") "wb");;
  await_unit (FastavroWriter (avro_file g "survey") SURVEY_SCHEMA [] None).

Definition set_id2agent (m : gmap string Agent) (g : AgentGroup) : AgentGroup :=
  {| group_uuid := group_uuid g; agents := agents g; exp_id := exp_id g;
     enable_avro := enable_avro g; avro_path := avro_path g;
     initialized := initialized g; id2agent := m;
     message_dispatch_task := message_dispatch_task g |}.

Definition set_initialized (b : bool) (g : AgentGroup) : AgentGroup :=
  {| group_uuid := group_uuid g; agents := agents g; exp_id := exp_id g;
     enable_avro := enable_avro g; avro_path := avro_path g;
     initialized := b; id2agent := id2agent g;
     message_dispatch_task := message_dispatch_task g |}.

Definition add_dispatch_task (g : AgentGroup) : AgentGroup :=
  {| group_uuid := group_uuid g; agents := agents g; exp_id := exp_id g;
     enable_avro := enable_avro g; avro_path := avro_path g;
     initialized := initialized g; id2agent := id2agent g;
     message_dispatch_task := S (message_dispatch_task g) |}.

(** [async def init_agents(self)] *)
Definition init_agents : M W unit :=
  g ← get_self;
  for_each (fun a => await_unit (BindToSimulator a)) (agents g);;
  set_self (set_id2agent (dict_of_agents (agents g)) g);;
  await_unit MessagerConnect;;
  connected ← messager_is_connected;
  (if (connected : bool) then
     await_unit MessagerStartListening;;
     for_each (subscribe_agent (exp_id g)) (agents g)
   else ret tt);;
  g ← get_self;
  mark EvCreateTask;;
  set_self (add_dispatch_task g);;
  g ← get_self;
  (if enable_avro g then create_avro_files g else ret tt);;
  g ← get_self;
  set_self (set_initialized true g).

(** Body of the message loop of [message_dispatch]. *)
Definition dispatch_message (m : Message) : M W unit :=
  payload ← match payload m return M W value with
            | VBytes b => lift (json_loads b)
            | p => ret p
            end;
  match split "/" (strip "/" (topic m)) with
  | [_; _; _; agent_uuid; topic_type] =>
      g ← get_self;
      match id2agent g !! agent_uuid with
      | Some agent =>
          if String.eqb topic_type "agent-chat" then
            await_unit (HandleAgentChat agent payload)
          else if String.eqb topic_type "user-chat" then
            await_unit (HandleUserChat agent payload)
          else if String.eqb topic_type "user-survey" then
            await_unit (HandleUserSurvey agent payload)
          else if String.eqb topic_type "gather" then
            await_unit (HandleGather agent payload)
          else ret tt
      | None => ret tt
      end
  | _ => raise ValueError
  end.

(** One turn of the [while True:] of [message_dispatch].  A messager that
    is not connected is logged only: the messages are fetched all the same. *)
Definition dispatch_cycle : M W unit :=
  _ ← messager_is_connected;
  messages ← messager_fetch_messages;
  for_each dispatch_message messages;;
  mark EvSleep.

(** [async def message_dispatch(self)], for a number of turns of its loop.
    The loop has no exit: [Ok tt] says that all the turns were completed,
    [Raise e] that an exception left the loop. *)
Fixpoint message_dispatch (cycles : nat) : M W unit :=
  match cycles with
  | O => ret tt
  | S n => dispatch_cycle;; message_dispatch n
  end.

(** [parent_id] of the citizen branch of [save_status]: the id of the aoi,
    else the id of the lane, else -1. *)
Definition parent_id_of (position : value) : result value :=
  if contains position "aoi_position" then
    match getitem position "aoi_position" with
    | Ok aoi => getitem aoi "aoi_id"
    | Raise e => Raise e
    end
  else if contains position "lane_position" then
    match getitem position "lane_position" with
    | Ok lane => getitem lane "lane_id"
    | Raise e => Raise e
    end
  else Ok (VInt (-1)).

(** Body of the citizen loop of [save_status]. *)
Definition citizen_status (a : Agent) : M W value :=
  position ← await_value (MemoryGet a "position");
  longlat ← lift (getitem position "longlat_position");
  lng ← lift (getitem longlat "longitude");
  longlat ← lift (getitem position "longlat_position");
  lat ← lift (getitem longlat "latitude");
  parent_id ← lift (parent_id_of position);
  needs ← await_value (MemoryGet a "needs");
  action ← await_value (MemoryGet a "current_step");
  action ← lift (getitem action "intention");
  day ← await_value GetSimulatorDay;
  t ← await_value GetSimulatorSecondFromStartOfDay;
  hungry ← lift (getitem needs "hungry");
  tired ← lift (getitem needs "tired");
  safe ← lift (getitem needs "safe");
  social ← lift (getitem needs "social");
  created_at ← await_int NowMs;
  ret (VDict [("id", VStr (_uuid a)); ("day", day); ("t", t);
              ("lng", lng); ("lat", lat); ("parent_id", parent_id);
              ("action", action); ("hungry", hungry); ("tired", tired);
              ("safe", safe); ("social", social);
              ("created_at", VInt created_at)]).

(** Body of the institution loop of [save_status]. *)
Definition institution_status (a : Agent) : M W value :=
  day ← await_value GetSimulatorDay;
  t ← await_value GetSimulatorSecondFromStartOfDay;
  type ← await_value (MemoryGet a "type");
  nominal_gdp ← await_value (MemoryGet a "nominal_gdp");
  real_gdp ← await_value (MemoryGet a "real_gdp");
  unemployment ← await_value (MemoryGet a "unemployment");
  wages ← await_value (MemoryGet a "wages");
  prices ← await_value (MemoryGet a "prices");
  inventory ← await_value (MemoryGet a "inventory");
  price ← await_value (MemoryGet a "price");
  interest_rate ← await_value (MemoryGet a "interest_rate");
  bracket_cutoffs ← await_value (MemoryGet a "bracket_cutoffs");
  bracket_rates ← await_value (MemoryGet a "bracket_rates");
  employees ← await_value (MemoryGet a "employees");
  customers ← await_value (MemoryGet a "customers");
  ret (VDict [("id", VStr (_uuid a)); ("day", day); ("t", t); ("type", type);
              ("nominal_gdp", nominal_gdp); ("real_gdp", real_gdp);
              ("unemployment", unemployment); ("wages", wages);
              ("prices", prices); ("inventory", inventory); ("price", price);
              ("interest_rate", interest_rate);
              ("bracket_cutoffs", bracket_cutoffs);
              ("bracket_rates", bracket_rates); ("employees", employees);
              ("customers", customers)]).

(** [async def save_status(self)] *)
Definition save_status : M W unit :=
  g ← get_self;
  if enable_avro g then
    a0 ← first_agent g;
    if negb (issubclass_InstitutionAgent (agent_type a0)) then
      avros ← collect citizen_status (agents g);
      await_unit (OpenFile (avro_file g "status") "a+b");;
      await_unit (FastavroWriter (avro_file g "status") STATUS_SCHEMA avros (Some "snappy"))
    else
      avros ← collect institution_status (agents g);
      await_unit (OpenFile (avro_file g "status") "a+b");;
      await_unit (FastavroWriter (avro_file g "status") INSTITUTION_STATUS_SCHEMA avros
                    (Some "snappy"))
  else ret tt.

(** [await asyncio.gather] over the tasks [agent.run()] of every agent.  Every
    task is started and runs to its end, the tasks of the agents after one
    that raised too; the exception of the first agent (in the order of the
    list) that raised is the one [gather] raises.  Each [run] is one call
    here: how the tasks interleave is not part of the model. *)
Fixpoint gather_runs (l : list Agent) (s : St W) : Out W unit :=
  match l with
  | [] => ret tt s
  | a :: l' =>
      let o := await_unit (AgentRun a) s in
      let o' := gather_runs l' (st o) in
      {| res := match res o with
                | Raise e => Raise e
                | Ok _ => res o'
                end;
         st := st o'; evs := evs o ++ evs o' |}
  end.

(** [async def step(self)] *)
Definition step : M W unit :=
  mark EvStep;;
  g ← get_self;
  (if negb (initialized g) then init_agents else ret tt);;
  g ← get_self;
  gather_runs (agents g);;
  save_status.

(** The [while True:] of [run], for at most [fuel] turns: [Ok (Some tt)]
    when the loop was left by its [break], [Ok None] when the turns ran
    out first. *)
Fixpoint run_loop (fuel : nat) (end_time : Z) : M W (option unit) :=
  match fuel with
  | O => ret None
  | S n =>
      current_time ← await_int GetTime;
      if bool_decide (current_time >= end_time) then ret (Some tt)
      else step;; run_loop n end_time
  end.

(** [async def run(self, day=1)].  The handler of its [try] logs the
    exception and raises it again. *)
Definition run (fuel : nat) (day : Z) : M W (option unit) :=
  start_time ← await_int GetTime;
  let end_time := start_time + day * 24 * 3600 in
  run_loop fuel end_time.

End Coroutines.

(** The exception an event records, if its call raised. *)
Definition raised (ev : event) : option exn :=
  match ev with
  | EvU _ (Raise e) | EvV _ (Raise e) | EvI _ (Raise e)
  | EvFetchMessages (Raise e) => Some e
  | _ => None
  end.

(** A computation is tame for [P] when it leaves the fields of the group
    alone, records only events that satisfy [P], and raises the exception of
    any call of its that raised. *)
Definition tame {W A} (P : event -> Prop) (m : M W A) : Prop :=
  forall s,
    self (st (m s)) = self s /\
    Forall P (evs (m s)) /\
    (forall ev e, In ev (evs (m s)) -> raised ev = Some e -> res (m s) = Raise e).


(** ** A simulated world

    A small world to run the coroutines in: a clock that every [agent.run()]
    advances by half a day, the batches of messages the messager will hand
    out, the calls that raise, and whether the messager is connected.  Its
    [json.loads] knows the empty object only. *)
Record Sim : Type := {
  sim_now : Z;
  sim_inbox : list (list Message);
  sim_refuses : ucall -> bool;
  sim_connected : bool
}.

Definition sim_position (a : Agent) : value :=
  let longlat := ("longlat_position",
                  VDict [("longitude", VFloat 116); ("latitude", VFloat 39)]) in
  if String.eqb (_uuid a) "a1" then
    VDict [longlat; ("aoi_position", VDict [("aoi_id", VInt 500)])]
  else if String.eqb (_uuid a) "a2" then
    VDict [longlat; ("lane_position", VDict [("lane_id", VInt 7); ("s", VFloat 3)])]
  else VDict [longlat].

Definition sim_memory (a : Agent) (key : string) : value :=
  if String.eqb key "position" then sim_position a
  else if String.eqb key "needs" then
    VDict [("hungry", VFloat 1); ("tired", VFloat 2); ("safe", VFloat 3);
           ("social", VFloat 4)]
  else if String.eqb key "current_step" then VDict [("intention", VStr "rest")]
  else VNone.

Definition sim_tick (w : Sim) : Sim :=
  {| sim_now := sim_now w + 43200; sim_inbox := sim_inbox w;
     sim_refuses := sim_refuses w; sim_connected := sim_connected w |}.

Definition sim_do_unit (c : ucall) (w : Sim) : result unit * Sim :=
  if sim_refuses w c then (Raise (External "refused"), w)
  else match c with
       | AgentRun _ => (Ok tt, sim_tick w)
       | _ => (Ok tt, w)
       end.

Definition sim_do_value (c : vcall) (w : Sim) : result value * Sim :=
  match c with
  | ProfileExport a => (Ok (VList [VDict [("name", VStr (_uuid a))]]), w)
  | MemoryGet a key => (Ok (sim_memory a key), w)
  | GetSimulatorDay => (Ok (VInt (sim_now w / 86400)), w)
  | GetSimulatorSecondFromStartOfDay => (Ok (VInt (sim_now w mod 86400)), w)
  end.

Definition sim_do_int (c : icall) (w : Sim) : result Z * Sim :=
  match c with
  | GetTime => (Ok (sim_now w), w)
  | NowMs => (Ok (sim_now w * 1000), w)
  end.

Definition sim_fetch_messages (w : Sim) : result (list Message) * Sim :=
  match sim_inbox w with
  | [] => (Ok [], w)
  | batch :: later =>
      (Ok batch, {| sim_now := sim_now w; sim_inbox := later;
                    sim_refuses := sim_refuses w; sim_connected := sim_connected w |})
  end.

Definition sim_json_loads (s : string) : result value :=
  if String.eqb s "{}" then Ok (VDict []) else Raise ValueError.

#[global] Instance sim_collaborators : Collaborators Sim := {|
  do_unit := sim_do_unit;
  do_value := sim_do_value;
  do_int := sim_do_int;
  is_connected := sim_connected;
  fetch_messages := sim_fetch_messages;
  json_loads := sim_json_loads
|}.

Definition nobody_refuses (c : ucall) : bool := false.

Definition quiet_world : Sim :=
  {| sim_now := 0; sim_inbox := []; sim_refuses := nobody_refuses;
     sim_connected := true |}.

Definition citizen (id : string) : Agent := {| _uuid := id; agent_type := CitizenAgent |}.
Definition institution (id : string) : Agent :=
  {| _uuid := id; agent_type := InstitutionAgent |}.

(** A group as [__init__] leaves it. *)
Definition new_group (l : list Agent) (exp : string) (avro : bool) : AgentGroup :=
  {| group_uuid := "g"; agents := l; exp_id := exp; enable_avro := avro;
     avro_path := "avro/g"; initialized := false; id2agent := ∅;
     message_dispatch_task := 0 |}.

Definition start (l : list Agent) (exp : string) (avro : bool) (w : Sim) : St Sim :=
  {| self := new_group l exp avro; world := w |}.

(** One citizen, no avro files. *)
Definition single_start : St Sim := start [citizen "a1"] "E" false quiet_world.

(** A citizen first and an institution second, avro files enabled. *)
Definition mixed_start : St Sim :=
  start [citizen "a1"; institution "b2"] "E" true quiet_world.

(** The initialized group [init_agents] makes of [mixed_start]. *)
Definition mixed_initialized : St Sim := st (init_agents mixed_start).



(** A world in which the binding of an agent to the simulator raises. *)
Definition refuses_bind (c : ucall) : bool :=
  match c with
  | BindToSimulator _ => true
  | _ => false
  end.

Definition failing_bind_start : St Sim :=
  start [citizen "a1"] "E" true
    {| sim_now := 0; sim_inbox := []; sim_refuses := refuses_bind;
       sim_connected := true |}.

(** Messages for the group of "a1": one on the gather topic of "a1", one
    for an agent of another group, one whose topic has too few fields. *)
Definition gather_a1 : Message :=
  {| topic := "exps/E/agents/a1/gather"; payload := VBytes "{}" |}.
Definition chat_for_stranger : Message :=
  {| topic := "exps/E/agents/zz/agent-chat"; payload := VDict [] |}.
Definition short_topic : Message :=
  {| topic := "exps/E/a1"; payload := VDict [] |}.

(** The initialized group of "a1", with the first batch of messages its
    messager will hand out, and a second batch. *)
Definition dispatch_start (first_batch : list Message) : St Sim :=
  {| self := self (st (init_agents single_start));
     world := {| sim_now := 0; sim_inbox := [first_batch; [gather_a1]];
                 sim_refuses := nobody_refuses; sim_connected := true |} |}.

Definition stranger_start : St Sim := dispatch_start [chat_for_stranger; gather_a1].
Definition short_topic_start : St Sim := dispatch_start [short_topic; gather_a1].

(** A world without state, in which every call returns: the memory of the
    simulated world, day 3 at noon. *)
Definition calm_do_value (c : vcall) (w : unit) : result value * unit :=
  match c with
  | ProfileExport a => (Ok (VList [VDict [("name", VStr (_uuid a))]]), w)
  | MemoryGet a key => (Ok (sim_memory a key), w)
  | GetSimulatorDay => (Ok (VInt 3), w)
  | GetSimulatorSecondFromStartOfDay => (Ok (VInt 43200), w)
  end.

#[global] Instance calm_collaborators : Collaborators unit | 100 := {|
  do_unit := fun _ w => (Ok tt, w);
  do_value := calm_do_value;
  do_int := fun _ w => (Ok 302400, w);
  is_connected := fun _ => true;
  fetch_messages := fun w => (Ok [], w);
  json_loads := sim_json_loads
|}.

(** Citizens with an aoi ("a1"), with a lane ("a2") and with neither
    ("a3"), initialized, in the calm world. *)
Definition calm_start : St unit :=
  {| self := new_group [citizen "a1"; citizen "a2"; citizen "a3"] "E" true;
     world := tt |}.

(** ** Vocabulary of the properties *)

(** [status_schema_of a0]: the status schema chosen from the class of the
    first agent, in [init_agents] and in [save_status]. *)
Definition status_schema_of (a0 : Agent) : Schema :=
  if issubclass_InstitutionAgent (agent_type a0) then INSTITUTION_STATUS_SCHEMA
  else STATUS_SCHEMA.

(** The events the [if self.enable_avro:] block of [init_agents] can record
    for the group [g]: profile exports, files opened with mode ["wb"] and
    written without codec under a schema that fits the class of the first
    agent. *)
Definition avro_event (g : AgentGroup) (ev : event) : Prop :=
  match ev with
  | EvV (ProfileExport _) _ => True
  | EvU (OpenFile _ mode) _ => mode = "wb"
  | EvU (FastavroWriter _ schema _ codec) _ =>
      codec = None /\
      match agents g with
      | [] => False
      | a0 :: _ =>
          match schema with
          | PROFILE_SCHEMA => issubclass_InstitutionAgent (agent_type a0) = false
          | DIALOG_SCHEMA | SURVEY_SCHEMA => True
          | STATUS_SCHEMA | INSTITUTION_STATUS_SCHEMA => schema = status_schema_of a0
          end
      end
  | _ => False
  end.

(** The events [init_agents] can record for the group [g]: bindings,
    connection, subscriptions, the creation of the dispatch task, and the
    events of its avro block. *)
Definition init_event (g : AgentGroup) (ev : event) : Prop :=
  match ev with
  | EvU (BindToSimulator _) _ | EvU MessagerConnect _
  | EvU MessagerStartListening _ | EvU (MessagerSubscribe _ _) _
  | EvIsConnected _ | EvSetMessager _ | EvCreateTask => True
  | _ => avro_event g ev
  end.

(** The fields [init_agents] never assigns. *)
Definition same_config (g g' : AgentGroup) : Prop :=
  group_uuid g' = group_uuid g /\ agents g' = agents g /\ exp_id g' = exp_id g /\
  enable_avro g' = enable_avro g /\ avro_path g' = avro_path g.

(** The events of one turn of the subscription loop of [init_agents] when
    the four subscriptions succeed, with the topic given by [topic_of]. *)
Definition subscribe_events_with (topic_of : string -> Agent -> string -> string)
    (exp : string) (a : Agent) : list event :=
  [EvSetMessager a;
   EvU (MessagerSubscribe (topic_of exp a "agent-chat") a) (Ok tt);
   EvU (MessagerSubscribe (topic_of exp a "user-chat") a) (Ok tt);
   EvU (MessagerSubscribe (topic_of exp a "user-survey") a) (Ok tt);
   EvU (MessagerSubscribe (topic_of exp a "gather") a) (Ok tt)].

(** The subscriptions a list of events records: topic and subscriber of the
    calls of [messager.subscribe] that returned. *)
Definition subscription_of (ev : event) : option (string * Agent) :=
  match ev with
  | EvU (MessagerSubscribe t a) (Ok _) => Some (t, a)
  | _ => None
  end.

Definition subscriptions (l : list event) : list (string * Agent) :=
  omap subscription_of l.

(** The four kinds of message an agent is subscribed for. *)
Definition four_kinds : list string :=
  ["agent-chat"; "user-chat"; "user-survey"; "gather"].

(** The topic of an agent as the specification writes it,
    [experiments/{experimentId}/agents/{agentId}/{kind}]. *)
Definition spec_topic (exp : string) (a : Agent) (kind : string) : string :=
  "experiments/" +:+ exp +:+ "/agents/" +:+ _uuid a +:+ "/" +:+ kind.

(** Every agent of the list subscribed once to each of the four kinds, under
    the topic [topic_of] gives it. *)
Definition all_subscribed (topic_of : string -> Agent -> string -> string)
    (exp : string) (l : list Agent) : list (string * Agent) :=
  flat_map (fun a => map (fun kind => (topic_of exp a kind, a)) four_kinds) l.

(** The events [save_status] can record for the group [g]: reads of the
    memory of agents, of the simulator and of the clock, the status file
    opened with mode ["a+b"] and written with the snappy codec under the
    schema that fits the class of the first agent. *)
Definition status_event (g : AgentGroup) (ev : event) : Prop :=
  match ev with
  | EvV (MemoryGet _ _) _ | EvV GetSimulatorDay _
  | EvV GetSimulatorSecondFromStartOfDay _ | EvI NowMs _ => True
  | EvU (OpenFile _ mode) _ => mode = "a+b"
  | EvU (FastavroWriter _ schema _ codec) _ =>
      codec = Some "snappy" /\
      match agents g with
      | [] => False
      | a0 :: _ => schema = status_schema_of a0
      end
  | _ => False
  end.

(** The work of an initialization: bindings, connection, subscriptions,
    creation of the dispatch task and of the avro files. *)
Definition initialization_work (ev : event) : Prop :=
  match ev with
  | EvU (BindToSimulator _) _ | EvU MessagerConnect _
  | EvU MessagerStartListening _ | EvU (MessagerSubscribe _ _) _
  | EvIsConnected _ | EvSetMessager _ | EvCreateTask
  | EvV (ProfileExport _) _ => True
  | EvU (OpenFile _ mode) _ => mode = "wb"
  | EvU (FastavroWriter _ _ _ codec) _ => codec = None
  | _ => False
  end.


(** The first part of [step]: [init_agents] unless the group is
    initialized. *)
Definition step_init {W} `{!Collaborators W} (s : St W) : Out W unit :=
  if initialized (self s) then ret tt s else init_agents s.




(** The payload of a message as [message_dispatch] decodes it: bytes are
    decoded and parsed, anything else is taken as it is. *)
Definition decoded {W} `{!Collaborators W} (m : Message) : result value :=
  match payload m with
  | VBytes b => json_loads b
  | p => Ok p
  end.

(** The fields of the topic of a message. *)
Definition topic_fields (m : Message) : list string := split "/" (strip "/" (topic m)).

(** The handler of each kind of message. *)
Definition kind_handlers : list (string * (Agent -> value -> ucall)) :=
  [("agent-chat", HandleAgentChat); ("user-chat", HandleUserChat);
   ("user-survey", HandleUserSurvey); ("gather", HandleGather)].

Fixpoint handler_of (table : list (string * (Agent -> value -> ucall))) (kind : string)
  : option (Agent -> value -> ucall) :=
  match table with
  | [] => None
  | (k, h) :: rest => if String.eqb kind k then Some h else handler_of rest kind
  end.


(** A message with a decodable payload and a topic of five fields that names
    an agent the group [g] does not own. *)
Definition for_unknown_agent {W} `{!Collaborators W} (g : AgentGroup) (m : Message)
  : Prop :=
  (exists p, decoded m = Ok p) /\
  exists x1 x2 x3 id kind,
    topic_fields m = [x1; x2; x3; id; kind] /\ id2agent g !! id = None.

(** The events of [message_dispatch]: the state of the connection, the
    fetched messages, calls of handlers, sleeps. *)
Definition dispatch_event (ev : event) : Prop :=
  match ev with
  | EvU (HandleAgentChat _ _) _ | EvU (HandleUserChat _ _) _
  | EvU (HandleUserSurvey _ _) _ | EvU (HandleGather _ _) _
  | EvIsConnected _ | EvFetchMessages _ | EvSleep => True
  | _ => False
  end.

(** A position the citizen branch of [save_status] can read: longitude and
    latitude are there, and so is the id of the aoi or of the lane when the
    position has one. *)
Definition citizen_position (position : value) : Prop :=
  exists longlat lng lat parent_id,
    getitem position "longlat_position" = Ok longlat /\
    getitem longlat "longitude" = Ok lng /\
    getitem longlat "latitude" = Ok lat /\
    parent_id_of position = Ok parent_id.

Definition citizen_needs (needs : value) : Prop :=
  exists hungry tired safe social,
    getitem needs "hungry" = Ok hungry /\ getitem needs "tired" = Ok tired /\
    getitem needs "safe" = Ok safe /\ getitem needs "social" = Ok social.

(** The memory of the agent [a] answers the reads of the citizen branch. *)
Definition citizen_readable {W} `{!Collaborators W} (a : Agent) : Prop :=
  (forall w, exists position w',
     do_value (MemoryGet a "position") w = (Ok position, w') /\
     citizen_position position) /\
  (forall w, exists needs w',
     do_value (MemoryGet a "needs") w = (Ok needs, w') /\ citizen_needs needs) /\
  (forall w, exists current_step w' intention,
     do_value (MemoryGet a "current_step") w = (Ok current_step, w') /\
     getitem current_step "intention" = Ok intention).

(** The position of the agent [a] has neither an aoi nor a lane. *)
Definition unlocated {W} `{!Collaborators W} (a : Agent) : Prop :=
  forall w position w',
    do_value (MemoryGet a "position") w = (Ok position, w') ->
    contains position "aoi_position" = false /\
    contains position "lane_position" = false.

(** The simulator and the clock answer. *)
Definition simulator_answers {W} `{!Collaborators W} : Prop :=
  (forall w, exists day w', do_value GetSimulatorDay w = (Ok day, w')) /\
  (forall w, exists t w', do_value GetSimulatorSecondFromStartOfDay w = (Ok t, w')) /\
  (forall w, exists ms w', do_int NowMs w = (Ok ms, w')).

(** The status file of the group [g] can be opened and appended to. *)
Definition status_file_writable {W} `{!Collaborators W} (g : AgentGroup) : Prop :=
  (forall w, exists w', do_unit (OpenFile (avro_file g "status") "a+b") w = (Ok tt, w')) /\
  (forall w avros, exists w',
     do_unit (FastavroWriter (avro_file g "status") STATUS_SCHEMA avros (Some "snappy")) w
     = (Ok tt, w')).

(** What [init_agents], started on the group [g0], leaves behind. *)
Definition init_post {W} (g0 : AgentGroup) (o : Out W unit) : Prop :=
  Forall (init_event g0) (evs o) /\
  (forall ev e, In ev (evs o) -> raised ev = Some e -> res o = Raise e) /\
  same_config g0 (self (st o)) /\
  match res o with
  | Ok _ =>
      initialized (self (st o)) = true /\
      id2agent (self (st o)) = dict_of_agents (agents g0) /\
      message_dispatch_task (self (st o)) = S (message_dispatch_task g0)
  | Raise _ =>
      initialized (self (st o)) = initialized g0 /\
      message_dispatch_task (self (st o)) <= S (message_dispatch_task g0)
  end%nat.

(** ** Vocabulary of the further properties *)

(** The events of the subscription block of [init_agents]. *)
Definition listen_event (ev : event) : Prop :=
  match ev with
  | EvU MessagerStartListening _ | EvU (MessagerSubscribe _ _) _
  | EvSetMessager _ => True
  | _ => False
  end.

(** The subscription block of [init_agents], for a messager that is
    connected ([b]) or not. *)
Definition listen_block {W} `{!Collaborators W} (g : AgentGroup) (b : bool) : M W unit :=
  if b then
    await_unit MessagerStartListening;;
    for_each (subscribe_agent (exp_id g)) (agents g)
  else ret tt.

(** The avro block of [init_agents]. *)
Definition avro_block {W} `{!Collaborators W} (g : AgentGroup) : M W unit :=
  if enable_avro g then create_avro_files g else ret tt.


(** The events of [init_agents] after its bindings. *)
Definition after_binding_event (g : AgentGroup) (ev : event) : Prop :=
  match ev with
  | EvU MessagerConnect _ | EvIsConnected _ | EvCreateTask => True
  | _ => listen_event ev \/ avro_event g ev
  end.

(** The work of the snapshots: files opened or written, profiles exported,
    reads of the memory of agents, of the simulator day and of the clock. *)
Definition snapshot_work (ev : event) : Prop :=
  match ev with
  | EvU (OpenFile _ _) _ | EvU (FastavroWriter _ _ _ _) _ | EvV _ _
  | EvI NowMs _ => True
  | _ => False
  end.

(** A world in which the status file cannot be opened for writing. *)
Definition refuses_status_file (c : ucall) : bool :=
  match c with
  | OpenFile path _ => String.eqb path "avro/g/status.avro"
  | _ => false
  end.

Definition failing_file_start : St Sim :=
  start [citizen "a1"] "E" true
    {| sim_now := 0; sim_inbox := []; sim_refuses := refuses_status_file;
       sim_connected := true |}.

(** A world in which the binding of the agent "a3" raises. *)
Definition refuses_bind_a3 (c : ucall) : bool :=
  match c with
  | BindToSimulator a => String.eqb (_uuid a) "a3"
  | _ => false
  end.

Definition failing_second_bind_start : St Sim :=
  start [citizen "a1"; citizen "a3"; citizen "a5"] "E" true
    {| sim_now := 0; sim_inbox := []; sim_refuses := refuses_bind_a3;
       sim_connected := true |}.

(** A world whose messager stays disconnected. *)
Definition disconnected_start : St Sim :=
  start [citizen "a1"] "E" true
    {| sim_now := 0; sim_inbox := []; sim_refuses := nobody_refuses;
       sim_connected := false |}.

(** A group without agents, with and without avro files. *)
Definition empty_avro_start : St Sim := start [] "E" true quiet_world.
Definition no_avro_start : St Sim :=
  start [citizen "a1"; institution "b2"] "E" false quiet_world.


(** The messager has nothing to hand out, whatever the state of the world. *)
Definition nothing_to_fetch {W} `{!Collaborators W} : Prop :=
  forall w, exists w', fetch_messages w = (Ok [], w').

(** The events of one idle turn of [message_dispatch]. *)
Definition idle_turn (connected : bool) : list event :=
  [EvIsConnected connected; EvFetchMessages (Ok []); EvSleep].

(** A message for "a1" of a kind that has no handler, and one whose bytes
    do not decode. *)
Definition ping_a1 : Message :=
  {| topic := "exps/E/agents/a1/ping"; payload := VDict [] |}.
Definition garbled_for_stranger : Message :=
  {| topic := "exps/E/agents/zz/gather"; payload := VBytes "{" |}.

Definition garbled_start : St Sim :=
  dispatch_start [gather_a1; garbled_for_stranger; gather_a1].

Definition calm_idle : St unit :=
  {| self := new_group [citizen "a1"] "E" false; world := tt |}.


(** How many times the character [c] occurs in [s]. *)
Fixpoint count_char (c : ascii) (s : string) : nat :=
  match s with
  | EmptyString => O
  | String c' s' => if Ascii.eqb c' c then S (count_char c s') else count_char c s'
  end.

(** Two agents with the same id, and a group whose experiment id has a
    slash. *)
Definition twins_start : St Sim :=
  start [citizen "a1"; institution "a1"] "E" false quiet_world.
Definition slash_start : St Sim := start [citizen "a1"] "lab/7" false quiet_world.


(** Reads: calls that return a value or an integer. *)
Definition read_event (ev : event) : Prop :=
  match ev with
  | EvV _ _ | EvI _ _ => True
  | _ => False
  end.

(** ** [gather] and [update] *)

Section GatherUpdate.

Context {W : Type} `{!Collaborators W}.

(** The loop of [gather]: [results[agent._uuid] = await agent.memory.get(content)]. *)
Fixpoint gather_from (content : string) (l : list Agent) (results : list (string * value))
  : M W (list (string * value)) :=
  match l with
  | [] => ret results
  | agent :: l' =>
      v ← await_value (MemoryGet agent content);
      gather_from content l' (dict_set results (_uuid agent) v)
  end.

(** [async def gather(self, content)]: the dict of the results, by its
    items. *)
Definition gather (content : string) : M W (list (string * value)) :=
  g ← get_self;
  gather_from content (agents g) [].

End GatherUpdate.

(** [agent.memory.update(key, content)], a call of [update] only. *)
Class MemoryWriter (W : Type) : Type := {
  memory_update : Agent -> string -> value -> W -> result unit * W
}.

(** [async def update(self, target_agent_uuid, target_key, content)];
    [self.id2agent[target_agent_uuid]] raises [KeyError] for an id that is
    not a key.  The call of [memory.update] is not among the events: the
    result and the state are returned as they are. *)
Definition update {W} `{!MemoryWriter W} (target_agent_uuid target_key : string)
    (content : value) (s : St W) : result unit * St W :=
  match id2agent (self s) !! target_agent_uuid with
  | None => (Raise (KeyError target_agent_uuid), s)
  | Some agent =>
      let '(r, w) := memory_update agent target_key content (world s) in
      (r, {| self := self s; world := w |})
  end.

(** A memory that takes every update, for the simulated world. *)
#[global] Instance sim_memory_writer : MemoryWriter Sim := {|
  memory_update := fun _ _ _ w => (Ok tt, w)
|}.


(** ** The constructor *)

(** [d[k1][k2]...] *)
Fixpoint getpath (d : value) (ks : list string) : result value :=
  match ks with
  | [] => Ok d
  | k :: ks' =>
      match getitem d k with
      | Ok v => getpath v ks'
      | Raise e => Raise e
      end
  end.

(** [d.get(k, None)], reached in the module only once [d[...]] has
    succeeded, that is on a dict. *)
Definition get_or_none (d : value) (k : string) : result value :=
  match d with
  | VDict items => Ok (default VNone (dict_get items k))
  | _ => Raise (External "AttributeError")
  end.

(** What [__init__] calls: the directory of the avro files, the
    constructors of the clients and the setters of the agents. *)
Inductive setup_call : Type :=
| Mkdir (path : string)
| NewMessager (hostname port username password : value)
| NewLLMConfig (config : value)
| NewLLM
| NewSimulator (config : value)
| NewEconomyClient (server : value)
| SetExpId (a : Agent) (exp : string)
| SetLlmClient (a : Agent)
| SetSimulator (a : Agent)
| SetEconomyClient (a : Agent)
| SetMessager (a : Agent)
| SetAvroFile (a : Agent) (path : string).

(** The answers to them: each call returns or raises. *)
Class Construction (W : Type) : Type := {
  do_setup : setup_call -> W -> result unit * W
}.

Record Built (W A : Type) : Type :=
  { built : result A; after : W; calls : list (setup_call * result unit) }.
Arguments built {W A} b.
Arguments after {W A} b.
Arguments calls {W A} b.

Definition Setup (W A : Type) : Type := W -> Built W A.

Section Constructor.

Context {W : Type} `{!Construction W}.

Definition setup_ret {A} (a : A) : Setup W A :=
  fun w => {| built := Ok a; after := w; calls := [] |}.

Definition setup_bind {A B} (m : Setup W A) (f : A -> Setup W B) : Setup W B :=
  fun w =>
    let o := m w in
    match built o with
    | Ok a => let o' := f a (after o) in
              {| built := built o'; after := after o'; calls := calls o ++ calls o' |}
    | Raise e => {| built := Raise e; after := after o; calls := calls o |}
    end.

#[global] Instance Setup_ret : MRet (Setup W) := @setup_ret.
#[global] Instance Setup_bind : MBind (Setup W) := fun A B f m => setup_bind m f.

(** An expression of the constructor itself: it has a value or raises. *)
Definition evaluate {A} (r : result A) : Setup W A :=
  fun w => {| built := r; after := w; calls := [] |}.

Definition call (c : setup_call) : Setup W unit :=
  fun w =>
    let '(r, w') := do_setup c w in
    {| built := r; after := w'; calls := [(c, r)] |}.

Fixpoint setup_each {A} (body : A -> Setup W unit) (l : list A) : Setup W unit :=
  match l with
  | [] => mret tt
  | x :: l' => body x;; setup_each body l'
  end.

(** Body of the loop over the agents; [economy] is
    [self.economy_client is not None]. *)
Definition configure_agent (exp : string) (economy avro : bool) (path : string)
    (agent : Agent) : Setup W unit :=
  call (SetExpId agent exp);;
  call (SetLlmClient agent);;
  call (SetSimulator agent);;
  (if economy then call (SetEconomyClient agent) else mret tt);;
  call (SetMessager agent);;
  (if avro then call (SetAvroFile agent path) else mret tt).

(** [AgentGroup.__init__]; [fresh_uuid] is [str(uuid.uuid4())].  The
    clients are known by the calls that create them; the group starts
    without a dispatch task. *)
Definition __init__ (fresh_uuid : string) (agents : list Agent) (config : value)
    (exp_id : string) (enable_avro : bool) (avro_path : string) : Setup W AgentGroup :=
  let path := avro_path +:+ "/" +:+ fresh_uuid in
  (if enable_avro then call (Mkdir path) else mret tt);;
  hostname ← evaluate (getpath config ["simulator_request"; "mqtt"; "server"]);
  port ← evaluate (getpath config ["simulator_request"; "mqtt"; "port"]);
  mqtt ← evaluate (getpath config ["simulator_request"; "mqtt"]);
  username ← evaluate (get_or_none mqtt "username");
  mqtt ← evaluate (getpath config ["simulator_request"; "mqtt"]);
  password ← evaluate (get_or_none mqtt "password");
  call (NewMessager hostname port username password);;
  llm_request ← evaluate (getitem config "llm_request");
  call (NewLLMConfig llm_request);;
  call NewLLM;;
  simulator_request ← evaluate (getitem config "simulator_request");
  call (NewSimulator simulator_request);;
  simulator_request ← evaluate (getitem config "simulator_request");
  let economy := contains simulator_request "economy" in
  (if economy
   then server ← evaluate (getpath config ["simulator_request"; "economy"; "server"]);
        call (NewEconomyClient server)
   else mret tt);;
  setup_each (configure_agent exp_id economy enable_avro path) agents;;
  mret {| group_uuid := fresh_uuid; agents := agents; exp_id := exp_id;
          enable_avro := enable_avro; avro_path := path; initialized := false;
          id2agent := ∅; message_dispatch_task := 0 |}.

End Constructor.

(** The setters of the agents among the calls of the constructor. *)
Definition configures (a : Agent) (c : setup_call) : Prop :=
  match c with
  | SetExpId a' _ | SetLlmClient a' | SetSimulator a' | SetEconomyClient a'
  | SetMessager a' | SetAvroFile a' _ => a' = a
  | _ => False
  end.

(** A construction in which every call returns, and one in which the
    language-model client cannot be created. *)
#[global] Instance unit_construction : Construction unit := {|
  do_setup := fun _ w => (Ok tt, w)
|}.

Definition no_llm_construction : Construction unit := {|
  do_setup := fun c w =>
    match c with
    | NewLLM => (Raise (External "llm"), w)
    | _ => (Ok tt, w)
    end
|}.

Definition mqtt_config : value :=
  VDict [("server", VStr "broker"); ("port", VInt 1883)].

Definition full_config : value :=
  VDict [("llm_request", VDict []);
         ("simulator_request",
          VDict [("mqtt", mqtt_config); ("economy", VDict [("server", VStr "econ")])])].

Definition plain_config : value :=
  VDict [("llm_request", VDict []); ("simulator_request", VDict [("mqtt", mqtt_config)])].

Definition config_without_llm : value :=
  VDict [("simulator_request", VDict [("mqtt", mqtt_config)])].


(** ** The files of a group *)

(** The file that holds the records of a schema. *)
Definition file_of_schema (g : AgentGroup) (schema : Schema) : string :=
  match schema with
  | PROFILE_SCHEMA => avro_file g "profile"
  | DIALOG_SCHEMA => avro_file g "dialog"
  | SURVEY_SCHEMA => avro_file g "survey"
  | STATUS_SCHEMA | INSTITUTION_STATUS_SCHEMA => avro_file g "status"
  end.

(** What a group may do with files: with avro enabled only, open one of
    its four files to create it, or its status file to append to it, and
    write to a file the records of the schema of that file. *)
Definition group_file_event (g : AgentGroup) (ev : event) : Prop :=
  match ev with
  | EvU (OpenFile path mode) _ =>
      enable_avro g = true /\
      ((mode = "wb" /\
        exists kind, In kind ["profile"; "dialog"; "status"; "survey"] /\
                     path = avro_file g kind) \/
       (mode = "a+b" /\ path = avro_file g "status"))
  | EvU (FastavroWriter path schema _ _) _ =>
      enable_avro g = true /\ path = file_of_schema g schema
  | _ => True
  end.

(** * Properties *)

Example strip_split_topic :
  split "/" (strip "/" "/exps/e1/agents/a7/gather/")
  = ["exps"; "e1"; "agents"; "a7"; "gather"].
Proof. reflexivity. Qed.

Example split_keeps_empty_fields : split "/" "a//b" = ["a"; ""; "b"].
Proof. reflexivity. Qed.

Example split_empty : split "/" "" = [""].
Proof. reflexivity. Qed.

(** ** Properties of computations *)

Section Tame.

Context {W : Type} `{!Collaborators W}.
Variable P : event -> Prop.

Lemma tame_ret {A} (a : A) : tame P (ret a : M W A).
Proof. intros s; cbn. repeat split; [constructor | intros ? ? []]. Qed.

Lemma tame_raise {A} (e : exn) : tame P (raise e : M W A).
Proof. intros s; cbn. repeat split; [constructor | intros ? ? []]. Qed.

Lemma tame_lift {A} (r : result A) : tame P (lift r : M W A).
Proof. destruct r; [apply tame_ret | apply tame_raise]. Qed.

Lemma tame_get_self : tame P (get_self : M W AgentGroup).
Proof. intros s; cbn. repeat split; [constructor | intros ? ? []]. Qed.

Lemma tame_mark (ev : event) : P ev -> raised ev = None -> tame P (mark ev : M W unit).
Proof.
  intros HP Hr s; cbn. repeat split; [repeat constructor; exact HP |].
  intros ev' e [<- | []] He. congruence.
Qed.

Lemma tame_await_unit (c : ucall) : (forall r, P (EvU c r)) -> tame P (await_unit c).
Proof.
  intros HP s. unfold await_unit. destruct (do_unit c (world s)) as [r w]; cbn.
  repeat split; [repeat constructor; apply HP |].
  intros ev e [<- | []] He. destruct r; cbn in He; congruence.
Qed.

Lemma tame_await_value (c : vcall) : (forall r, P (EvV c r)) -> tame P (await_value c).
Proof.
  intros HP s. unfold await_value. destruct (do_value c (world s)) as [r w]; cbn.
  repeat split; [repeat constructor; apply HP |].
  intros ev e [<- | []] He. destruct r; cbn in He; congruence.
Qed.

Lemma tame_await_int (c : icall) : (forall r, P (EvI c r)) -> tame P (await_int c).
Proof.
  intros HP s. unfold await_int. destruct (do_int c (world s)) as [r w]; cbn.
  repeat split; [repeat constructor; apply HP |].
  intros ev e [<- | []] He. destruct r; cbn in He; congruence.
Qed.

Lemma tame_is_connected : (forall b, P (EvIsConnected b)) -> tame P messager_is_connected.
Proof.
  intros HP s; cbn. repeat split; [repeat constructor; apply HP |].
  intros ev e [<- | []] He. discriminate.
Qed.

Lemma tame_bind {A B} (m : M W A) (f : A -> M W B) :
  tame P m -> (forall a, tame P (f a)) -> tame P (m ≫= f).
Proof.
  intros Hm Hf s. change (m ≫= f) with (bind m f). unfold bind.
  destruct (Hm s) as (Hs & HP & Hr).
  destruct (res (m s)) as [a | e] eqn:E; cbn.
  - destruct (Hf a (st (m s))) as (Hs' & HP' & Hr').
    repeat split.
    + congruence.
    + apply Forall_app; split; assumption.
    + intros ev e Hin He. apply in_app_or in Hin as [Hin | Hin].
      * specialize (Hr ev e Hin He). congruence.
      * eapply Hr'; eassumption.
  - repeat split; [assumption | assumption |].
    intros ev e' Hin He. specialize (Hr ev e' Hin He). congruence.
Qed.

Lemma tame_ret_bind {A B} (a : A) (f : A -> M W B) :
  tame P (f a) -> tame P (ret a ≫= f).
Proof.
  intros Hf s. change (ret a ≫= f) with (bind (ret a) f). unfold bind; cbn.
  exact (Hf s).
Qed.

Lemma tame_raise_bind {A B} (e : exn) (f : A -> M W B) : tame P (raise e ≫= f).
Proof.
  intros s. change (raise e ≫= f) with (bind (raise e) f). unfold bind; cbn.
  repeat split; [constructor | intros ? ? []].
Qed.

Lemma tame_for_each {A} (body : A -> M W unit) (l : list A) :
  (forall x, tame P (body x)) -> tame P (for_each body l).
Proof.
  intros Hb. induction l as [| x l IH]; cbn [for_each].
  - apply tame_ret.
  - apply (tame_bind (body x)); [apply Hb | intros _; exact IH].
Qed.

Lemma tame_collect {A B} (body : A -> M W B) (l : list A) :
  (forall x, tame P (body x)) -> tame P (collect body l).
Proof.
  intros Hb. induction l as [| x l IH]; cbn [collect].
  - apply tame_ret.
  - apply (tame_bind (body x)); [apply Hb | intros y].
    apply (tame_bind (collect body l)); [exact IH | intros ys; apply tame_ret].
Qed.

Lemma tame_first_agent (g : AgentGroup) : tame P (first_agent g : M W Agent).
Proof. unfold first_agent. destruct (agents g); [apply tame_raise | apply tame_ret]. Qed.

End Tame.

(** Splits a computation built from the combinators above into its calls. *)
Ltac tame_steps :=
  repeat match goal with
    | |- tame _ (raise _ ≫= _) => apply tame_raise_bind
    | |- tame _ (ret _ ≫= _) => apply tame_ret_bind
    | |- tame _ (_ ≫= _) => apply tame_bind; [| intros ?]
    | |- tame _ (ret _) => apply tame_ret
    | |- tame _ (raise _) => apply tame_raise
    | |- tame _ (lift _) => apply tame_lift
    | |- tame _ get_self => apply tame_get_self
    | |- tame _ (first_agent _) => apply tame_first_agent
    | |- tame _ (for_each _ _) => apply tame_for_each; intros ?
    | |- tame _ (collect _ _) => apply tame_collect; intros ?
    | |- tame _ (if ?b then _ else _) => destruct b eqn:?
    | |- tame _ (match ?x with _ => _ end) => destruct x
    end.


(** ** Computations that complete *)

Section Completed.

Context {W : Type} `{!Collaborators W}.

Lemma bind_ok_inv {A B} (m : M W A) (f : A -> M W B) (s : St W) (b : B) :
  res ((m ≫= f) s) = Ok b ->
  exists a,
    res (m s) = Ok a /\
    res (f a (st (m s))) = Ok b /\
    evs ((m ≫= f) s) = evs (m s) ++ evs (f a (st (m s))) /\
    st ((m ≫= f) s) = st (f a (st (m s))).
Proof.
  change (m ≫= f) with (bind m f). unfold bind.
  destruct (res (m s)) as [a | e]; cbn; [| discriminate].
  intros H. exists a. auto.
Qed.

Lemma await_unit_evs (c : ucall) (s : St W) :
  evs (await_unit c s) = [EvU c (res (await_unit c s))].
Proof. unfold await_unit. destruct (do_unit c (world s)). reflexivity. Qed.

Lemma await_int_evs (c : icall) (s : St W) :
  evs (await_int c s) = [EvI c (res (await_int c s))].
Proof. unfold await_int. destruct (do_int c (world s)). reflexivity. Qed.

Lemma fetch_messages_evs (s : St W) :
  evs (messager_fetch_messages s) = [EvFetchMessages (res (messager_fetch_messages s))].
Proof.
  unfold messager_fetch_messages. destruct (fetch_messages (world s)). reflexivity.
Qed.

Lemma await_unit_self (c : ucall) (s : St W) : self (st (await_unit c s)) = self s.
Proof. unfold await_unit. destruct (do_unit c (world s)). reflexivity. Qed.

(** A loop that completes has recorded the events of its turns, in order. *)
Lemma for_each_ok_evs {A} (body : A -> M W unit) (E : A -> list event) (l : list A) :
  (forall x s, res (body x s) = Ok tt -> evs (body x s) = E x) ->
  forall s, res (for_each body l s) = Ok tt ->
            evs (for_each body l s) = flat_map E l.
Proof.
  intros HE. induction l as [| x l IH]; intros s Hok; cbn [for_each flat_map] in *.
  - reflexivity.
  - apply bind_ok_inv in Hok as ([] & H1 & H2 & -> & _).
    rewrite (HE _ _ H1), (IH _ H2). reflexivity.
Qed.

Lemma collect_ok_length {A B} (body : A -> M W B) (l : list A) (s : St W) (ys : list B) :
  res (collect body l s) = Ok ys -> length ys = length l.
Proof.
  revert s ys. induction l as [| x l IH]; intros s ys Hok; cbn [collect] in *.
  - cbn in Hok. injection Hok as <-. reflexivity.
  - apply bind_ok_inv in Hok as (y & H1 & H2 & _ & _).
    apply bind_ok_inv in H2 as (ys' & H2 & H3 & _ & _).
    cbn in H3. injection H3 as <-. cbn. f_equal. eapply IH; exact H2.
Qed.

End Completed.

(** ** [init_agents] *)

Section InitAgents.

Context {W : Type} `{!Collaborators W}.

Lemma tame_subscribe_agent (g : AgentGroup) (a : Agent) :
  tame (init_event g) (subscribe_agent (exp_id g) a).
Proof.
  unfold subscribe_agent. tame_steps.
  all: first [ apply tame_mark; [exact I | reflexivity]
          | apply tame_await_unit; intros; exact I ].
Qed.

Lemma tame_export_profile (g : AgentGroup) (a : Agent) :
  tame (avro_event g) (export_profile a).
Proof.
  unfold export_profile. tame_steps. apply tame_await_value; intros; exact I.
Qed.

Lemma tame_create_avro_files (g : AgentGroup) :
  tame (avro_event g) (create_avro_files g).
Proof.
  unfold create_avro_files, first_agent.
  destruct (agents g) as [| a0 l] eqn:Eg; [apply tame_raise_bind |].
  tame_steps.
  all: try apply tame_export_profile.
  all: apply tame_await_unit; intros; cbn; rewrite ?Eg; unfold status_schema_of;
    destruct (issubclass_InstitutionAgent (agent_type a0)); cbn in *;
    auto; discriminate.
Qed.

Lemma avro_event_agents (g g' : AgentGroup) (ev : event) :
  agents g' = agents g -> avro_event g ev -> avro_event g' ev.
Proof. intros E. destruct ev as [[] | [] | | | | | | |]; cbn; rewrite ?E; auto. Qed.

Lemma avro_event_init_event (g : AgentGroup) (ev : event) :
  avro_event g ev -> init_event g ev.
Proof. destruct ev as [[] | [] | | | | | | |]; cbn; auto. Qed.

Lemma tame_weaken {A} (P Q : event -> Prop) (m : M W A) :
  (forall ev, P ev -> Q ev) -> tame P m -> tame Q m.
Proof.
  intros HPQ Hm s. destruct (Hm s) as (Hs & HP & Hr).
  repeat split; [assumption | | assumption].
  eapply Forall_impl; [exact HP | exact HPQ].
Qed.

(** Stepping rules for [init_post]: a tame computation first, a read of
    [self] first, an assignment to [self] first. *)
Lemma post_tame_bind (g0 : AgentGroup) {A} (m : M W A) (f : A -> M W unit) (s : St W) :
  tame (init_event g0) m ->
  same_config g0 (self s) ->
  initialized (self s) = initialized g0 ->
  (message_dispatch_task (self s) <= S (message_dispatch_task g0))%nat ->
  (forall a s', self s' = self s -> init_post g0 (f a s')) ->
  init_post g0 ((m ≫= f) s).
Proof.
  intros Hm Hc Hi Ht Hf. change (m ≫= f) with (bind m f). unfold bind.
  destruct (Hm s) as (Hs & HP & Hr).
  destruct (res (m s)) as [a | e] eqn:E.
  - destruct (Hf a (st (m s)) Hs) as (HP' & Hr' & Hc' & Hres).
    unfold init_post; cbn [res st evs]. repeat split; try apply Hc'.
    + apply Forall_app; split; assumption.
    + intros ev e Hin He. apply in_app_or in Hin as [Hin | Hin].
      * specialize (Hr ev e Hin He). congruence.
      * eapply Hr'; eassumption.
    + exact Hres.
  - unfold init_post; cbn [res st evs]. rewrite Hs. repeat split; try apply Hc; auto.
    intros ev e' Hin He. specialize (Hr ev e' Hin He). congruence.
Qed.

Lemma post_get_self_bind (g0 : AgentGroup) (f : AgentGroup -> M W unit) (s : St W) :
  init_post g0 (f (self s) s) -> init_post g0 ((get_self ≫= f) s).
Proof. intros H. exact H. Qed.

Lemma post_set_self_bind (g0 g' : AgentGroup) (k : unit -> M W unit) (s : St W) :
  init_post g0 (k tt {| self := g'; world := world s |}) ->
  init_post g0 ((set_self g' ≫= k) s).
Proof. intros H. exact H. Qed.

Lemma init_agents_spec (s : St W) : init_post (self s) (init_agents s).
Proof.
  unfold init_agents.
  apply post_get_self_bind.
  apply post_tame_bind; [| repeat split | reflexivity | lia |].
  { apply tame_for_each; intros a. apply tame_await_unit; intros; exact I. }
  intros _ s1 H1. apply post_set_self_bind.
  apply post_tame_bind; [| repeat split | reflexivity | cbn; lia |].
  { apply tame_await_unit; intros; exact I. }
  intros _ s2 H2.
  apply post_tame_bind; [| rewrite H2; repeat split | rewrite H2; reflexivity
                         | rewrite H2; cbn; lia |].
  { apply tame_is_connected; intros; exact I. }
  intros connected s3 H3. rewrite H2 in H3.
  apply post_tame_bind; [| rewrite H3; repeat split | rewrite H3; reflexivity
                         | rewrite H3; cbn; lia |].
  { destruct connected; [| apply tame_ret].
    apply tame_bind; [apply tame_await_unit; intros; exact I | intros _].
    apply tame_for_each; intros a. apply tame_subscribe_agent. }
  intros _ s4 H4. rewrite H3 in H4.
  apply post_get_self_bind.
  apply post_tame_bind; [| rewrite H4; repeat split | rewrite H4; reflexivity
                         | rewrite H4; cbn; lia |].
  { apply tame_mark; [exact I | reflexivity]. }
  intros _ s5 H5. rewrite H4 in H5.
  apply post_set_self_bind. apply post_get_self_bind. cbn [self world].
  apply post_tame_bind; [| rewrite H4; repeat split | rewrite H4; reflexivity
                         | rewrite H4; cbn; lia |].
  { destruct (enable_avro _); [| apply tame_ret].
    eapply tame_weaken; [| apply tame_create_avro_files].
    intros ev Hev. apply avro_event_init_event.
    revert Hev. apply avro_event_agents. rewrite H4. reflexivity. }
  intros _ s6 H6. cbn [self] in H6.
  apply post_get_self_bind. rewrite H6, H4.
  unfold init_post, set_self; cbn. repeat split; auto. intros ? ? [].
Qed.

Lemma create_avro_files_config (g g' : AgentGroup) :
  same_config g g' -> create_avro_files g' = create_avro_files g.
Proof.
  intros (_ & Hag & _ & _ & Hpath).
  unfold create_avro_files, first_agent, avro_file. rewrite Hag, Hpath. reflexivity.
Qed.

Lemma subscribe_agent_ok_evs (exp : string) (a : Agent) (s : St W) :
  res (subscribe_agent exp a s) = Ok tt ->
  evs (subscribe_agent exp a s) = subscribe_events_with agent_topic exp a.
Proof.
  unfold subscribe_agent. intros Hok.
  apply bind_ok_inv in Hok as ([] & _ & Hok & -> & _).
  apply bind_ok_inv in Hok as ([] & H1 & Hok & -> & _).
  apply bind_ok_inv in Hok as ([] & H2 & Hok & -> & _).
  apply bind_ok_inv in Hok as ([] & H3 & Hok & -> & _).
  rewrite !await_unit_evs, H1, H2, H3, Hok. reflexivity.
Qed.

Lemma tame_self {A} (P : event -> Prop) (m : M W A) (s : St W) :
  tame P m -> self (st (m s)) = self s.
Proof. intros Hm. apply (Hm s). Qed.

Lemma tame_subscriptions (g : AgentGroup) (b : bool) :
  tame (init_event g)
    (if b then
       await_unit MessagerStartListening;;
       for_each (subscribe_agent (exp_id g)) (agents g)
     else ret tt).
Proof.
  destruct b; [| apply tame_ret].
  apply tame_bind; [apply tame_await_unit; intros; exact I | intros _].
  apply tame_for_each; intros a. apply tame_subscribe_agent.
Qed.

(** The events of an [init_agents] that completes. *)
Lemma init_agents_ok_events (s : St W) :
  res (init_agents s) = Ok tt ->
  let g := self s in
  exists (b : bool) (s' : St W),
    evs (init_agents s) =
      flat_map (fun a => [EvU (BindToSimulator a) (Ok tt)]) (agents g) ++
      [EvU MessagerConnect (Ok tt); EvIsConnected b] ++
      (if b then EvU MessagerStartListening (Ok tt)
                 :: flat_map (subscribe_events_with agent_topic (exp_id g)) (agents g)
       else []) ++
      [EvCreateTask] ++
      (if enable_avro g then evs (create_avro_files g s') else []) /\
    (enable_avro g = true -> res (create_avro_files g s') = Ok tt).
Proof.
  intros Hok g. subst g. unfold init_agents in *.
  apply bind_ok_inv in Hok as (g0 & Hg0 & Hok & -> & _).
  cbn in Hg0. injection Hg0 as <-. cbn [get_self res st evs app] in *.
  apply bind_ok_inv in Hok as ([] & Hb & Hok & -> & _).
  rewrite (for_each_ok_evs _ (fun a => [EvU (BindToSimulator a) (Ok tt)]) _) by
    (first [ exact Hb | intros x s0 Hx; rewrite await_unit_evs, Hx; reflexivity ]).
  apply bind_ok_inv in Hok as ([] & _ & Hok & -> & _). cbn [set_self res st evs app] in *.
  apply bind_ok_inv in Hok as ([] & Hc & Hok & -> & _).
  rewrite await_unit_evs, Hc.
  apply bind_ok_inv in Hok as (b & Hcon & Hok & -> & _).
  cbn [messager_is_connected res st evs] in Hcon, Hok |- *. injection Hcon as Hcon.
  rewrite Hcon in *. clear Hcon.
  apply bind_ok_inv in Hok as ([] & Hsub & Hok & -> & _).
  apply bind_ok_inv in Hok as (g1 & Hg1 & Hok & -> & _).
  cbn in Hg1. injection Hg1 as <-.
  rewrite (tame_self _ _ _ (tame_subscriptions (self s) b)) in Hok |- *.
  rewrite await_unit_self in Hok |- *. cbn [get_self res st evs app self] in Hok |- *.
  apply bind_ok_inv in Hok as ([] & _ & Hok & -> & _). cbn [mark res st evs app] in *.
  apply bind_ok_inv in Hok as ([] & _ & Hok & -> & _). cbn [set_self res st evs app] in *.
  apply bind_ok_inv in Hok as (g2 & Hg2 & Hok & -> & _).
  cbn in Hg2. injection Hg2 as <-. cbn [get_self res st evs app self] in *.
  apply bind_ok_inv in Hok as ([] & Hav & _ & -> & _).
  cbn [get_self set_self res st evs app add_dispatch_task set_id2agent enable_avro mbind M_bind bind] in *.
  rewrite app_nil_r.
  rewrite (create_avro_files_config (self s)) in * by (repeat split).
  match type of Hav with res (_ ?s5) = _ => exists b, s5 end.
  split.
  - f_equal. cbn [app]. do 2 f_equal. f_equal.
    + destruct b; [| reflexivity].
      apply bind_ok_inv in Hsub as ([] & H1 & H2 & -> & _).
      rewrite await_unit_evs, H1. cbn [app]. f_equal.
      apply for_each_ok_evs; [| exact H2].
      intros x s0. apply subscribe_agent_ok_evs.
    + destruct (enable_avro (self s)); reflexivity.
  - intros E. rewrite E in Hav. exact Hav.
Qed.

End InitAgents.

(** ** Subscriptions *)

Section Subscriptions.

Context {W : Type} `{!Collaborators W}.

Lemma subscriptions_none (l : list event) :
  Forall (fun ev => subscription_of ev = None) l -> subscriptions l = [].
Proof.
  unfold subscriptions. induction 1 as [| ev l Hev _ IH]; cbn; [reflexivity |].
  rewrite Hev. exact IH.
Qed.

Lemma subscriptions_app (l1 l2 : list event) :
  subscriptions (l1 ++ l2) = subscriptions l1 ++ subscriptions l2.
Proof. apply omap_app. Qed.

Lemma subscriptions_of_turns (topic_of : string -> Agent -> string -> string)
    (exp : string) (l : list Agent) :
  subscriptions (flat_map (subscribe_events_with topic_of exp) l)
  = all_subscribed topic_of exp l.
Proof.
  induction l as [| a l IH]; cbn [flat_map all_subscribed]; [reflexivity |].
  rewrite subscriptions_app, IH. reflexivity.
Qed.

Lemma avro_event_no_subscription (g : AgentGroup) (ev : event) :
  avro_event g ev -> subscription_of ev = None.
Proof. destruct ev as [[] [] | | | | | | | |]; cbn; tauto. Qed.

Lemma avro_event_not_is_connected (g : AgentGroup) (b : bool) (l : list event) :
  Forall (avro_event g) l -> ~ In (EvIsConnected b) l.
Proof.
  intros Hl Hin. rewrite Forall_forall in Hl.
  apply list_elem_of_In in Hin. exact (Hl _ Hin).
Qed.

(** C3 (amended). When [init_agents] completes and has seen the messager
    connected, the subscriptions it has made are, for every agent of the
    group in order, the four topics
    [exps/{exp_id}/agents/{_uuid}/{kind}] for the kinds agent-chat,
    user-chat, user-survey and gather, each once, and no others. *)
Theorem init_agents_subscribes_four_topics (s : St W) :
  res (init_agents s) = Ok tt ->
  In (EvIsConnected true) (evs (init_agents s)) ->
  subscriptions (evs (init_agents s))
  = all_subscribed agent_topic (exp_id (self s)) (agents (self s)).
Proof.
  intros Hok Hcon.
  destruct (init_agents_ok_events s Hok) as (b & s' & Hev & Hav).
  rewrite Hev in Hcon |- *. clear Hev.
  assert (Havro : Forall (avro_event (self s))
                    (if enable_avro (self s) then evs (create_avro_files (self s) s')
                     else [])).
  { destruct (enable_avro (self s)); [| constructor].
    apply (tame_create_avro_files (self s) s'). }
  assert (b = true) as ->.
  { apply in_app_or in Hcon as [Hcon | Hcon].
    - apply in_flat_map in Hcon as (a & _ & [Ha | []]). discriminate.
    - cbn [app] in Hcon. destruct Hcon as [Hcon | [Hcon | Hcon]];
        [discriminate | congruence |].
      apply in_app_or in Hcon as [Hcon | Hcon].
      + destruct b; [| destruct Hcon]. destruct Hcon as [Hcon | Hcon]; [discriminate |].
        apply in_flat_map in Hcon as (a & _ & Ha). cbn in Ha.
        repeat (destruct Ha as [Ha | Ha]; [discriminate |]). destruct Ha.
      + destruct Hcon as [Hcon | Hcon]; [discriminate |].
        exfalso. exact (avro_event_not_is_connected _ _ _ Havro Hcon). }
  rewrite !subscriptions_app. cbn [app].
  rewrite (subscriptions_none (flat_map _ _)).
  2:{ apply Forall_forall. intros ev Hin. apply list_elem_of_In in Hin.
      apply in_flat_map in Hin as (a & _ & [<- | []]). reflexivity. }
  rewrite (subscriptions_none (if enable_avro _ then _ else _)).
  2:{ eapply Forall_impl; [exact Havro |]. apply avro_event_no_subscription. }
  change (subscriptions (EvU MessagerStartListening (Ok tt) :: ?l)) with (subscriptions l).
  rewrite subscriptions_of_turns. cbn. rewrite app_nil_r. reflexivity.
Qed.

End Subscriptions.

(** C3, as the specification states it, fails: an agent is not subscribed
    under [experiments/...]. *)
Lemma subscriptions_not_under_experiments :
  res (init_agents single_start) = Ok tt /\
  In (EvIsConnected true) (evs (init_agents single_start)) /\
  subscriptions (evs (init_agents single_start))
  <> all_subscribed spec_topic (exp_id (self single_start)) (agents (self single_start)).
Proof.
  vm_compute. split; [reflexivity |]. split; [do 2 right; left; reflexivity |].
  discriminate.
Qed.

Lemma init_agents_subscribes_four_topics_witness :
  res (init_agents mixed_start) = Ok tt /\
  In (EvIsConnected true) (evs (init_agents mixed_start)) /\
  subscriptions (evs (init_agents mixed_start))
  = all_subscribed agent_topic (exp_id (self mixed_start)) (agents (self mixed_start)).
Proof.
  assert (H1 : res (init_agents mixed_start) = Ok tt) by (vm_compute; reflexivity).
  assert (H2 : In (EvIsConnected true) (evs (init_agents mixed_start)))
    by (vm_compute; repeat (first [left; reflexivity | right])).
  split; [exact H1 |]. split; [exact H2 |].
  apply (init_agents_subscribes_four_topics mixed_start H1 H2).
Defined.

(** ** [save_status], [gather] and [step] *)

Section Step.

Context {W : Type} `{!Collaborators W}.

Lemma tame_get_self_bind {A} (P : AgentGroup -> event -> Prop)
    (f : AgentGroup -> M W A) :
  (forall g, tame (P g) (f g)) -> forall s, 
  self (st ((get_self ≫= f) s)) = self s /\
  Forall (P (self s)) (evs ((get_self ≫= f) s)) /\
  (forall ev e, In ev (evs ((get_self ≫= f) s)) -> raised ev = Some e ->
                res ((get_self ≫= f) s) = Raise e).
Proof. intros Hf s. exact (Hf (self s) s). Qed.

Lemma tame_citizen_status (g : AgentGroup) (a : Agent) :
  tame (status_event g) (citizen_status a).
Proof.
  unfold citizen_status. tame_steps.
  all: first [ apply tame_await_value; intros; exact I
             | apply tame_await_int; intros; exact I ].
Qed.

Lemma tame_institution_status (g : AgentGroup) (a : Agent) :
  tame (status_event g) (institution_status a).
Proof.
  unfold institution_status. tame_steps.
  all: apply tame_await_value; intros; exact I.
Qed.

Lemma save_status_spec (s : St W) :
  self (st (save_status s)) = self s /\
  Forall (status_event (self s)) (evs (save_status s)) /\
  (forall ev e, In ev (evs (save_status s)) -> raised ev = Some e ->
                res (save_status s) = Raise e).
Proof.
  unfold save_status. apply (tame_get_self_bind status_event). intros g.
  destruct (enable_avro g); [| apply tame_ret].
  unfold first_agent. destruct (agents g) as [| a0 l] eqn:Eg; [apply tame_raise_bind |].
  tame_steps.
  all: first [ apply tame_citizen_status | apply tame_institution_status
             | apply tame_await_unit; intros; cbn; rewrite ?Eg; unfold status_schema_of;
               destruct (issubclass_InstitutionAgent (agent_type a0)); cbn in *;
               auto; discriminate ].
Qed.

Lemma gather_runs_self (l : list Agent) (s : St W) :
  self (st (gather_runs l s)) = self s.
Proof.
  revert s. induction l as [| a l IH]; intros s; cbn [gather_runs st]; [reflexivity |].
  rewrite IH. apply await_unit_self.
Qed.

(** [gather] runs every agent, each once, in the order of the list. *)
Lemma gather_runs_evs (l : list Agent) (s : St W) :
  Forall2 (fun a ev => exists r, ev = EvU (AgentRun a) r) l (evs (gather_runs l s)).
Proof.
  revert s. induction l as [| a l IH]; intros s; cbn [gather_runs evs].
  - constructor.
  - rewrite await_unit_evs. cbn [app]. constructor; [eauto | apply IH].
Qed.


(** [step], part by part. *)
Lemma step_unfold (s : St W) :
  let oi := step_init s in
  match res oi with
  | Raise e =>
      res (step s) = Raise e /\ evs (step s) = EvStep :: evs oi /\ st (step s) = st oi
  | Ok _ =>
      let og := gather_runs (agents (self (st oi))) (st oi) in
      match res og with
      | Raise e =>
          res (step s) = Raise e /\ evs (step s) = EvStep :: evs oi ++ evs og /\
          st (step s) = st og
      | Ok _ =>
          let os := save_status (st og) in
          res (step s) = res os /\ evs (step s) = EvStep :: evs oi ++ evs og ++ evs os /\
          st (step s) = st os
      end
  end.
Proof.
  unfold step, step_init, mbind, M_bind, bind.
  cbn [mark get_self res st evs app].
  destruct (initialized (self s)); cbn [negb ret res st evs app].
  - destruct (res (gather_runs (agents (self s)) s)) as [[] | e]; cbn [res st evs app];
      auto.
  - destruct (res (init_agents s)) as [[] | e]; cbn [res st evs app]; auto.
    destruct (res (gather_runs _ _)) as [[] | e]; cbn [res st evs app]; auto.
Qed.

Lemma step_init_spec (s : St W) :
  Forall (init_event (self s)) (evs (step_init s)) /\
  same_config (self s) (self (st (step_init s))) /\
  (initialized (self s) = true -> step_init s = ret tt s) /\
  (res (step_init s) = Ok tt -> initialized (self (st (step_init s))) = true).
Proof.
  unfold step_init. destruct (initialized (self s)) eqn:Ei.
  - cbn. repeat split; auto.
  - destruct (init_agents_spec s) as (HP & _ & Hc & Hres).
    repeat split; try apply Hc; [exact HP | discriminate |].
    intros Hok. rewrite Hok in Hres. apply Hres.
Qed.

Lemma gather_runs_run_events (P : event -> Prop) (l : list Agent) (s : St W) :
  (forall a r, P (EvU (AgentRun a) r)) -> Forall P (evs (gather_runs l s)).
Proof.
  intros HP. pose proof (gather_runs_evs l s) as H.
  induction H as [| a ev l l' (r & ->) _ IH]; constructor; auto.
Qed.


Lemma status_event_not_initialization (g : AgentGroup) (ev : event) :
  status_event g ev -> ~ initialization_work ev.
Proof.
  destruct ev as [[] | [] | | | | | | |]; cbn; try tauto.
  - intros -> ?. discriminate.
  - intros [-> _] ?. discriminate.
Qed.

End Step.

Section StepClaims.

Context {W : Type} `{!Collaborators W}.

(** C1 (amended).  [init_agents] marks the group initialized when it
    completes, and [step] calls [init_agents] only on a group that is not
    initialized: the [step] of an initialized group binds no agent, does not
    connect or subscribe, creates no dispatch task and no avro file, and
    leaves the group initialized with the dispatch tasks it had. *)
Theorem step_initializes_once (s : St W) :
  (res (init_agents s) = Ok tt -> initialized (self (st (init_agents s))) = true) /\
  (initialized (self s) = true ->
   Forall (fun ev => ~ initialization_work ev) (evs (step s)) /\
   initialized (self (st (step s))) = true /\
   message_dispatch_task (self (st (step s))) = message_dispatch_task (self s)).
Proof.
  split.
  - intros Hok. destruct (init_agents_spec s) as (_ & _ & _ & Hres).
    rewrite Hok in Hres. apply Hres.
  - intros Hi. pose proof (step_unfold s) as Hs.
    destruct (step_init_spec s) as (_ & _ & Hret & _). rewrite (Hret Hi) in Hs.
    cbn [ret res st evs app] in Hs.
    assert (Hruns : Forall (fun ev => ~ initialization_work ev)
                      (evs (gather_runs (agents (self s)) s)))
      by (apply gather_runs_run_events; intros a r; cbn; tauto).
    pose proof (gather_runs_self (agents (self s)) s) as Hself.
    destruct (res (gather_runs (agents (self s)) s)) as [[] | e].
    + destruct Hs as (_ & -> & ->).
      destruct (save_status_spec (st (gather_runs (agents (self s)) s)))
        as (Hss & HP & _).
      rewrite Hss, Hself. split; [| split; [exact Hi | reflexivity]].
      constructor; [cbn; tauto |]. apply Forall_app; split; [exact Hruns |].
      eapply Forall_impl; [exact HP |]. apply status_event_not_initialization.
    + destruct Hs as (_ & -> & ->). rewrite Hself.
      split; [| split; [exact Hi | reflexivity]].
      constructor; [cbn; tauto | exact Hruns].
Qed.


End StepClaims.

Lemma step_initializes_once_witness :
  res (init_agents mixed_start) = Ok tt /\
  initialized (self mixed_initialized) = true /\
  Forall (fun ev => ~ initialization_work ev) (evs (step mixed_initialized)) /\
  initialized (self (st (step mixed_initialized))) = true /\
  message_dispatch_task (self (st (step mixed_initialized)))
  = message_dispatch_task (self mixed_initialized).
Proof.
  assert (H1 : res (init_agents mixed_start) = Ok tt) by (vm_compute; reflexivity).
  assert (H2 : initialized (self mixed_initialized) = true)
    by exact (proj1 (step_initializes_once mixed_start) H1).
  split; [exact H1 |]. split; [exact H2 |].
  exact (proj2 (step_initializes_once mixed_initialized) H2).
Defined.

(** C1, as the specification states it, fails: a second call of
    [init_agents] on the initialized group does everything again; the same
    subscriptions are made and the same files created a second time, and a
    second dispatch task is created. *)
Lemma init_agents_twice_repeats_everything :
  res (init_agents mixed_start) = Ok tt /\
  initialized (self mixed_initialized) = true /\
  evs (init_agents mixed_initialized) = evs (init_agents mixed_start) /\
  subscriptions (evs (init_agents mixed_initialized))
  = all_subscribed agent_topic "E" [citizen "a1"; institution "b2"] /\
  In EvCreateTask (evs (init_agents mixed_initialized)) /\
  In (EvU (OpenFile "avro/g/status.avro" "wb") (Ok tt)) (evs (init_agents mixed_initialized)) /\
  message_dispatch_task (self (st (init_agents mixed_initialized))) = 2%nat /\
  ~ Forall (fun ev => ~ initialization_work ev) (evs (init_agents mixed_initialized)).
Proof.
  split; [vm_compute; reflexivity |].
  split; [vm_compute; reflexivity |].
  split; [vm_compute; reflexivity |].
  split; [vm_compute; reflexivity |].
  split; [vm_compute; repeat (first [left; reflexivity | right]) |].
  split; [vm_compute; repeat (first [left; reflexivity | right]) |].
  split; [vm_compute; reflexivity |].
  intros H. vm_compute in H. apply Forall_inv in H. apply H. exact I.
Qed.


(** ** The id-to-agent mapping and the initialized flag *)

Section Id2Agent.

Lemma dict_of_agents_other (l : list Agent) (m : gmap string Agent) (k : string) :
  ~ In k (map _uuid l) ->
  foldl (fun m a => <[_uuid a := a]> m) m l !! k = m !! k.
Proof.
  revert m. induction l as [| x l IH]; intros m Hk; cbn in *; [reflexivity |].
  rewrite IH by tauto. apply lookup_insert_ne. tauto.
Qed.

Lemma dict_of_agents_keys (l : list Agent) (m : gmap string Agent) (k : string) :
  is_Some (foldl (fun m a => <[_uuid a := a]> m) m l !! k) <->
  is_Some (m !! k) \/ exists a, In a l /\ _uuid a = k.
Proof.
  revert m. induction l as [| x l IH]; intros m; cbn.
  - split; [auto | intros [H | (a & [] & _)]; exact H].
  - rewrite IH. destruct (decide (_uuid x = k)) as [E | E].
    + subst k. rewrite lookup_insert_eq. split; [| eauto].
      intros _. right. exists x. auto.
    + rewrite lookup_insert_ne by exact E. split.
      * intros [H | (a & Ha & Hk)]; [auto | right; exists a; auto].
      * intros [H | (a & [Ha | Ha] & Hk)]; [auto | congruence | right; exists a; auto].
Qed.

Lemma dict_of_agents_lookup (l : list Agent) (m : gmap string Agent) (a : Agent) :
  NoDup (map _uuid l) -> In a l ->
  foldl (fun m a => <[_uuid a := a]> m) m l !! _uuid a = Some a.
Proof.
  revert m. induction l as [| x l IH]; intros m Hnd Ha; cbn in *; [contradiction |].
  apply NoDup_cons in Hnd as [Hx Hnd].
  destruct Ha as [-> | Ha].
  - rewrite dict_of_agents_other; [apply lookup_insert_eq |].
    intros Hin. apply Hx. apply list_elem_of_In. exact Hin.
  - apply IH; assumption.
Qed.

End Id2Agent.

Section InitClaims.

Context {W : Type} `{!Collaborators W}.

(** C9. After [init_agents] has completed, [id2agent] holds exactly the ids
    of the agents of the group: its keys are the [_uuid]s of [self.agents]
    and no others, and (ids being unique) the [_uuid] of every agent of the
    group is mapped to that agent. *)
Theorem id2agent_holds_exactly_the_agents (s : St W) :
  res (init_agents s) = Ok tt ->
  let g' := self (st (init_agents s)) in
  agents g' = agents (self s) /\
  (forall k, is_Some (id2agent g' !! k) <-> exists a, In a (agents g') /\ _uuid a = k) /\
  (NoDup (map _uuid (agents g')) ->
   forall a, In a (agents g') -> id2agent g' !! _uuid a = Some a).
Proof.
  intros Hok g'.
  destruct (init_agents_spec s) as (_ & _ & (_ & Hag & _) & Hres).
  rewrite Hok in Hres. destruct Hres as (_ & Hmap & _).
  subst g'. rewrite Hmap, Hag. unfold dict_of_agents. repeat split.
  - intros Hk. apply dict_of_agents_keys in Hk as [Hk | Hk]; [| exact Hk].
    rewrite lookup_empty in Hk. destruct Hk as [? Hk]. discriminate.
  - intros Hk. apply dict_of_agents_keys. right. exact Hk.
  - intros Hnd a Ha. apply dict_of_agents_lookup; assumption.
Qed.

(** C7. When a call of [init_agents] raises (the binding of an agent to the
    simulator, the connection of the messager, its listening, a
    subscription, or any later call), [init_agents] raises that exception
    and [initialized] is still false; [initialized] is true afterwards
    exactly when [init_agents] has completed. *)
Theorem init_agents_failure_leaves_uninitialized (s : St W) :
  initialized (self s) = false ->
  let o := init_agents s in
  (forall c e, In (EvU c (Raise e)) (evs o) ->
               res o = Raise e /\ initialized (self (st o)) = false) /\
  (initialized (self (st o)) = true <-> res o = Ok tt).
Proof.
  intros Hinit o.
  destruct (init_agents_spec s) as (_ & Hr & _ & Hres). fold o in Hr, Hres.
  split.
  - intros c e Hin. assert (E : res o = Raise e) by (eapply Hr; [exact Hin | reflexivity]).
    split; [exact E |]. rewrite E in Hres. destruct Hres; congruence.
  - destruct (res o) as [[] | e].
    + split; [reflexivity | intros _; apply Hres].
    + destruct Hres as [Hres _]. split; [congruence | discriminate].
Qed.

End InitClaims.

Lemma id2agent_holds_exactly_the_agents_witness :
  res (init_agents mixed_start) = Ok tt /\
  NoDup (map _uuid (agents (self mixed_initialized))) /\
  agents (self mixed_initialized) = agents (self mixed_start) /\
  (forall k, is_Some (id2agent (self mixed_initialized) !! k) <->
             exists a, In a (agents (self mixed_initialized)) /\ _uuid a = k) /\
  (forall a, In a (agents (self mixed_initialized)) ->
             id2agent (self mixed_initialized) !! _uuid a = Some a).
Proof.
  assert (H1 : res (init_agents mixed_start) = Ok tt) by (vm_compute; reflexivity).
  assert (H2 : NoDup (map _uuid (agents (self mixed_initialized)))).
  { apply (bool_decide_unpack _). vm_compute. exact I. }
  destruct (id2agent_holds_exactly_the_agents mixed_start H1) as (Ha & Hk & Hl).
  split; [exact H1 |]. split; [exact H2 |]. split; [exact Ha |]. split; [exact Hk |].
  exact (Hl H2).
Defined.

Lemma init_agents_failure_leaves_uninitialized_witness :
  initialized (self failing_bind_start) = false /\
  In (EvU (BindToSimulator (citizen "a1")) (Raise (External "refused")))
     (evs (init_agents failing_bind_start)) /\
  res (init_agents failing_bind_start) = Raise (External "refused") /\
  initialized (self (st (init_agents failing_bind_start))) = false.
Proof.
  assert (H1 : initialized (self failing_bind_start) = false) by reflexivity.
  assert (H2 : In (EvU (BindToSimulator (citizen "a1")) (Raise (External "refused")))
                 (evs (init_agents failing_bind_start)))
    by (vm_compute; repeat (first [left; reflexivity | right])).
  split; [exact H1 |]. split; [exact H2 |].
  exact (proj1 (init_agents_failure_leaves_uninitialized failing_bind_start H1) _ _ H2).
Defined.

(** ** [run] *)

Section Run.

Context {W : Type} `{!Collaborators W}.

Lemma bind_unfold {A B} (m : M W A) (f : A -> M W B) (s : St W) :
  (m ≫= f) s =
  match res (m s) with
  | Ok a => {| res := res (f a (st (m s))); st := st (f a (st (m s)));
               evs := evs (m s) ++ evs (f a (st (m s))) |}
  | Raise e => {| res := Raise e; st := st (m s); evs := evs (m s) |}
  end.
Proof. reflexivity. Qed.














End Run.


(** ** [message_dispatch] *)

Section Dispatch.

Context {W : Type} `{!Collaborators W}.

Lemma tame_dispatch_message (m : Message) : tame dispatch_event (dispatch_message m).
Proof.
  unfold dispatch_message. tame_steps.
  all: apply tame_await_unit; intros; exact I.
Qed.

Lemma dispatch_message_decoded (m : Message) (f : value -> M W unit) :
  (match payload m return M W value with
   | VBytes b => lift (json_loads b)
   | p => ret p
   end ≫= f) = (lift (decoded m) ≫= f).
Proof. unfold decoded. destruct (payload m); reflexivity. Qed.

(** The message is for an agent of the group and of one of the four kinds:
    its handler is called, once, and nothing else happens. *)
Lemma dispatch_message_known (s : St W) (m : Message) (p : value)
    (x1 x2 x3 id kind : string) (a : Agent) (h : Agent -> value -> ucall) :
  decoded m = Ok p ->
  topic_fields m = [x1; x2; x3; id; kind] ->
  id2agent (self s) !! id = Some a ->
  handler_of kind_handlers kind = Some h ->
  dispatch_message m s = await_unit (h a p) s.
Proof.
  intros Hp Ht Ha Hh. unfold dispatch_message. rewrite dispatch_message_decoded, Hp.
  unfold topic_fields in Ht. rewrite Ht.
  change ((lift (Ok p) ≫= ?f) s) with (bind (ret p) f s).
  unfold bind; cbn [ret res st evs app].
  change ((get_self ≫= ?f) s) with (bind get_self f s).
  unfold bind; cbn [get_self res st evs app]. rewrite Ha.
  cbn [handler_of kind_handlers] in Hh.
  destruct (await_unit (h a p) s) as [r1 s1 l1] eqn:E.
  destruct (String.eqb kind "agent-chat");
    [injection Hh as <-; rewrite E; reflexivity |].
  destruct (String.eqb kind "user-chat");
    [injection Hh as <-; rewrite E; reflexivity |].
  destruct (String.eqb kind "user-survey");
    [injection Hh as <-; rewrite E; reflexivity |].
  destruct (String.eqb kind "gather");
    [injection Hh as <-; rewrite E; reflexivity | discriminate].
Qed.

(** The message names an agent the group does not own: nothing happens. *)
Lemma dispatch_message_unknown (s : St W) (m : Message) :
  for_unknown_agent (self s) m -> dispatch_message m s = ret tt s.
Proof.
  intros ((p & Hp) & x1 & x2 & x3 & id & kind & Ht & Ha).
  unfold dispatch_message. rewrite dispatch_message_decoded, Hp.
  unfold topic_fields in Ht. rewrite Ht.
  change ((lift (Ok p) ≫= ?f) s) with (bind (ret p) f s).
  unfold bind; cbn [ret res st evs app].
  change ((get_self ≫= ?f) s) with (bind get_self f s).
  unfold bind; cbn [get_self res st evs app]. rewrite Ha. reflexivity.
Qed.

(** The topic has not five fields: [ValueError], from the unpacking. *)
Lemma dispatch_message_malformed (s : St W) (m : Message) (p : value) :
  decoded m = Ok p -> length (topic_fields m) <> 5%nat ->
  dispatch_message m s = raise ValueError s.
Proof.
  intros Hp Ht. unfold dispatch_message. rewrite dispatch_message_decoded, Hp.
  unfold topic_fields in Ht.
  change ((lift (Ok p) ≫= ?f) s) with (bind (ret p) f s).
  unfold bind; cbn [ret res st evs app].
  destruct (split "/" (strip "/" (topic m))) as [| ? [| ? [| ? [| ? [| ? [| ? ?]]]]]];
    try reflexivity.
  cbn in Ht. congruence.
Qed.

Lemma out_eta {A} (o : Out W A) : {| res := res o; st := st o; evs := evs o |} = o.
Proof. destruct o; reflexivity. Qed.

Lemma bind_ret_state {A B} (m : M W A) (f : A -> M W B) (s : St W) (a : A) :
  m s = ret a s -> (m ≫= f) s = f a s.
Proof. intros Hm. rewrite bind_unfold, Hm. cbn [ret res st evs app]. apply out_eta. Qed.

(** [dispatch_message] as a dispatch through the table of handlers. *)
Lemma dispatch_message_cases (s : St W) (m : Message) :
  dispatch_message m s =
  match decoded m with
  | Raise e => raise e s
  | Ok p =>
      match topic_fields m with
      | [_; _; _; id; kind] =>
          match id2agent (self s) !! id, handler_of kind_handlers kind with
          | Some a, Some h => await_unit (h a p) s
          | _, _ => ret tt s
          end
      | _ => raise ValueError s
      end
  end.
Proof.
  destruct (decoded m) as [p | e] eqn:Hp.
  - destruct (topic_fields m) as [| x1 [| x2 [| x3 [| id [| kind [| ? ?]]]]]] eqn:Ht;
      try (apply (dispatch_message_malformed s m p Hp); rewrite Ht; cbn; congruence).
    destruct (id2agent (self s) !! id) as [a |] eqn:Ha.
    + destruct (handler_of kind_handlers kind) as [h |] eqn:Hh.
      * eapply dispatch_message_known; eassumption.
      * unfold dispatch_message. rewrite dispatch_message_decoded, Hp.
        unfold topic_fields in Ht. rewrite Ht.
        change ((lift (Ok p) ≫= ?f) s) with (bind (ret p) f s).
        unfold bind; cbn [ret res st evs app].
        change ((get_self ≫= ?f) s) with (bind get_self f s).
        unfold bind; cbn [get_self res st evs app]. rewrite Ha.
        cbn [handler_of kind_handlers] in Hh.
        destruct (String.eqb kind "agent-chat"); [discriminate |].
        destruct (String.eqb kind "user-chat"); [discriminate |].
        destruct (String.eqb kind "user-survey"); [discriminate |].
        destruct (String.eqb kind "gather"); [discriminate | reflexivity].
    + apply dispatch_message_unknown. split; [eauto |].
      exists x1, x2, x3, id, kind. auto.
  - unfold dispatch_message. rewrite dispatch_message_decoded, Hp. reflexivity.
Qed.



Lemma for_each_unknown (msgs : list Message) (s : St W) :
  Forall (for_unknown_agent (self s)) msgs ->
  for_each dispatch_message msgs s = ret tt s.
Proof.
  induction 1 as [| m msgs Hm _ IH]; cbn [for_each]; [reflexivity |].
  rewrite (bind_ret_state _ _ _ tt (dispatch_message_unknown _ _ Hm)). exact IH.
Qed.

Lemma for_each_skips_unknown (pre post : list Message) (m : Message) (s : St W) :
  for_unknown_agent (self s) m ->
  for_each dispatch_message (pre ++ m :: post) s
  = for_each dispatch_message (pre ++ post) s.
Proof.
  revert s. induction pre as [| x pre IH]; intros s Hm; cbn [for_each app].
  - apply (bind_ret_state _ (fun _ => for_each dispatch_message post) _ tt).
    apply dispatch_message_unknown. exact Hm.
  - rewrite !bind_unfold. destruct (res (dispatch_message x s)); [| reflexivity].
    rewrite IH; [reflexivity |].
    rewrite (tame_self _ _ _ (tame_dispatch_message x)). exact Hm.
Qed.

End Dispatch.

Section DispatchClaims.

Context {W : Type} `{!Collaborators W}.

Lemma handler_of_table (kind : string) (h : Agent -> value -> ucall) :
  In (kind, h) kind_handlers -> handler_of kind_handlers kind = Some h.
Proof.
  intros [E | [E | [E | [E | []]]]]; injection E as <- <-; reflexivity.
Qed.


(** C2 (amended).  A message with a decodable payload and a topic of five
    fields that names an agent the group does not own is skipped: nothing
    is called or raised for it, the other messages of the batch are
    dispatched as if it were not there, and a turn of the loop whose
    messages are all such reaches its sleep.  A message whose topic has not
    five fields raises [ValueError], which leaves the loop. *)
Theorem unknown_agent_is_skipped (s : St W) :
  (forall m, for_unknown_agent (self s) m -> dispatch_message m s = ret tt s) /\
  (forall pre m post,
     for_unknown_agent (self s) m ->
     for_each dispatch_message (pre ++ m :: post) s
     = for_each dispatch_message (pre ++ post) s) /\
  (forall msgs,
     res (messager_fetch_messages s) = Ok msgs ->
     Forall (for_unknown_agent (self s)) msgs ->
     res (dispatch_cycle s) = Ok tt /\
     evs (dispatch_cycle s)
     = [EvIsConnected (is_connected (world s)); EvFetchMessages (Ok msgs); EvSleep]) /\
  (forall m p post n,
     decoded m = Ok p -> length (topic_fields m) <> 5%nat ->
     res (messager_fetch_messages s) = Ok (m :: post) ->
     dispatch_message m s = raise ValueError s /\
     res (message_dispatch (S n) s) = Raise ValueError).
Proof.
  split; [| split; [| split]].
  - intros m. apply dispatch_message_unknown.
  - intros pre m post. apply for_each_skips_unknown.
  - intros msgs Hf Hall. unfold dispatch_cycle.
    rewrite bind_unfold. cbn [messager_is_connected res st evs].
    rewrite bind_unfold, fetch_messages_evs, Hf.
    assert (Hself : self (st (messager_fetch_messages s)) = self s).
    { unfold messager_fetch_messages. destruct (fetch_messages (world s)). reflexivity. }
    rewrite bind_unfold, for_each_unknown by (rewrite Hself; exact Hall).
    cbn. auto.
  - intros m p post n Hp Ht Hf. split; [exact (dispatch_message_malformed s m p Hp Ht) |].
    assert (Hc : res (dispatch_cycle s) = Raise ValueError).
    { unfold dispatch_cycle.
      rewrite bind_unfold. cbn [messager_is_connected res st evs].
      rewrite bind_unfold, Hf. cbn [res].
      rewrite bind_unfold. cbn [for_each].
      rewrite bind_unfold, (dispatch_message_malformed _ m p Hp Ht). reflexivity. }
    cbn [message_dispatch]. rewrite bind_unfold, Hc. reflexivity.
Qed.

End DispatchClaims.


Lemma unknown_agent_is_skipped_witness :
  for_unknown_agent (self stranger_start) chat_for_stranger /\
  dispatch_message chat_for_stranger stranger_start = ret tt stranger_start /\
  for_each dispatch_message ([] ++ chat_for_stranger :: [gather_a1]) stranger_start
  = for_each dispatch_message ([] ++ [gather_a1]) stranger_start /\
  res (message_dispatch 2 stranger_start) = Ok tt.
Proof.
  set (s := stranger_start).
  assert (Hu : for_unknown_agent (self s) chat_for_stranger).
  { split; [exists (VDict []); reflexivity |].
    exists "exps", "E", "agents", "zz", "agent-chat".
    split; [reflexivity | vm_compute; reflexivity]. }
  destruct (unknown_agent_is_skipped s) as (Hskip & Hrest & _ & _).
  split; [exact Hu |]. split; [exact (Hskip _ Hu) |].
  split; [exact (Hrest [] _ [gather_a1] Hu) |]. vm_compute. reflexivity.
Defined.

(** C2, as the specification states it, fails: a message whose topic has
    three fields ends the loop with [ValueError]; the message fetched with
    it is not dispatched, the turn does not reach its sleep and there is no
    second turn. *)
Lemma malformed_topic_ends_the_loop :
  length (topic_fields short_topic) = 3%nat /\
  res (message_dispatch 2 short_topic_start) = Raise ValueError /\
  evs (message_dispatch 2 short_topic_start)
  = [EvIsConnected true; EvFetchMessages (Ok [short_topic; gather_a1])].
Proof. vm_compute. repeat split; reflexivity. Qed.

(** ** Snapshots *)

Section Snapshots.

Context {W : Type} `{!Collaborators W}.

Lemma first_agent_cons (g : AgentGroup) (a0 : Agent) (rest : list Agent) :
  agents g = a0 :: rest -> first_agent g = (ret a0 : M W Agent).
Proof. intros E. unfold first_agent. rewrite E. reflexivity. Qed.

(** The avro block of [init_agents], when it completes: the status file is
    created under the schema of the first agent, and the profiles of all
    the agents are written when the first agent is not an institution. *)
Lemma create_avro_files_ok (g : AgentGroup) (a0 : Agent) (rest : list Agent)
    (s : St W) :
  agents g = a0 :: rest ->
  res (create_avro_files g s) = Ok tt ->
  In (EvU (FastavroWriter (avro_file g "status") (status_schema_of a0) [] None) (Ok tt))
     (evs (create_avro_files g s)) /\
  (issubclass_InstitutionAgent (agent_type a0) = false ->
   exists profiles,
     length profiles = length (agents g) /\
     In (EvU (FastavroWriter (avro_file g "profile") PROFILE_SCHEMA profiles None) (Ok tt))
        (evs (create_avro_files g s))).
Proof.
  intros Hag Hok. unfold create_avro_files in *.
  rewrite (first_agent_cons g a0 rest Hag) in *.
  apply bind_ok_inv in Hok as (a & Ha & Hok & -> & _).
  cbn in Ha. injection Ha as <-. cbn [ret res st evs app] in *.
  apply bind_ok_inv in Hok as ([] & Hprofile & Hok & -> & _).
  apply bind_ok_inv in Hok as ([] & _ & Hok & -> & _).
  apply bind_ok_inv in Hok as ([] & _ & Hok & -> & _).
  apply bind_ok_inv in Hok as ([] & _ & Hok & -> & _).
  apply bind_ok_inv in Hok as (a & Ha & Hok & -> & _).
  cbn in Ha. injection Ha as <-. cbn [ret res st evs app] in *.
  apply bind_ok_inv in Hok as ([] & Hstatus & _ & -> & _).
  unfold status_schema_of.
  destruct (issubclass_InstitutionAgent (agent_type a0)) eqn:Ecls;
    cbn [negb] in Hstatus, Hprofile |- *.
  - split; [| discriminate].
    rewrite !in_app_iff. do 4 right. left.
    rewrite await_unit_evs, Hstatus. left. reflexivity.
  - split.
    + rewrite !in_app_iff. do 4 right. left.
      rewrite await_unit_evs, Hstatus. left. reflexivity.
    + intros _.
      apply bind_ok_inv in Hprofile as ([] & _ & Hprofile & Hev & _).
      apply bind_ok_inv in Hprofile as (profiles & Hcol & Hw & Hev' & _).
      exists profiles. split; [exact (collect_ok_length _ _ _ _ Hcol) |].
      rewrite !in_app_iff. left. rewrite Hev, Hev'.
      rewrite !in_app_iff. do 2 right. rewrite await_unit_evs, Hw. left. reflexivity.
Qed.

(** [save_status], when it completes on a group with avro files: one record
    for every agent is appended, under the schema of the first agent. *)
Lemma save_status_ok (s : St W) (a0 : Agent) (rest : list Agent) :
  agents (self s) = a0 :: rest -> enable_avro (self s) = true ->
  res (save_status s) = Ok tt ->
  exists avros,
    length avros = length (agents (self s)) /\
    In (EvU (FastavroWriter (avro_file (self s) "status") (status_schema_of a0) avros
               (Some "snappy")) (Ok tt))
       (evs (save_status s)).
Proof.
  intros Hag Hen Hok. unfold save_status in *.
  apply bind_ok_inv in Hok as (g & Hg & Hok & -> & _).
  cbn in Hg. injection Hg as <-. cbn [get_self res st evs app] in *.
  rewrite Hen in *. rewrite (first_agent_cons _ a0 rest Hag) in *.
  apply bind_ok_inv in Hok as (a & Ha & Hok & -> & _).
  cbn in Ha. injection Ha as <-. cbn [ret res st evs app] in *.
  unfold status_schema_of.
  destruct (issubclass_InstitutionAgent (agent_type a0)); cbn [negb] in *.
  - apply bind_ok_inv in Hok as (avros & Hcol & Hok & -> & _).
    apply bind_ok_inv in Hok as ([] & _ & Hw & -> & _).
    exists avros. split; [exact (collect_ok_length _ _ _ _ Hcol) |].
    rewrite !in_app_iff. do 2 right. rewrite await_unit_evs, Hw. left. reflexivity.
  - apply bind_ok_inv in Hok as (avros & Hcol & Hok & -> & _).
    apply bind_ok_inv in Hok as ([] & _ & Hw & -> & _).
    exists avros. split; [exact (collect_ok_length _ _ _ _ Hcol) |].
    rewrite !in_app_iff. do 2 right. rewrite await_unit_evs, Hw. left. reflexivity.
Qed.

(** C10.  In a group with avro files whose first agent is [a0], whatever
    the other agents are: [init_agents] writes under [PROFILE_SCHEMA] only
    if [a0] is not an institution, and under a status schema only the one
    of [a0]; when it completes, it has created the status file under the
    schema of [a0] and, if [a0] is not an institution, written the profiles
    of all the agents.  [save_status] writes under the status schema of
    [a0] only, and when it completes it has appended one record for every
    agent of the group under that schema. *)
Theorem first_agent_decides_the_schemas (s : St W) (a0 : Agent) (rest : list Agent) :
  agents (self s) = a0 :: rest ->
  enable_avro (self s) = true ->
  (forall path schema records codec r,
     In (EvU (FastavroWriter path schema records codec) r) (evs (init_agents s)) ->
     match schema with
     | PROFILE_SCHEMA => issubclass_InstitutionAgent (agent_type a0) = false
     | STATUS_SCHEMA | INSTITUTION_STATUS_SCHEMA => schema = status_schema_of a0
     | DIALOG_SCHEMA | SURVEY_SCHEMA => True
     end) /\
  (res (init_agents s) = Ok tt ->
   In (EvU (FastavroWriter (avro_file (self s) "status") (status_schema_of a0) [] None)
         (Ok tt))
      (evs (init_agents s)) /\
   (issubclass_InstitutionAgent (agent_type a0) = false ->
    exists profiles,
      length profiles = length (agents (self s)) /\
      In (EvU (FastavroWriter (avro_file (self s) "profile") PROFILE_SCHEMA profiles None)
            (Ok tt))
         (evs (init_agents s)))) /\
  (forall path schema records codec r,
     In (EvU (FastavroWriter path schema records codec) r) (evs (save_status s)) ->
     schema = status_schema_of a0) /\
  (res (save_status s) = Ok tt ->
   exists avros,
     length avros = length (agents (self s)) /\
     In (EvU (FastavroWriter (avro_file (self s) "status") (status_schema_of a0) avros
                (Some "snappy")) (Ok tt))
        (evs (save_status s))).
Proof.
  intros Hag Hen. split; [| split; [| split]].
  - intros path schema records codec r Hin.
    destruct (init_agents_spec s) as (HP & _). rewrite Forall_forall in HP.
    apply list_elem_of_In in Hin. specialize (HP _ Hin). cbn in HP.
    rewrite Hag in HP. destruct HP as [_ HP].
    destruct schema; auto.
  - intros Hok. destruct (init_agents_ok_events s Hok) as (b & s' & Hev & Hav).
    cbv zeta in Hev. rewrite Hen in Hev.
    destruct (create_avro_files_ok (self s) a0 rest s' Hag (Hav Hen)) as (Hst & Hpr).
    split.
    + rewrite Hev, !in_app_iff. do 4 right. exact Hst.
    + intros Hcit. destruct (Hpr Hcit) as (profiles & Hlen & Hin).
      exists profiles. split; [exact Hlen |].
      rewrite Hev, !in_app_iff. do 4 right. exact Hin.
  - intros path schema records codec r Hin.
    destruct (save_status_spec s) as (_ & HP & _). rewrite Forall_forall in HP.
    apply list_elem_of_In in Hin. specialize (HP _ Hin). cbn in HP.
    rewrite Hag in HP. apply HP.
  - apply (save_status_ok s a0 rest Hag Hen).
Qed.

End Snapshots.

(** ** The status records of citizens *)

Section CitizenStatus.

Context {W : Type} `{!Collaborators W}.

Lemma await_value_at (c : vcall) (g : AgentGroup) (w w' : W) (v : value) :
  do_value c w = (Ok v, w') ->
  await_value c {| self := g; world := w |}
  = {| res := Ok v; st := {| self := g; world := w' |}; evs := [EvV c (Ok v)] |}.
Proof. intros H. unfold await_value; cbn [world self]. rewrite H. reflexivity. Qed.

Lemma await_int_at (c : icall) (g : AgentGroup) (w w' : W) (z : Z) :
  do_int c w = (Ok z, w') ->
  await_int c {| self := g; world := w |}
  = {| res := Ok z; st := {| self := g; world := w' |}; evs := [EvI c (Ok z)] |}.
Proof. intros H. unfold await_int; cbn [world self]. rewrite H. reflexivity. Qed.

Lemma await_unit_at (c : ucall) (g : AgentGroup) (w w' : W) :
  do_unit c w = (Ok tt, w') ->
  await_unit c {| self := g; world := w |}
  = {| res := Ok tt; st := {| self := g; world := w' |}; evs := [EvU c (Ok tt)] |}.
Proof. intros H. unfold await_unit; cbn [world self]. rewrite H. reflexivity. Qed.

Lemma parent_id_of_unlocated (position : value) :
  contains position "aoi_position" = false ->
  contains position "lane_position" = false ->
  parent_id_of position = Ok (VInt (-1)).
Proof. intros H1 H2. unfold parent_id_of. rewrite H1, H2. reflexivity. Qed.

(** The record of one citizen whose memory answers: it is built, carries the
    id of the agent, and -1 for [parent_id] when the position has neither an
    aoi nor a lane. *)
Lemma citizen_status_ok (a : Agent) (g : AgentGroup) (w : W) :
  citizen_readable a -> simulator_answers ->
  exists record w',
    res (citizen_status a {| self := g; world := w |}) = Ok record /\
    st (citizen_status a {| self := g; world := w |}) = {| self := g; world := w' |} /\
    getitem record "id" = Ok (VStr (_uuid a)) /\
    (unlocated a -> getitem record "parent_id" = Ok (VInt (-1))).
Proof.
  intros (Hpos & Hneeds & Hcur) (Hday & Ht & Hnow).
  destruct (Hpos w) as (position & w1 & E1 & longlat & lng & lat & pid & Hll & Hlng & Hlat & Hpid).
  destruct (Hneeds w1) as (needs & w2 & E2 & hungry & tired & safe & social & Hh & Hti & Hsa & Hso).
  destruct (Hcur w2) as (current & w3 & intention & E3 & Hint).
  destruct (Hday w3) as (day & w4 & E4).
  destruct (Ht w4) as (t & w5 & E5).
  destruct (Hnow w5) as (ms & w6 & E6).
  unfold citizen_status.
  rewrite bind_unfold, (await_value_at _ _ _ _ _ E1). cbn [res st evs].
  rewrite bind_unfold, Hll. cbn [lift ret res st evs].
  rewrite bind_unfold, Hlng. cbn [lift ret res st evs].
  rewrite bind_unfold. cbn [lift ret res st evs].
  rewrite bind_unfold, Hlat. cbn [lift ret res st evs].
  rewrite bind_unfold, Hpid. cbn [lift ret res st evs].
  rewrite bind_unfold, (await_value_at _ _ _ _ _ E2). cbn [res st evs].
  rewrite bind_unfold, (await_value_at _ _ _ _ _ E3). cbn [res st evs].
  rewrite bind_unfold, Hint. cbn [lift ret res st evs].
  rewrite bind_unfold, (await_value_at _ _ _ _ _ E4). cbn [res st evs].
  rewrite bind_unfold, (await_value_at _ _ _ _ _ E5). cbn [res st evs].
  rewrite bind_unfold, Hh. cbn [lift ret res st evs].
  rewrite bind_unfold, Hti. cbn [lift ret res st evs].
  rewrite bind_unfold, Hsa. cbn [lift ret res st evs].
  rewrite bind_unfold, Hso. cbn [lift ret res st evs].
  rewrite bind_unfold, (await_int_at _ _ _ _ _ E6). cbn [res st evs].
  eexists _, w6. split; [reflexivity |]. split; [reflexivity |].
  split; [reflexivity |].
  intros Hun. destruct (Hun _ _ _ E1) as [Ha Hl].
  rewrite (parent_id_of_unlocated _ Ha Hl) in Hpid. injection Hpid as <-. reflexivity.
Qed.

(** The records of the citizen loop: one for every agent, in order. *)
Lemma collect_citizen_status_ok (l : list Agent) (g : AgentGroup) (w : W) :
  Forall citizen_readable l -> simulator_answers ->
  exists avros w',
    res (collect citizen_status l {| self := g; world := w |}) = Ok avros /\
    st (collect citizen_status l {| self := g; world := w |})
    = {| self := g; world := w' |} /\
    Forall2 (fun a record =>
               getitem record "id" = Ok (VStr (_uuid a)) /\
               (unlocated a -> getitem record "parent_id" = Ok (VInt (-1))))
            l avros.
Proof.
  intros Hl Hsim. revert w. induction Hl as [| a l Ha _ IH]; intros w; cbn [collect].
  - exists [], w. cbn. auto.
  - destruct (citizen_status_ok a g w Ha Hsim) as (record & w1 & Hres & Hst & Hrec).
    destruct (IH w1) as (avros & w2 & Hres' & Hst' & Hrecs).
    exists (record :: avros), w2.
    rewrite bind_unfold, Hres, Hst. rewrite bind_unfold, Hres', Hst'.
    cbn [ret res st]. split; [reflexivity |]. split; [reflexivity |].
    constructor; assumption.
Qed.

(** C8.  In a group with avro files whose first agent is not an
    institution, where the memory of every agent answers the reads of the
    citizen branch and the status file can be appended to, [save_status]
    returns, and the batch it appends has one record for every agent, in
    order, each with the id of its agent; for an agent whose position has
    neither an aoi nor a lane, the record has [parent_id] -1. *)
Theorem save_status_sentinel_parent_id (s : St W) (a0 : Agent) (rest : list Agent) :
  agents (self s) = a0 :: rest ->
  enable_avro (self s) = true ->
  issubclass_InstitutionAgent (agent_type a0) = false ->
  Forall citizen_readable (agents (self s)) ->
  simulator_answers ->
  status_file_writable (self s) ->
  res (save_status s) = Ok tt /\
  exists avros,
    In (EvU (FastavroWriter (avro_file (self s) "status") STATUS_SCHEMA avros
               (Some "snappy")) (Ok tt))
       (evs (save_status s)) /\
    Forall2 (fun a record =>
               getitem record "id" = Ok (VStr (_uuid a)) /\
               (unlocated a -> getitem record "parent_id" = Ok (VInt (-1))))
            (agents (self s)) avros.
Proof.
  intros Hag Hen Hcit Hread Hsim (Hopen & Hwrite).
  destruct s as [g w]. cbn [self] in *.
  destruct (collect_citizen_status_ok (agents g) g w Hread Hsim)
    as (avros & w1 & Hres & Hst & Hrecs).
  destruct (Hopen w1) as (w2 & E2). destruct (Hwrite w2 avros) as (w3 & E3).
  unfold save_status.
  rewrite bind_unfold. cbn [get_self res st evs app self]. rewrite Hen.
  rewrite (first_agent_cons g a0 rest Hag).
  rewrite bind_unfold. cbn [ret res st evs app]. rewrite Hcit. cbn [negb].
  rewrite bind_unfold, Hres, Hst.
  rewrite bind_unfold, (await_unit_at _ _ _ _ E2). cbn [res st evs].
  rewrite (await_unit_at _ _ _ _ E3). cbn [res st evs].
  split; [reflexivity |]. exists avros. split; [| exact Hrecs].
  rewrite !in_app_iff. do 2 right. left. reflexivity.
Qed.

End CitizenStatus.

Lemma save_status_sentinel_parent_id_witness :
  Forall (citizen_readable (W := unit)) (agents (self calm_start)) /\
  simulator_answers (W := unit) /\
  status_file_writable (W := unit) (self calm_start) /\
  unlocated (W := unit) (citizen "a3") /\
  res (save_status calm_start) = Ok tt /\
  exists avros,
    In (EvU (FastavroWriter (avro_file (self calm_start) "status") STATUS_SCHEMA avros
               (Some "snappy")) (Ok tt))
       (evs (save_status calm_start)) /\
    Forall2 (fun a record =>
               getitem record "id" = Ok (VStr (_uuid a)) /\
               (unlocated (W := unit) a -> getitem record "parent_id" = Ok (VInt (-1))))
            (agents (self calm_start)) avros.
Proof.
  assert (Hread : Forall (citizen_readable (W := unit)) (agents (self calm_start))).
  { repeat constructor; intros w.
    all: try (eexists _, w; split; [reflexivity |]; repeat eexists).
    all: eexists _, w, _; split; reflexivity. }
  assert (Hsim : simulator_answers (W := unit)).
  { repeat split; intros w; eexists _, w; reflexivity. }
  assert (Hfile : status_file_writable (W := unit) (self calm_start)).
  { split; [intros w | intros w avros]; exists w; reflexivity. }
  assert (Hun : unlocated (W := unit) (citizen "a3")).
  { intros w position w' E. cbn in E. injection E as <- _. split; reflexivity. }
  split; [exact Hread |]. split; [exact Hsim |]. split; [exact Hfile |].
  split; [exact Hun |].
  exact (save_status_sentinel_parent_id calm_start (citizen "a1")
           [citizen "a2"; citizen "a3"] eq_refl eq_refl eq_refl Hread Hsim Hfile).
Defined.

Lemma first_agent_decides_the_schemas_witness :
  agents (self mixed_initialized) = citizen "a1" :: [institution "b2"] /\
  enable_avro (self mixed_initialized) = true /\
  res (save_status mixed_initialized) = Ok tt /\
  (forall path schema records codec r,
     In (EvU (FastavroWriter path schema records codec) r)
        (evs (save_status mixed_initialized)) ->
     schema = STATUS_SCHEMA) /\
  exists avros,
    length avros = 2%nat /\
    In (EvU (FastavroWriter (avro_file (self mixed_initialized) "status") STATUS_SCHEMA
               avros (Some "snappy")) (Ok tt))
       (evs (save_status mixed_initialized)).
Proof.
  assert (H1 : agents (self mixed_initialized) = citizen "a1" :: [institution "b2"])
    by (vm_compute; reflexivity).
  assert (H2 : enable_avro (self mixed_initialized) = true) by (vm_compute; reflexivity).
  assert (H3 : res (save_status mixed_initialized) = Ok tt) by (vm_compute; reflexivity).
  destruct (first_agent_decides_the_schemas mixed_initialized _ _ H1 H2)
    as (_ & _ & Hschema & Hall).
  split; [exact H1 |]. split; [exact H2 |]. split; [exact H3 |].
  split; [exact Hschema |].
  destruct (Hall H3) as (avros & Hlen & Hin). exists avros. split; [| exact Hin].
  rewrite Hlen, H1. reflexivity.
Defined.

(** * Further properties *)

(** ** [init_agents], stage by stage *)

Section InitStages.

Context {W : Type} `{!Collaborators W}.

Lemma tame_listen_block (g : AgentGroup) (b : bool) : tame listen_event (listen_block g b).
Proof.
  unfold listen_block. destruct b; [| apply tame_ret].
  apply tame_bind; [apply tame_await_unit; intros; exact I | intros _].
  apply tame_for_each; intros a. unfold subscribe_agent. tame_steps.
  all: first [ apply tame_mark; [exact I | reflexivity]
             | apply tame_await_unit; intros; exact I ].
Qed.

Lemma tame_avro_block (g : AgentGroup) : tame (avro_event g) (avro_block g).
Proof.
  unfold avro_block. destruct (enable_avro g); [apply tame_create_avro_files | apply tame_ret].
Qed.

(** [init_agents] as its five stages: the bindings, the connection, the
    subscriptions, the dispatch task with the avro files, and the flag. *)
Lemma init_agents_unfold (s : St W) :
  let g := self s in
  let o1 := for_each (fun a => await_unit (BindToSimulator a)) (agents g) s in
  match res o1 with
  | Raise e => init_agents s = {| res := Raise e; st := st o1; evs := evs o1 |}
  | Ok _ =>
      let g1 := set_id2agent (dict_of_agents (agents g)) g in
      let o2 := await_unit MessagerConnect {| self := g1; world := world (st o1) |} in
      match res o2 with
      | Raise e =>
          init_agents s = {| res := Raise e; st := st o2; evs := evs o1 ++ evs o2 |}
      | Ok _ =>
          let b := is_connected (world (st o2)) in
          let o3 := listen_block g b (st o2) in
          match res o3 with
          | Raise e =>
              init_agents s =
              {| res := Raise e; st := st o3;
                 evs := evs o1 ++ evs o2 ++ EvIsConnected b :: evs o3 |}
          | Ok _ =>
              let g4 := add_dispatch_task (self (st o3)) in
              let o4 := avro_block g4 {| self := g4; world := world (st o3) |} in
              match res o4 with
              | Raise e =>
                  init_agents s =
                  {| res := Raise e; st := st o4;
                     evs := evs o1 ++ evs o2 ++ EvIsConnected b :: evs o3
                            ++ EvCreateTask :: evs o4 |}
              | Ok _ =>
                  init_agents s =
                  {| res := Ok tt;
                     st := {| self := set_initialized true (self (st o4));
                              world := world (st o4) |};
                     evs := evs o1 ++ evs o2 ++ EvIsConnected b :: evs o3
                            ++ EvCreateTask :: evs o4 |}
              end
          end
      end
  end.
Proof.
  intros g o1. subst g. unfold init_agents, listen_block, avro_block.
  rewrite bind_unfold. cbn [get_self res st evs app].
  rewrite bind_unfold. fold o1.
  destruct (res o1) as [[] | e1]; [| reflexivity].
  cbn [res st evs].
  rewrite bind_unfold. cbn [set_self res st evs app].
  rewrite bind_unfold.
  set (o2 := await_unit MessagerConnect _).
  destruct (res o2) as [[] | e2]; [| reflexivity].
  cbn [res st evs].
  rewrite bind_unfold. cbn [messager_is_connected res st evs].
  rewrite bind_unfold.
  set (o3 := (if is_connected (world (st o2)) then _ else ret tt) (st o2)).
  destruct (res o3) as [[] | e3]; [| reflexivity].
  cbn [res st evs].
  rewrite bind_unfold. cbn [get_self res st evs app].
  rewrite bind_unfold. cbn [mark res st evs app].
  rewrite bind_unfold. cbn [set_self res st evs app].
  rewrite bind_unfold. cbn [get_self res st evs app self].
  rewrite bind_unfold.
  set (o4 := (if enable_avro _ then _ else ret tt) _).
  destruct (res o4) as [[] | e4]; [| reflexivity].
  cbn [res st evs].
  rewrite bind_unfold. cbn [get_self set_self res st evs app].
  rewrite app_nil_r. reflexivity.
Qed.

End InitStages.

Section InitEdges.

Context {W : Type} `{!Collaborators W}.

(** The loop of the bindings: all the agents are bound, or the loop stops
    at the first binding that raises. *)
Lemma bind_loop_evs (l : list Agent) (s : St W) :
  let o := for_each (fun a => await_unit (BindToSimulator a)) l s in
  self (st o) = self s /\
  ((res o = Ok tt /\ evs o = map (fun a => EvU (BindToSimulator a) (Ok tt)) l) \/
   (exists pre a post e,
      l = pre ++ a :: post /\ res o = Raise e /\
      evs o = map (fun x => EvU (BindToSimulator x) (Ok tt)) pre
              ++ [EvU (BindToSimulator a) (Raise e)])).
Proof.
  cbv zeta. revert s. induction l as [| a l IH]; intros s; cbn [for_each].
  - cbn. auto.
  - rewrite bind_unfold, await_unit_evs.
    pose proof (await_unit_self (BindToSimulator a) s) as Hs.
    destruct (res (await_unit (BindToSimulator a) s)) as [[] | e] eqn:Ea; cbn [res st evs].
    + destruct (IH (st (await_unit (BindToSimulator a) s))) as (Hs' & [(Hr & He) | H]).
      * split; [congruence |]. left. rewrite Hr, He. auto.
      * destruct H as (pre & x & post & e & -> & Hr & He).
        split; [congruence |]. right. exists (a :: pre), x, post, e.
        rewrite Hr, He. auto.
    + split; [exact Hs |]. right. exists [], a, l, e. auto.
Qed.

(** The events of [init_agents]: those of the bindings, then events of the
    later stages. *)
Lemma init_agents_after_binding (s : St W) :
  let o1 := for_each (fun a => await_unit (BindToSimulator a)) (agents (self s)) s in
  exists tail,
    evs (init_agents s) = evs o1 ++ tail /\
    Forall (after_binding_event (self s)) tail /\
    (forall e, res o1 = Raise e -> init_agents s = {| res := Raise e; st := st o1; evs := evs o1 |}).
Proof.
  pose proof (init_agents_unfold s) as H. cbv zeta in *.
  set (o1 := for_each _ (agents (self s)) s) in *.
  destruct (res o1) as [[] | e1] eqn:E1.
  2:{ exists []. rewrite H, app_nil_r. cbn. repeat split; [constructor |].
      intros e He. congruence. }
  set (g1 := set_id2agent _ (self s)) in *.
  set (o2 := await_unit MessagerConnect _) in *.
  assert (H2 : Forall (after_binding_event (self s)) (evs o2)).
  { subst o2. rewrite await_unit_evs. repeat constructor. }
  set (b := is_connected (world (st o2))) in *.
  set (o3 := listen_block (self s) b (st o2)) in *.
  assert (H3 : Forall (after_binding_event (self s)) (evs o3)).
  { eapply Forall_impl; [apply (tame_listen_block (self s) b (st o2)) |].
    intros [[] | | | | | | | |]; cbn; tauto. }
  set (g4 := add_dispatch_task (self (st o3))) in *.
  set (o4 := avro_block g4 _) in *.
  assert (Hg4 : agents g4 = agents (self s)).
  { subst g4. cbn. subst o3. rewrite (tame_self _ _ _ (tame_listen_block (self s) b)).
    subst o2. rewrite await_unit_self. reflexivity. }
  assert (H4 : Forall (after_binding_event (self s)) (evs o4)).
  { eapply Forall_impl; [apply (tame_avro_block g4) |].
    intros ev Hev. apply (avro_event_agents g4 (self s)) in Hev; [| congruence].
    destruct ev as [[] | [] | | | | | | |]; cbn in *; tauto. }
  destruct (res o2) as [[] | e2].
  2:{ exists (evs o2). rewrite H. cbn. repeat split; [exact H2 | discriminate]. }
  destruct (res o3) as [[] | e3].
  2:{ exists (evs o2 ++ EvIsConnected b :: evs o3). rewrite H. cbn.
      repeat split; [| discriminate].
      apply Forall_app; split; [exact H2 |]. constructor; [exact I | exact H3]. }
  assert (H5 : Forall (after_binding_event (self s))
                 (evs o2 ++ EvIsConnected b :: evs o3 ++ EvCreateTask :: evs o4)).
  { apply Forall_app; split; [exact H2 |]. constructor; [exact I |].
    apply Forall_app; split; [exact H3 |]. constructor; [exact I | exact H4]. }
  destruct (res o4) as [[] | e4];
    (eexists; rewrite H; cbn; repeat split; [exact H5 | discriminate]).
Qed.

(** X1.  When the binding of an agent to the simulator raises,
    [init_agents] has bound the agents before it, one call each, and has
    done nothing else: the agents after it are not bound, the messager is
    not connected, no field of the group is assigned (the id-to-agent
    mapping stays as it was), and the exception is raised.  Nothing undoes
    the bindings already made. *)
Theorem failed_binding_stops_init (s : St W) (a : Agent) (e : exn) :
  In (EvU (BindToSimulator a) (Raise e)) (evs (init_agents s)) ->
  exists pre post,
    agents (self s) = pre ++ a :: post /\
    evs (init_agents s)
    = map (fun x => EvU (BindToSimulator x) (Ok tt)) pre
      ++ [EvU (BindToSimulator a) (Raise e)] /\
    res (init_agents s) = Raise e /\
    self (st (init_agents s)) = self s.
Proof.
  intros Hin.
  destruct (init_agents_after_binding s) as (tail & Hev & Htail & Hraise).
  destruct (bind_loop_evs (agents (self s)) s) as (Hself & [(Hr & He) | H]).
  - exfalso. rewrite Hev in Hin. apply in_app_or in Hin as [Hin | Hin].
    + rewrite He in Hin. apply in_map_iff in Hin as (x & Hx & _). discriminate.
    + rewrite Forall_forall in Htail. apply list_elem_of_In in Hin.
      specialize (Htail _ Hin). cbn in Htail. tauto.
  - destruct H as (pre & x & post & e' & Hl & Hr & He).
    rewrite (Hraise e' Hr) in *. cbn [res st evs] in *.
    rewrite He in Hin. apply in_app_or in Hin as [Hin | Hin].
    + apply in_map_iff in Hin as (y & Hy & _). discriminate.
    + destruct Hin as [Hin | []]. injection Hin as -> ->.
      exists pre, post. auto.
Qed.

(** X2.  When [init_agents] completes with a messager that is not
    connected after [connect], it has not started listening and has
    subscribed no agent, and yet it has created the dispatch task and
    marked the group initialized: later steps will not subscribe either. *)
Theorem init_agents_without_connection (s : St W) :
  res (init_agents s) = Ok tt ->
  In (EvIsConnected false) (evs (init_agents s)) ->
  subscriptions (evs (init_agents s)) = [] /\
  (forall r, ~ In (EvU MessagerStartListening r) (evs (init_agents s))) /\
  In EvCreateTask (evs (init_agents s)) /\
  initialized (self (st (init_agents s))) = true.
Proof.
  intros Hok Hin. pose proof (init_agents_unfold s) as H. cbv zeta in H.
  destruct (bind_loop_evs (agents (self s)) s) as (_ & [(Hr1 & He1) | H1]);
    [| destruct H1 as (? & ? & ? & ? & _ & Hr1 & _); rewrite Hr1 in H;
       rewrite H in Hok; discriminate].
  rewrite Hr1 in H.
  set (o2 := await_unit MessagerConnect _) in *.
  pose proof (await_unit_evs MessagerConnect
                {| self := set_id2agent (dict_of_agents (agents (self s))) (self s);
                   world := world (st (for_each (fun a => await_unit (BindToSimulator a))
                                         (agents (self s)) s)) |}) as He2.
  fold o2 in He2.
  destruct (res o2) as [[] | e2]; [| rewrite H in Hok; discriminate].
  set (b := is_connected (world (st o2))) in *.
  set (o3 := listen_block (self s) b (st o2)) in *.
  pose proof (tame_listen_block (self s) b (st o2)) as (_ & HP3 & _). fold o3 in HP3.
  destruct (res o3) as [[] | e3]; [| rewrite H in Hok; discriminate].
  set (g4 := add_dispatch_task (self (st o3))) in *.
  set (o4 := avro_block g4 _) in *.
  pose proof (tame_avro_block g4 {| self := g4; world := world (st o3) |}) as (_ & HP4 & _).
  fold o4 in HP4.
  destruct (res o4) as [[] | e4]; [| rewrite H in Hok; discriminate].
  rewrite H in Hin |- *. cbn [res st evs self] in *. clear H Hok.
  rewrite Forall_forall in HP3, HP4.
  assert (b = false) as Hb.
  { rewrite He1, He2 in Hin. rewrite !in_app_iff in Hin. cbn [In] in Hin.
    rewrite in_app_iff in Hin. cbn [In] in Hin.
    destruct Hin as [Hin | [[Hin | []] | [Hin | [Hin | [Hin | Hin]]]]];
      try discriminate.
    - apply in_map_iff in Hin as (x & Hx & _). discriminate.
    - congruence.
    - apply list_elem_of_In in Hin. destruct (HP3 _ Hin).
    - apply list_elem_of_In in Hin. destruct (HP4 _ Hin). }
  assert (E3 : evs o3 = []) by (subst o3; unfold listen_block; rewrite Hb; reflexivity).
  rewrite E3, He1, He2. cbn [app]. repeat split.
  - rewrite !subscriptions_app. cbn.
    rewrite (subscriptions_none (map _ _)).
    2:{ apply Forall_forall. intros ev Hev. apply list_elem_of_In in Hev.
        apply in_map_iff in Hev as (x & <- & _). reflexivity. }
    cbn. apply subscriptions_none. apply Forall_forall. intros ev Hev.
    apply (avro_event_no_subscription g4). exact (HP4 _ Hev).
  - intros r Hr. rewrite !in_app_iff in Hr. cbn [In] in Hr.
    destruct Hr as [Hr | [Hr | [Hr | [Hr | Hr]]]]; try discriminate.
    + apply in_map_iff in Hr as (x & Hx & _). discriminate.
    + apply list_elem_of_In in Hr. destruct (HP4 _ Hr).
  - rewrite !in_app_iff. cbn. auto.
Qed.

End InitEdges.

Section InitEdgesAvro.

Context {W : Type} `{!Collaborators W}.

(** X3.  When [init_agents] raises after it has created the dispatch task
    (an exception of the avro block), the task is not cancelled and the
    mapping stays rebuilt, while the group is still not initialized: the
    next [step] will run [init_agents] again and create one more task. *)
Theorem dispatch_task_outlives_failed_init (s : St W) (e : exn) :
  res (init_agents s) = Raise e ->
  In EvCreateTask (evs (init_agents s)) ->
  initialized (self (st (init_agents s))) = initialized (self s) /\
  message_dispatch_task (self (st (init_agents s))) = S (message_dispatch_task (self s)) /\
  id2agent (self (st (init_agents s))) = dict_of_agents (agents (self s)).
Proof.
  intros Hres Hin. pose proof (init_agents_unfold s) as H. cbv zeta in H.
  destruct (bind_loop_evs (agents (self s)) s) as (_ & [(Hr1 & He1) | H1]).
  2:{ exfalso. destruct H1 as (pre & a & post & e1 & _ & Hr1 & He1).
      rewrite Hr1 in H. rewrite H in Hin. cbn [evs] in Hin. rewrite He1 in Hin.
      apply in_app_or in Hin as [Hin | [Hin | []]]; [| discriminate].
      apply in_map_iff in Hin as (x & Hx & _). discriminate. }
  rewrite Hr1 in H.
  assert (Hno1 : ~ In EvCreateTask
                   (evs (for_each (fun a => await_unit (BindToSimulator a))
                           (agents (self s)) s))).
  { rewrite He1. intros Hx. apply in_map_iff in Hx as (x & Hx & _). discriminate. }
  set (o2 := await_unit MessagerConnect _) in *.
  assert (Hself2 : self (st o2) = set_id2agent (dict_of_agents (agents (self s))) (self s))
    by (subst o2; apply await_unit_self).
  assert (Hno2 : ~ In EvCreateTask (evs o2)).
  { subst o2. rewrite await_unit_evs. intros [Hx | []]. discriminate. }
  destruct (res o2) as [[] | e2].
  2:{ exfalso. rewrite H in Hin. cbn [evs] in Hin.
      apply in_app_or in Hin as [Hin | Hin]; tauto. }
  set (b := is_connected (world (st o2))) in *.
  set (o3 := listen_block (self s) b (st o2)) in *.
  pose proof (tame_listen_block (self s) b (st o2)) as (Hself3 & HP3 & _).
  fold o3 in Hself3, HP3.
  assert (Hno3 : ~ In EvCreateTask (evs o3)).
  { intros Hx. rewrite Forall_forall in HP3. apply list_elem_of_In in Hx.
    exact (HP3 _ Hx). }
  destruct (res o3) as [[] | e3].
  2:{ exfalso. rewrite H in Hin. cbn [evs] in Hin.
      rewrite !in_app_iff in Hin. cbn [In] in Hin.
      destruct Hin as [Hin | [Hin | [Hin | Hin]]]; try tauto. discriminate. }
  set (g4 := add_dispatch_task (self (st o3))) in *.
  set (o4 := avro_block g4 _) in *.
  pose proof (tame_avro_block g4 {| self := g4; world := world (st o3) |}) as (Hself4 & _).
  fold o4 in Hself4. cbn [self] in Hself4.
  destruct (res o4) as [[] | e4]; rewrite H in Hres |- *; [discriminate |].
  cbn [st]. rewrite Hself4. subst g4. rewrite Hself3, Hself2. cbn. auto.
Qed.

(** X4.  A group without agents and with avro files never gets
    initialized: [init_agents] raises, and once it has come as far as the
    dispatch task the exception is [IndexError], from [self.agents[0]]. *)
Theorem empty_group_with_avro_never_initializes (s : St W) :
  agents (self s) = [] ->
  enable_avro (self s) = true ->
  exists e,
    res (init_agents s) = Raise e /\
    initialized (self (st (init_agents s))) = initialized (self s) /\
    (In EvCreateTask (evs (init_agents s)) -> e = IndexError).
Proof.
  intros Hag Hen.
  destruct (init_agents_spec s) as (_ & _ & _ & Hflag).
  pose proof (init_agents_unfold s) as H. cbv zeta in H.
  assert (Hres : exists e, res (init_agents s) = Raise e /\
                           (In EvCreateTask (evs (init_agents s)) -> e = IndexError)).
  { destruct (bind_loop_evs (agents (self s)) s) as (_ & [(Hr1 & He1) | H1]).
    2:{ destruct H1 as (pre & a & post & e1 & Hl & _). rewrite Hag in Hl.
        destruct pre; discriminate. }
    rewrite Hr1 in H. rewrite Hag in He1 at 2. cbn [map] in He1.
    set (o2 := await_unit MessagerConnect _) in *.
    assert (Hno2 : ~ In EvCreateTask (evs o2)).
    { subst o2. rewrite await_unit_evs. intros [Hx | []]. discriminate. }
    destruct (res o2) as [[] | e2].
    2:{ exists e2. rewrite H. cbn. split; [reflexivity |]. rewrite He1. cbn. tauto. }
    set (b := is_connected (world (st o2))) in *.
    set (o3 := listen_block (self s) b (st o2)) in *.
    pose proof (tame_listen_block (self s) b (st o2)) as (Hself3 & HP3 & _).
    fold o3 in Hself3, HP3.
    assert (Hno3 : ~ In EvCreateTask (evs o3)).
    { intros Hx. rewrite Forall_forall in HP3. apply list_elem_of_In in Hx.
      exact (HP3 _ Hx). }
    destruct (res o3) as [[] | e3].
    2:{ exists e3. rewrite H. cbn. split; [reflexivity |]. rewrite He1. cbn.
        rewrite in_app_iff. cbn. intros [Hx | [Hx | Hx]]; [tauto | discriminate | tauto]. }
    set (g4 := add_dispatch_task (self (st o3))) in *.
    assert (Hg4 : agents g4 = [] /\ enable_avro g4 = true).
    { subst g4. cbn. rewrite Hself3. subst o2. rewrite await_unit_self. cbn. auto. }
    destruct Hg4 as [Hg4a Hg4e].
    assert (Ho4 : res (avro_block g4 {| self := g4; world := world (st o3) |})
                  = Raise IndexError).
    { unfold avro_block. rewrite Hg4e. unfold create_avro_files, first_agent.
      rewrite Hg4a. reflexivity. }
    rewrite Ho4 in H. exists IndexError. rewrite H. auto. }
  destruct Hres as (e & Hres & He). exists e.
  rewrite Hres in Hflag. destruct Hflag as [Hflag _]. auto.
Qed.

(** A property of the events of every stage is one of the events of
    [init_agents]. *)
Lemma init_agents_forall (P : event -> Prop) (s : St W) :
  (forall a r, P (EvU (BindToSimulator a) r)) ->
  (forall r, P (EvU MessagerConnect r)) ->
  (forall b, P (EvIsConnected b)) ->
  (forall ev, listen_event ev -> P ev) ->
  P EvCreateTask ->
  (forall g s', same_config (self s) g -> Forall P (evs (avro_block g s'))) ->
  Forall P (evs (init_agents s)).
Proof.
  intros Hbind Hcon Hisc Hlis Htask Havro.
  pose proof (init_agents_unfold s) as H. cbv zeta in H.
  assert (H1 : Forall P (evs (for_each (fun a => await_unit (BindToSimulator a))
                                (agents (self s)) s))).
  { apply (tame_for_each P). intros a. apply tame_await_unit. apply Hbind. }
  destruct (res (for_each _ (agents (self s)) s)) as [[] | e1];
    [| rewrite H; exact H1].
  set (o2 := await_unit MessagerConnect _) in *.
  assert (Hself2 : self (st o2) = set_id2agent (dict_of_agents (agents (self s))) (self s))
    by (subst o2; apply await_unit_self).
  assert (H2 : Forall P (evs o2)).
  { subst o2. rewrite await_unit_evs. repeat constructor. apply Hcon. }
  destruct (res o2) as [[] | e2];
    [| rewrite H; cbn; apply Forall_app; split; assumption].
  set (b := is_connected (world (st o2))) in *.
  set (o3 := listen_block (self s) b (st o2)) in *.
  pose proof (tame_listen_block (self s) b (st o2)) as (Hself3 & HP3 & _).
  fold o3 in Hself3, HP3.
  assert (H3 : Forall P (evs o3)) by (eapply Forall_impl; [exact HP3 | exact Hlis]).
  destruct (res o3) as [[] | e3].
  2:{ rewrite H; cbn. apply Forall_app; split; [exact H1 |].
      apply Forall_app; split; [exact H2 |]. constructor; [apply Hisc | exact H3]. }
  set (g4 := add_dispatch_task (self (st o3))) in *.
  set (o4 := avro_block g4 _) in *.
  assert (H4 : Forall P (evs o4)).
  { apply Havro. subst g4. rewrite Hself3, Hself2. repeat split. }
  assert (H5 : Forall P (evs (for_each (fun a => await_unit (BindToSimulator a))
                                (agents (self s)) s)
                         ++ evs o2 ++ EvIsConnected b :: evs o3 ++ EvCreateTask :: evs o4)).
  { apply Forall_app; split; [exact H1 |]. apply Forall_app; split; [exact H2 |].
    constructor; [apply Hisc |]. apply Forall_app; split; [exact H3 |].
    constructor; [exact Htask | exact H4]. }
  destruct (res o4) as [[] | e4]; rewrite H; exact H5.
Qed.

Lemma avro_block_disabled (g : AgentGroup) (s : St W) :
  enable_avro g = false -> evs (avro_block g s) = [].
Proof. intros Hen. unfold avro_block. rewrite Hen. reflexivity. Qed.

Lemma save_status_disabled (s : St W) :
  enable_avro (self s) = false -> save_status s = ret tt s.
Proof.
  intros Hen. unfold save_status. rewrite bind_unfold.
  cbn [get_self res st evs app]. rewrite Hen. reflexivity.
Qed.

(** X5.  In a group without avro files, neither [init_agents] nor [step]
    opens or writes a file, exports a profile, or reads the memory of an
    agent, the simulator day or the clock. *)
Theorem no_avro_no_snapshot_work (s : St W) :
  enable_avro (self s) = false ->
  Forall (fun ev => ~ snapshot_work ev) (evs (init_agents s)) /\
  Forall (fun ev => ~ snapshot_work ev) (evs (step s)).
Proof.
  intros Hen.
  assert (Hinit : Forall (fun ev => ~ snapshot_work ev) (evs (init_agents s))).
  { apply init_agents_forall; cbn; try tauto.
    - intros [[] | | | | | | | |]; cbn; tauto.
    - intros g s' (_ & _ & _ & He & _). rewrite avro_block_disabled; [constructor |].
      congruence. }
  split; [exact Hinit |].
  pose proof (step_unfold s) as Hs. cbv zeta in Hs.
  destruct (step_init_spec s) as (_ & (_ & _ & _ & Hec & _) & _).
  assert (Hi : Forall (fun ev => ~ snapshot_work ev) (evs (step_init s))).
  { unfold step_init. destruct (initialized (self s)); [constructor | exact Hinit]. }
  assert (Hg : Forall (fun ev => ~ snapshot_work ev)
                 (evs (gather_runs (agents (self (st (step_init s)))) (st (step_init s)))))
    by (apply gather_runs_run_events; intros; cbn; tauto).
  destruct (res (step_init s)) as [[] | e].
  - destruct (res (gather_runs _ _)) as [[] | e].
    + destruct Hs as (_ & -> & _).
      rewrite save_status_disabled
        by (rewrite gather_runs_self; congruence).
      cbn [ret evs]. rewrite app_nil_r.
      constructor; [cbn; tauto |]. apply Forall_app; split; assumption.
    + destruct Hs as (_ & -> & _).
      constructor; [cbn; tauto |]. apply Forall_app; split; assumption.
  - destruct Hs as (_ & -> & _). constructor; [cbn; tauto | assumption].
Qed.

End InitEdgesAvro.

Section StepEdges.

Context {W : Type} `{!Collaborators W}.

Lemma tame_fetch_messages (P : event -> Prop) :
  (forall r, P (EvFetchMessages r)) -> tame P (messager_fetch_messages : M W _).
Proof.
  intros HP s. unfold messager_fetch_messages.
  destruct (fetch_messages (world s)) as [r w]; cbn.
  repeat split; [repeat constructor; apply HP |].
  intros ev e [<- | []] He. destruct r; cbn in He; congruence.
Qed.

Lemma tame_dispatch_cycle : tame dispatch_event (dispatch_cycle : M W unit).
Proof.
  unfold dispatch_cycle.
  apply tame_bind; [apply tame_is_connected; intros; exact I | intros _].
  apply tame_bind; [apply tame_fetch_messages; intros; exact I | intros msgs].
  apply tame_bind; [| intros _; apply tame_mark; [exact I | reflexivity]].
  apply tame_for_each. apply tame_dispatch_message.
Qed.

Lemma tame_message_dispatch (n : nat) : tame dispatch_event (message_dispatch n : M W unit).
Proof.
  induction n as [| n IH]; cbn [message_dispatch]; [apply tame_ret |].
  apply tame_bind; [apply tame_dispatch_cycle | intros _; exact IH].
Qed.

(** X6.  The [step] of a group that is not initialized runs [init_agents]
    first.  If [init_agents] raises, [step] raises the same exception
    without running an agent or saving a status; if it completes, the rest
    of the [step] does no work of initialization. *)
Theorem step_initializes_first (s : St W) :
  initialized (self s) = false ->
  (forall e, res (init_agents s) = Raise e ->
     res (step s) = Raise e /\ evs (step s) = EvStep :: evs (init_agents s) /\
     st (step s) = st (init_agents s)) /\
  (res (init_agents s) = Ok tt ->
   exists rest,
     evs (step s) = EvStep :: evs (init_agents s) ++ rest /\
     Forall (fun ev => ~ initialization_work ev) rest).
Proof.
  intros Hi. pose proof (step_unfold s) as Hs. cbv zeta in Hs.
  assert (Hinit : step_init s = init_agents s) by (unfold step_init; rewrite Hi; reflexivity).
  rewrite Hinit in Hs. split.
  - intros e He. rewrite He in Hs. exact Hs.
  - intros Hok. rewrite Hok in Hs.
    assert (Hruns : Forall (fun ev => ~ initialization_work ev)
                      (evs (gather_runs (agents (self (st (init_agents s))))
                              (st (init_agents s)))))
      by (apply gather_runs_run_events; intros a r; cbn; tauto).
    destruct (res (gather_runs _ _)) as [[] | e].
    + destruct Hs as (_ & -> & _). eexists. split; [reflexivity |].
      apply Forall_app; split; [exact Hruns |].
      destruct (save_status_spec
                  (st (gather_runs (agents (self (st (init_agents s))))
                         (st (init_agents s))))) as (_ & HP & _).
      eapply Forall_impl; [exact HP |]. apply status_event_not_initialization.
    + destruct Hs as (_ & -> & _). eexists. split; [reflexivity | exact Hruns].
Qed.

(** X7.  Only [init_agents] assigns fields of the group: the [step] of an
    initialized group, [save_status] and any number of turns of
    [message_dispatch] leave all of them as they were (the id-to-agent
    mapping is written once, at initialization). *)
Theorem only_init_agents_assigns_fields (s : St W) :
  (initialized (self s) = true -> self (st (step s)) = self s) /\
  self (st (save_status s)) = self s /\
  (forall n, self (st (message_dispatch n s)) = self s).
Proof.
  split; [| split].
  - intros Hi. pose proof (step_unfold s) as Hs. cbv zeta in Hs.
    destruct (step_init_spec s) as (_ & _ & Hret & _). rewrite (Hret Hi) in Hs.
    cbn [ret res st evs app] in Hs.
    pose proof (gather_runs_self (agents (self s)) s) as Hself.
    destruct (res (gather_runs (agents (self s)) s)) as [[] | e].
    + destruct Hs as (_ & _ & ->).
      destruct (save_status_spec (st (gather_runs (agents (self s)) s))) as (Hss & _).
      congruence.
    + destruct Hs as (_ & _ & ->). exact Hself.
  - apply save_status_spec.
  - intros n. apply (tame_self _ _ _ (tame_message_dispatch n)).
Qed.

End StepEdges.

Section DispatchEdges.

Context {W : Type} `{!Collaborators W}.

Lemma handler_of_other_kind (kind : string) :
  ~ In kind four_kinds -> handler_of kind_handlers kind = None.
Proof.
  intros Hk. cbn [handler_of kind_handlers].
  destruct (String.eqb_spec kind "agent-chat") as [-> | _]; [cbn in Hk; tauto |].
  destruct (String.eqb_spec kind "user-chat") as [-> | _]; [cbn in Hk; tauto |].
  destruct (String.eqb_spec kind "user-survey") as [-> | _]; [cbn in Hk; tauto |].
  destruct (String.eqb_spec kind "gather") as [-> | _]; [cbn in Hk; tauto |].
  reflexivity.
Qed.

(** X8.  A message whose topic has five fields and a kind other than
    agent-chat, user-chat, user-survey and gather is dropped without a call
    and without an exception, for an agent of the group as for any other:
    the chain of tests on the kind has no last [else]. *)
Theorem unknown_kind_is_ignored (s : St W) (m : Message) (p : value)
    (x1 x2 x3 id kind : string) :
  decoded m = Ok p ->
  topic_fields m = [x1; x2; x3; id; kind] ->
  ~ In kind four_kinds ->
  dispatch_message m s = ret tt s.
Proof.
  intros Hp Ht Hk. rewrite dispatch_message_cases, Hp, Ht.
  rewrite (handler_of_other_kind kind Hk).
  destruct (id2agent (self s) !! id); reflexivity.
Qed.

Lemma for_each_stops_at_raise {A} (body : A -> M W unit) (pre post : list A) (x : A)
    (s : St W) (e : exn) :
  res (for_each body pre s) = Ok tt ->
  res (body x (st (for_each body pre s))) = Raise e ->
  res (for_each body (pre ++ x :: post) s) = Raise e /\
  evs (for_each body (pre ++ x :: post) s)
  = evs (for_each body pre s) ++ evs (body x (st (for_each body pre s))).
Proof.
  revert s. induction pre as [| y pre IH]; intros s Hpre Hx; cbn [for_each app] in *.
  - cbn [ret st evs] in *. rewrite bind_unfold, Hx. auto.
  - assert (E : forall k : unit -> M W unit,
               (body y ≫= k) s =
               match res (body y s) with
               | Ok a => {| res := res (k a (st (body y s))); st := st (k a (st (body y s)));
                            evs := evs (body y s) ++ evs (k a (st (body y s))) |}
               | Raise e' => {| res := Raise e'; st := st (body y s); evs := evs (body y s) |}
               end) by (intros k; apply bind_unfold).
    rewrite !E in *.
    destruct (res (body y s)) as [[] | e']; cbn [res st evs] in *; [| discriminate].
    destruct (IH _ Hpre Hx) as (-> & ->).
    rewrite app_assoc. split; reflexivity.
Qed.

(** X9.  An exception of one message ends [message_dispatch]: bytes that
    do not decode raise before the topic is looked at (also for an agent
    the group does not own), and when the dispatch of a message of a batch
    raises, whatever raised, the messages after it are not dispatched, the
    turn does not reach its sleep, and the loop raises that exception. *)
Theorem raising_message_ends_the_loop (s : St W) :
  (forall m e, decoded m = Raise e -> dispatch_message m s = raise e s) /\
  (forall pre m post e n,
     res (messager_fetch_messages s) = Ok (pre ++ m :: post) ->
     let s1 := st (messager_fetch_messages s) in
     res (for_each dispatch_message pre s1) = Ok tt ->
     let s2 := st (for_each dispatch_message pre s1) in
     res (dispatch_message m s2) = Raise e ->
     res (message_dispatch (S n) s) = Raise e /\
     evs (message_dispatch (S n) s)
     = EvIsConnected (is_connected (world s))
       :: EvFetchMessages (Ok (pre ++ m :: post))
       :: evs (for_each dispatch_message pre s1) ++ evs (dispatch_message m s2)).
Proof.
  split.
  - intros m e He. rewrite dispatch_message_cases, He. reflexivity.
  - intros pre m post e n Hf s1 Hpre s2 Hm.
    destruct (for_each_stops_at_raise dispatch_message pre post m s1 e Hpre Hm)
      as (Hr & He).
    assert (Hc : res (dispatch_cycle s) = Raise e /\
                 evs (dispatch_cycle s)
                 = EvIsConnected (is_connected (world s))
                   :: EvFetchMessages (Ok (pre ++ m :: post))
                   :: evs (for_each dispatch_message pre s1)
                      ++ evs (dispatch_message m s2)).
    { unfold dispatch_cycle.
      rewrite bind_unfold. cbn [messager_is_connected res st evs].
      rewrite bind_unfold, fetch_messages_evs, Hf. cbn [res st evs].
      rewrite bind_unfold. fold s1. rewrite Hr, He. cbn. auto. }
    destruct Hc as (Hcr & Hce).
    cbn [message_dispatch]. rewrite bind_unfold, Hcr. cbn [res evs]. auto.
Qed.

(** X10.  With nothing to fetch the loop keeps polling: every number of
    turns is completed, each turn being the test of the connection (which
    does not stop the fetch when it fails), the fetch and the sleep. *)
Theorem idle_loop_keeps_polling (n : nat) (s : St W) :
  nothing_to_fetch ->
  res (message_dispatch n s) = Ok tt /\
  exists connections,
    length connections = n /\
    evs (message_dispatch n s) = flat_map idle_turn connections.
Proof.
  intros Hidle. revert s. induction n as [| n IH]; intros s; cbn [message_dispatch].
  - split; [reflexivity |]. exists []. auto.
  - destruct (Hidle (world s)) as (w' & Hw).
    assert (Hc : dispatch_cycle s
                 = {| res := Ok tt; st := {| self := self s; world := w' |};
                      evs := idle_turn (is_connected (world s)) |}).
    { unfold dispatch_cycle, messager_fetch_messages.
      rewrite bind_unfold. cbn [messager_is_connected res st evs].
      rewrite bind_unfold. rewrite Hw. cbn. reflexivity. }
    rewrite bind_unfold, Hc. cbn [res st evs].
    destruct (IH {| self := self s; world := w' |}) as (Hr & cs & Hlen & Hev).
    split; [exact Hr |]. exists (is_connected (world s) :: cs).
    cbn [length flat_map]. rewrite Hev, Hlen. auto.
Qed.

(** X11.  [message_dispatch] only tests the connection, fetches, calls
    handlers of messages and sleeps: it never subscribes, binds or runs an
    agent, or touches a file; and the exception of any of its calls that
    raised is the one the loop raises. *)
Theorem message_dispatch_only_dispatches (n : nat) (s : St W) :
  Forall dispatch_event (evs (message_dispatch n s)) /\
  (forall ev e, In ev (evs (message_dispatch n s)) -> raised ev = Some e ->
                res (message_dispatch n s) = Raise e).
Proof. destruct (tame_message_dispatch n s) as (_ & HP & Hr). auto. Qed.

End DispatchEdges.

(** ** Topics *)

Section Topics.

Lemma split_length (c : ascii) (s : string) : length (split c s) = S (count_char c s).
Proof.
  induction s as [| c' s IH]; cbn [split count_char]; [reflexivity |].
  destruct (Ascii.eqb c' c); cbn [length]; [congruence |].
  destruct (split c s); cbn in *; congruence.
Qed.

Lemma split_without (c : ascii) (s : string) : count_char c s = O -> split c s = [s].
Proof.
  induction s as [| c' s IH]; cbn [split count_char]; [reflexivity |].
  destruct (Ascii.eqb c' c); [discriminate |]. intros H. rewrite (IH H). reflexivity.
Qed.

Lemma split_first_field (c : ascii) (s1 s2 : string) :
  count_char c s1 = O -> split c (s1 +:+ String c s2) = s1 :: split c s2.
Proof.
  induction s1 as [| c' s1 IH].
  - intros _. change (EmptyString +:+ String c s2) with (String c s2).
    cbn [split]. rewrite Ascii.eqb_refl. reflexivity.
  - change (String c' s1 +:+ String c s2) with (String c' (s1 +:+ String c s2)).
    cbn [split count_char].
    destruct (Ascii.eqb c' c); [discriminate |]. intros H. rewrite (IH H). reflexivity.
Qed.

Lemma count_char_app (c : ascii) (s1 s2 : string) :
  count_char c (s1 +:+ s2) = (count_char c s1 + count_char c s2)%nat.
Proof.
  induction s1 as [| c' s1 IH]; [reflexivity |].
  change (String c' s1 +:+ s2) with (String c' (s1 +:+ s2)). cbn [count_char].
  destruct (Ascii.eqb c' c); cbn; congruence.
Qed.

Lemma rstrip_keeps_front (c : ascii) (s1 s2 : string) :
  rstrip c s2 = s2 -> s2 <> EmptyString -> rstrip c (s1 +:+ s2) = s1 +:+ s2.
Proof.
  intros H2 Hne. induction s1 as [| c' s1 IH]; [exact H2 |].
  change (String c' s1 +:+ s2) with (String c' (s1 +:+ s2)). cbn [rstrip].
  rewrite IH. destruct (s1 +:+ s2) eqn:E; [| reflexivity].
  destruct s1; [contradiction | discriminate].
Qed.

Lemma kind_is_clean (kind : string) :
  In kind four_kinds ->
  rstrip "/" kind = kind /\ kind <> EmptyString /\ count_char "/" kind = O.
Proof.
  intros [<- | [<- | [<- | [<- | []]]]]; repeat split; discriminate.
Qed.

Lemma strip_agent_topic (exp : string) (a : Agent) (kind : string) :
  In kind four_kinds -> strip "/" (agent_topic exp a kind) = agent_topic exp a kind.
Proof.
  intros Hk. destruct (kind_is_clean kind Hk) as (Hr & Hne & _).
  unfold strip, agent_topic. cbn [lstrip String.append Ascii.eqb Bool.eqb].
  change (rstrip "/" ("exps/" +:+ exp +:+ "/agents/" +:+ _uuid a +:+ "/" +:+ kind)
          = "exps/" +:+ exp +:+ "/agents/" +:+ _uuid a +:+ "/" +:+ kind).
  assert (H1 : rstrip "/" ("/" +:+ kind) = "/" +:+ kind /\ "/" +:+ kind <> EmptyString).
  { split; [apply rstrip_keeps_front; assumption | discriminate]. }
  assert (H2 : rstrip "/" (_uuid a +:+ "/" +:+ kind) = _uuid a +:+ "/" +:+ kind /\
               _uuid a +:+ "/" +:+ kind <> EmptyString).
  { split; [apply rstrip_keeps_front; apply H1 |]. destruct (_uuid a); discriminate. }
  assert (H3 : rstrip "/" ("/agents/" +:+ _uuid a +:+ "/" +:+ kind)
               = "/agents/" +:+ _uuid a +:+ "/" +:+ kind /\
               "/agents/" +:+ _uuid a +:+ "/" +:+ kind <> EmptyString).
  { split; [apply rstrip_keeps_front; apply H2 | discriminate]. }
  assert (H4 : rstrip "/" (exp +:+ "/agents/" +:+ _uuid a +:+ "/" +:+ kind)
               = exp +:+ "/agents/" +:+ _uuid a +:+ "/" +:+ kind /\
               exp +:+ "/agents/" +:+ _uuid a +:+ "/" +:+ kind <> EmptyString).
  { split; [apply rstrip_keeps_front; apply H3 |]. destruct exp; discriminate. }
  apply rstrip_keeps_front; apply H4.
Qed.

(** The topic [init_agents] subscribes for an agent has five fields when
    neither the experiment id nor the id of the agent has a slash, and one
    more for every slash in them. *)
Lemma agent_topic_fields_length (exp : string) (a : Agent) (kind : string) (p : value) :
  In kind four_kinds ->
  length (topic_fields {| topic := agent_topic exp a kind; payload := p |})
  = (5 + count_char "/" exp + count_char "/" (_uuid a))%nat.
Proof.
  intros Hk. destruct (kind_is_clean kind Hk) as (_ & _ & Hc).
  unfold topic_fields. cbn [topic]. rewrite (strip_agent_topic exp a kind Hk).
  rewrite split_length. unfold agent_topic. rewrite !count_char_app, Hc. cbn. lia.
Qed.

Lemma agent_topic_fields (exp : string) (a : Agent) (kind : string) (p : value) :
  In kind four_kinds ->
  count_char "/" exp = O -> count_char "/" (_uuid a) = O ->
  topic_fields {| topic := agent_topic exp a kind; payload := p |}
  = ["exps"; exp; "agents"; _uuid a; kind].
Proof.
  intros Hk He Hu. destruct (kind_is_clean kind Hk) as (_ & _ & Hc).
  unfold topic_fields. cbn [topic]. rewrite (strip_agent_topic exp a kind Hk).
  unfold agent_topic.
  change ("exps/" +:+ ?r) with ("exps" +:+ String "/" r).
  rewrite split_first_field by reflexivity.
  change (exp +:+ "/agents/" +:+ ?r) with (exp +:+ String "/" ("agents" +:+ String "/" r)).
  rewrite split_first_field by exact He.
  rewrite split_first_field by reflexivity.
  change (_uuid a +:+ "/" +:+ kind) with (_uuid a +:+ String "/" kind).
  rewrite split_first_field by exact Hu.
  rewrite split_without by exact Hc. reflexivity.
Qed.

End Topics.

Section TopicClaims.

Context {W : Type} `{!Collaborators W}.

Lemma kind_of_handler (kind : string) (h : Agent -> value -> ucall) :
  In (kind, h) kind_handlers -> In kind four_kinds.
Proof.
  intros [E | [E | [E | [E | []]]]]; injection E as <- _; cbn; auto.
Qed.

(** X12.  Subscription and dispatch agree: after [init_agents] has
    completed on a group with unique agent ids, a message on the topic
    [init_agents] formats for an agent and a kind, with a payload that
    decodes, is dispatched to the handler of that kind on that agent,
    provided neither the experiment id nor the id of the agent has a
    slash. *)
Theorem subscribed_topic_reaches_its_agent (s : St W) (a : Agent) (kind : string)
    (h : Agent -> value -> ucall) (m : Message) (p : value) (w : W) :
  res (init_agents s) = Ok tt ->
  NoDup (map _uuid (agents (self s))) ->
  In a (agents (self s)) ->
  count_char "/" (exp_id (self s)) = O ->
  count_char "/" (_uuid a) = O ->
  In (kind, h) kind_handlers ->
  topic m = agent_topic (exp_id (self s)) a kind ->
  decoded m = Ok p ->
  let s' := {| self := self (st (init_agents s)); world := w |} in
  dispatch_message m s' = await_unit (h a p) s'.
Proof.
  intros Hok Hnd Ha He Hu Hh Ht Hp s'.
  destruct (init_agents_spec s) as (_ & _ & _ & Hres).
  rewrite Hok in Hres. destruct Hres as (_ & Hmap & _).
  apply (dispatch_message_known s' m p "exps" (exp_id (self s)) "agents" (_uuid a) kind a h).
  - exact Hp.
  - destruct m as [t pl]. cbn [topic] in Ht. subst t.
    apply agent_topic_fields; [exact (kind_of_handler _ _ Hh) | exact He | exact Hu].
  - subst s'. cbn [self]. rewrite Hmap. unfold dict_of_agents.
    apply dict_of_agents_lookup; assumption.
  - apply handler_of_table. exact Hh.
Qed.

(** X13.  A slash in the experiment id or in the id of an agent breaks the
    topics of that agent: the topic [init_agents] subscribes has more than
    five fields, so that the dispatch of any message on it raises
    [ValueError] (and ends the loop). *)
Theorem slash_in_ids_breaks_dispatch (s : St W) (exp : string) (a : Agent) (kind : string)
    (m : Message) (p : value) :
  In kind four_kinds ->
  (0 < count_char "/" exp + count_char "/" (_uuid a))%nat ->
  topic m = agent_topic exp a kind ->
  decoded m = Ok p ->
  dispatch_message m s = raise ValueError s.
Proof.
  intros Hk Hslash Ht Hp. apply (dispatch_message_malformed s m p Hp).
  destruct m as [t pl]. cbn [topic] in Ht. subst t.
  rewrite agent_topic_fields_length by exact Hk. lia.
Qed.

Lemma dict_of_agents_last (l1 l2 : list Agent) (a : Agent) :
  ~ In (_uuid a) (map _uuid l2) ->
  dict_of_agents (l1 ++ a :: l2) !! _uuid a = Some a.
Proof.
  intros Hl2. unfold dict_of_agents. rewrite foldl_app. cbn [foldl].
  rewrite dict_of_agents_other by exact Hl2. apply lookup_insert_eq.
Qed.

(** X14.  When several agents of a group carry the same id, the mapping
    built by [init_agents] sends the id to the last of them: the earlier
    ones get no message and no update. *)
Theorem last_agent_with_an_id_wins (s : St W) (l1 l2 : list Agent) (a : Agent) :
  res (init_agents s) = Ok tt ->
  agents (self s) = l1 ++ a :: l2 ->
  ~ In (_uuid a) (map _uuid l2) ->
  id2agent (self (st (init_agents s))) !! _uuid a = Some a /\
  (forall a', In a' l1 -> _uuid a' = _uuid a -> a' <> a ->
              id2agent (self (st (init_agents s))) !! _uuid a' <> Some a').
Proof.
  intros Hok Hag Hl2.
  destruct (init_agents_spec s) as (_ & _ & _ & Hres).
  rewrite Hok in Hres. destruct Hres as (_ & Hmap & _).
  rewrite Hmap, Hag. split; [apply dict_of_agents_last; exact Hl2 |].
  intros a' _ Hid Hne. rewrite Hid, (dict_of_agents_last l1 l2 a Hl2). congruence.
Qed.

End TopicClaims.

(** ** Records, [gather] and [update] *)

Section Records.

Context {W : Type} `{!Collaborators W}.

Lemma await_value_self_evs (c : vcall) (s : St W) :
  evs (await_value c s) = [EvV c (res (await_value c s))].
Proof. unfold await_value. destruct (do_value c (world s)). reflexivity. Qed.

Lemma dict_get_set_same (items : list (string * value)) (k : string) (v : value) :
  dict_get (dict_set items k v) k = Some v.
Proof.
  induction items as [| [k' v'] items IH]; cbn [dict_set dict_get].
  - rewrite String.eqb_refl. reflexivity.
  - destruct (String.eqb k' k) eqn:E; cbn [dict_get].
    + rewrite String.eqb_refl. reflexivity.
    + rewrite E. exact IH.
Qed.

Lemma dict_get_set_other (items : list (string * value)) (k k' : string) (v : value) :
  k' <> k -> dict_get (dict_set items k v) k' = dict_get items k'.
Proof.
  intros Hne. induction items as [| [k0 v0] items IH]; cbn [dict_set dict_get].
  - destruct (String.eqb_spec k k'); [congruence | reflexivity].
  - destruct (String.eqb_spec k0 k) as [-> | Hk0]; cbn [dict_get].
    + destruct (String.eqb_spec k k'); [congruence | reflexivity].
    + destruct (String.eqb k0 k'); [reflexivity | exact IH].
Qed.

Lemma dict_set_fresh (items : list (string * value)) (k : string) (v : value) :
  ~ In k (map fst items) -> dict_set items k v = items ++ [(k, v)].
Proof.
  induction items as [| [k' v'] items IH]; cbn [dict_set map fst app In]; [reflexivity |].
  intros Hk. destruct (String.eqb_spec k' k); [tauto |]. rewrite IH by tauto. reflexivity.
Qed.

(** X15.  A profile that [init_agents] writes is the first element of what
    the agent exports, with the id of the agent written over its ["id"]:
    the other fields are kept, an id the export carried is lost.  An export
    that is empty or whose first element is no dict raises. *)
Theorem exported_profile_carries_agent_id (a : Agent) (s : St W) (profile : value) :
  res (export_profile a s) = Ok profile ->
  exists exported items,
    evs (export_profile a s) = [EvV (ProfileExport a) (Ok exported)] /\
    index0 exported = Ok (VDict items) /\
    profile = VDict (dict_set items "id" (VStr (_uuid a))) /\
    getitem profile "id" = Ok (VStr (_uuid a)) /\
    (forall k, k <> "id" -> getitem profile k = getitem (VDict items) k).
Proof.
  unfold export_profile. intros Hok.
  apply bind_ok_inv in Hok as (exported & Hex & Hok & -> & _).
  apply bind_ok_inv in Hok as (first & Hfirst & Hok & -> & _).
  apply bind_ok_inv in Hok as (p & Hset & Hok & -> & _).
  cbn in Hok. injection Hok as <-.
  rewrite await_value_self_evs, Hex.
  destruct (index0 exported) as [first' | e] eqn:Hi; [| discriminate].
  cbn in Hfirst. injection Hfirst as ->.
  destruct first as [| | | | | | | items]; try discriminate.
  cbn in Hset. injection Hset as <-.
  exists exported, items. cbn [lift ret raise evs app].
  repeat split; [exact Hi | |].
  - cbn [getitem]. rewrite dict_get_set_same. reflexivity.
  - intros k Hk. cbn [getitem]. rewrite dict_get_set_other by exact Hk. reflexivity.
Qed.

Lemma tame_read_citizen_status (a : Agent) : tame read_event (citizen_status a).
Proof.
  unfold citizen_status. tame_steps.
  all: first [ apply tame_await_value; intros; exact I
             | apply tame_await_int; intros; exact I ].
Qed.

Lemma tame_read_institution_status (a : Agent) : tame read_event (institution_status a).
Proof.
  unfold institution_status. tame_steps.
  all: apply tame_await_value; intros; exact I.
Qed.

(** The end of both branches of [save_status]: the records, then the file
    opened, then the batch written. *)
Lemma append_batch_all_or_nothing (body : Agent -> M W value) (l : list Agent)
    (file : string) (schema : Schema) (s : St W)
    (path : string) (schema' : Schema) (records : list value) (codec : option string) :
  (forall a, tame read_event (body a)) ->
  let m := (avros ← collect body l;
            await_unit (OpenFile file "a+b");;
            await_unit (FastavroWriter file schema avros (Some "snappy"))) in
  In (EvU (FastavroWriter path schema' records codec) (Ok tt)) (evs (m s)) ->
  res (m s) = Ok tt /\ length records = length l.
Proof.
  intros Hbody m Hin. subst m.
  pose proof (tame_collect read_event body l Hbody s) as (_ & HP & _).
  rewrite Forall_forall in HP.
  rewrite bind_unfold in Hin |- *.
  destruct (res (collect body l s)) as [avros |] eqn:Hc; cbn [res evs] in *.
  2:{ apply list_elem_of_In in Hin. destruct (HP _ Hin). }
  rewrite bind_unfold, await_unit_evs in Hin |- *.
  destruct (res (await_unit (OpenFile file "a+b") _)) as [[] |]; cbn [res evs] in *.
  2:{ apply in_app_or in Hin as [Hin | [Hin | []]]; [| discriminate].
      apply list_elem_of_In in Hin. destruct (HP _ Hin). }
  rewrite await_unit_evs in Hin.
  apply in_app_or in Hin as [Hin | [Hin | [Hin | []]]]; [| discriminate |].
  - apply list_elem_of_In in Hin. destruct (HP _ Hin).
  - injection Hin as _ _ <- _ Hr. split; [exact Hr |].
    exact (collect_ok_length _ _ _ _ Hc).
Qed.

(** X16.  [save_status] appends all the records or none: a batch that was
    written means that [save_status] returned and that the batch has one
    record for every agent of the group.  When the record of one agent
    cannot be built (a read raises, a key is missing), or the file cannot be
    opened, nothing is written: the records of the agents before it are
    dropped with it. *)
Theorem save_status_appends_all_or_nothing (s : St W) (path : string) (schema : Schema)
    (records : list value) (codec : option string) :
  In (EvU (FastavroWriter path schema records codec) (Ok tt)) (evs (save_status s)) ->
  res (save_status s) = Ok tt /\ length records = length (agents (self s)).
Proof.
  unfold save_status. rewrite bind_unfold. cbn [get_self res st evs app].
  destruct (enable_avro (self s)); [| intros []].
  unfold first_agent. destruct (agents (self s)) as [| a0 l] eqn:Hag; [intros [] |].
  rewrite bind_unfold. cbn [ret res st evs app].
  destruct (negb (issubclass_InstitutionAgent (agent_type a0))).
  - apply append_batch_all_or_nothing. apply tame_read_citizen_status.
  - apply append_batch_all_or_nothing. apply tame_read_institution_status.
Qed.

(** The loop of [gather], for agents whose ids are not keys yet and differ
    from one another: one read for every agent, one item for every agent. *)
Lemma gather_from_unique (content : string) (l : list Agent)
    (acc results : list (string * value)) (s : St W) :
  NoDup (map fst acc ++ map _uuid l) ->
  res (gather_from content l acc s) = Ok results ->
  exists values,
    length values = length l /\
    results = acc ++ combine (map _uuid l) values /\
    evs (gather_from content l acc s)
    = map (fun av => EvV (MemoryGet (fst av) content) (Ok (snd av))) (combine l values).
Proof.
  revert acc s. induction l as [| a l IH]; intros acc s Hnd Hok; cbn [gather_from] in *.
  - cbn in Hok. injection Hok as <-. exists []. rewrite app_nil_r. auto.
  - apply bind_ok_inv in Hok as (v & Hv & Hok & -> & _).
    cbn [map] in Hnd.
    assert (Hfresh : ~ In (_uuid a) (map fst acc)).
    { apply NoDup_app in Hnd as (_ & Hdis & _). intros Hin.
      apply (Hdis (_uuid a)); [apply list_elem_of_In; exact Hin | left]. }
    rewrite (dict_set_fresh acc _ v Hfresh) in Hok |- *.
    assert (Hnd' : NoDup (map fst (acc ++ [(_uuid a, v)]) ++ map _uuid l)).
    { rewrite map_app. cbn [map fst]. rewrite <- app_assoc. exact Hnd. }
    destruct (IH _ _ Hnd' Hok) as (vs & Hlen & Hres & Hev).
    exists (v :: vs). cbn [length combine map fst snd].
    rewrite await_value_self_evs, Hv, Hev, Hres, <- app_assoc, Hlen. auto.
Qed.

(** X17.  [gather] reads the field [content] of the memory of every agent,
    once each and in the order of the group, and does nothing else; with
    unique ids, what it returns has one item for every agent, the id of the
    agent with the value read, in that order.  A read that raises makes
    [gather] raise: no partial result is returned. *)
Theorem gather_reads_every_agent (content : string) (s : St W) :
  self (st (gather content s)) = self s /\
  (forall ev e, In ev (evs (gather content s)) -> raised ev = Some e ->
                res (gather content s) = Raise e) /\
  (forall results,
     NoDup (map _uuid (agents (self s))) ->
     res (gather content s) = Ok results ->
     exists values,
       length values = length (agents (self s)) /\
       results = combine (map _uuid (agents (self s))) values /\
       evs (gather content s)
       = map (fun av => EvV (MemoryGet (fst av) content) (Ok (snd av)))
           (combine (agents (self s)) values)).
Proof.
  assert (Htame : forall l acc, tame read_event (gather_from content l acc)).
  { induction l as [| a l IH]; intros acc; cbn [gather_from]; [apply tame_ret |].
    apply tame_bind; [apply tame_await_value; intros; exact I | intros v; apply IH]. }
  unfold gather. rewrite bind_unfold. cbn [get_self res st evs app].
  destruct (Htame (agents (self s)) [] s) as (Hs & _ & Hr).
  split; [exact Hs |]. split; [exact Hr |].
  intros results Hnd Hok.
  destruct (gather_from_unique content (agents (self s)) [] results s) as (vs & H);
    [exact Hnd | exact Hok |]. exists vs. exact H.
Qed.

End Records.

Section Update.

Context {W : Type} `{!Collaborators W} `{!MemoryWriter W}.

(** X18.  [update] needs the mapping of [init_agents]: on a group whose
    mapping is empty (as it is until [init_agents] has run) it raises
    [KeyError] for every target and makes no call.  After [init_agents] has
    completed, it raises [KeyError] for an id that no agent of the group
    carries (where [message_dispatch] skips the message in silence), and for
    the id of an agent of a group with unique ids it is the call of
    [memory.update] on that agent. *)
Theorem update_needs_the_mapping (s : St W) (key : string) (content : value) :
  (id2agent (self s) = ∅ ->
   forall target, update target key content s = (Raise (KeyError target), s)) /\
  (res (init_agents s) = Ok tt ->
   let s' := st (init_agents s) in
   (forall target,
      ~ In target (map _uuid (agents (self s))) ->
      update target key content s' = (Raise (KeyError target), s')) /\
   (NoDup (map _uuid (agents (self s))) ->
    forall a, In a (agents (self s)) ->
      update (_uuid a) key content s'
      = (fst (memory_update a key content (world s')),
         {| self := self s'; world := snd (memory_update a key content (world s')) |}))).
Proof.
  split.
  - intros Hempty target. unfold update. rewrite Hempty, lookup_empty. reflexivity.
  - intros Hok s'. destruct (init_agents_spec s) as (_ & _ & _ & Hres).
    rewrite Hok in Hres. destruct Hres as (_ & Hmap & _). fold s' in Hmap. split.
    + intros target Ht. unfold update. rewrite Hmap. unfold dict_of_agents.
      rewrite dict_of_agents_other by exact Ht. rewrite lookup_empty. reflexivity.
    + intros Hnd a Ha. unfold update. rewrite Hmap. unfold dict_of_agents.
      rewrite dict_of_agents_lookup by assumption.
      destruct (memory_update a key content (world s')). reflexivity.
Qed.

End Update.

(** ** The constructor *)

Section ConstructorStages.

Context {W : Type} `{!Construction W}.

Lemma bind_evaluate {A B} (r : result A) (f : A -> Setup W B) (w : W) :
  (evaluate r ≫= f) w
  = match r with
    | Ok a => f a w
    | Raise e => {| built := Raise e; after := w; calls := [] |}
    end.
Proof.
  destruct r as [a | e]; [| reflexivity].
  change ((evaluate (Ok a) ≫= f) w)
    with {| built := built (f a w); after := after (f a w); calls := [] ++ calls (f a w) |}.
  destruct (f a w). reflexivity.
Qed.

Lemma bind_call {B} (c : setup_call) (f : unit -> Setup W B) (w : W) :
  (call c ≫= f) w
  = match (do_setup c w).1 with
    | Ok a => {| built := built (f a (do_setup c w).2);
                 after := after (f a (do_setup c w).2);
                 calls := (c, Ok a) :: calls (f a (do_setup c w).2) |}
    | Raise e => {| built := Raise e; after := (do_setup c w).2; calls := [(c, Raise e)] |}
    end.
Proof.
  unfold mbind, Setup_bind, setup_bind, call.
  destruct (do_setup c w) as [[a | e] w']; reflexivity.
Qed.

Lemma bind_mret {A B} (a : A) (f : A -> Setup W B) (w : W) :
  (mret a ≫= f) w = f a w.
Proof.
  change ((mret a ≫= f) w)
    with {| built := built (f a w); after := after (f a w); calls := [] ++ calls (f a w) |}.
  destruct (f a w). reflexivity.
Qed.

Lemma setup_bind_unfold {A B} (m : Setup W A) (f : A -> Setup W B) (w : W) :
  (m ≫= f) w
  = match built (m w) with
    | Ok a => {| built := built (f a (after (m w)));
                 after := after (f a (after (m w)));
                 calls := calls (m w) ++ calls (f a (after (m w))) |}
    | Raise e => {| built := Raise e; after := after (m w); calls := calls (m w) |}
    end.
Proof. reflexivity. Qed.

Lemma bind_loop {A B} (m : Setup W A) (b : B) (w : W) :
  built ((m ≫= fun _ => mret b) w)
  = match built (m w) with Ok _ => Ok b | Raise e => Raise e end /\
  calls ((m ≫= fun _ => mret b) w) = calls (m w).
Proof.
  unfold mbind, Setup_bind, setup_bind. destruct (built (m w)); cbn [built calls].
  - rewrite app_nil_r. split; reflexivity.
  - split; reflexivity.
Qed.

Lemma init_stages (fresh : string) (l : list Agent) (config : value) (exp : string)
    (avro : bool) (root : string) (w : W) :
  let path := root +:+ "/" +:+ fresh in
  let o := __init__ fresh l config exp avro root w in
  (Forall (fun cr => forall a, ~ configures a cr.1) (calls o) /\
   exists e, built o = Raise e) \/
  (exists hostname port username password llm sr eco w1,
     getpath config ["simulator_request"; "mqtt"; "server"] = Ok hostname /\
     getpath config ["simulator_request"; "mqtt"; "port"] = Ok port /\
     getitem config "llm_request" = Ok llm /\
     getitem config "simulator_request" = Ok sr /\
     (if contains sr "economy"
      then exists server,
             getpath config ["simulator_request"; "economy"; "server"] = Ok server /\
             eco = [(NewEconomyClient server, Ok tt)]
      else eco = []) /\
     let loop := setup_each (configure_agent exp (contains sr "economy") avro path) l w1 in
     calls o
     = (if avro then [(Mkdir path, Ok tt)] else [])
       ++ [(NewMessager hostname port username password, Ok tt);
           (NewLLMConfig llm, Ok tt); (NewLLM, Ok tt); (NewSimulator sr, Ok tt)]
       ++ eco ++ calls loop /\
     built o
     = match built loop with
       | Ok _ => Ok {| group_uuid := fresh; agents := l; exp_id := exp;
                       enable_avro := avro; avro_path := path; initialized := false;
                       id2agent := ∅; message_dispatch_task := 0 |}
       | Raise e => Raise e
       end).
Proof.
  intros path o. subst o. unfold __init__. fold path.
  set (group := {| group_uuid := fresh; agents := l; exp_id := exp; enable_avro := avro;
                   avro_path := path; initialized := false; id2agent := ∅;
                   message_dispatch_task := 0 |}).
  assert (Hrest : forall (w0 : W),
    let o := (evaluate (getpath config ["simulator_request"; "mqtt"; "server"]) ≫= fun hostname =>
              evaluate (getpath config ["simulator_request"; "mqtt"; "port"]) ≫= fun port =>
              evaluate (getpath config ["simulator_request"; "mqtt"]) ≫= fun mqtt =>
              evaluate (get_or_none mqtt "username") ≫= fun username =>
              evaluate (getpath config ["simulator_request"; "mqtt"]) ≫= fun mqtt0 =>
              evaluate (get_or_none mqtt0 "password") ≫= fun password =>
              call (NewMessager hostname port username password) ≫= fun _ =>
              evaluate (getitem config "llm_request") ≫= fun llm_request =>
              call (NewLLMConfig llm_request) ≫= fun _ =>
              call NewLLM ≫= fun _ =>
              evaluate (getitem config "simulator_request") ≫= fun simulator_request =>
              call (NewSimulator simulator_request) ≫= fun _ =>
              evaluate (getitem config "simulator_request") ≫= fun simulator_request0 =>
              (if contains simulator_request0 "economy"
               then evaluate (getpath config ["simulator_request"; "economy"; "server"])
                    ≫= fun server => call (NewEconomyClient server)
               else mret tt) ≫= fun _ =>
              setup_each (configure_agent exp (contains simulator_request0 "economy") avro path) l
              ≫= fun _ => mret group) w0 in
    (Forall (fun cr => forall a, ~ configures a cr.1) (calls o) /\
     exists e, built o = Raise e) \/
    (exists hostname port username password llm sr eco w1,
       getpath config ["simulator_request"; "mqtt"; "server"] = Ok hostname /\
       getpath config ["simulator_request"; "mqtt"; "port"] = Ok port /\
       getitem config "llm_request" = Ok llm /\
       getitem config "simulator_request" = Ok sr /\
       (if contains sr "economy"
        then exists server,
               getpath config ["simulator_request"; "economy"; "server"] = Ok server /\
               eco = [(NewEconomyClient server, Ok tt)]
        else eco = []) /\
       let loop := setup_each (configure_agent exp (contains sr "economy") avro path) l w1 in
       calls o
       = [(NewMessager hostname port username password, Ok tt);
          (NewLLMConfig llm, Ok tt); (NewLLM, Ok tt); (NewSimulator sr, Ok tt)]
         ++ eco ++ calls loop /\
       built o = match built loop with Ok _ => Ok group | Raise e => Raise e end)).
  { intros w0 o. subst o.
    rewrite bind_evaluate.
    destruct (getpath config ["simulator_request"; "mqtt"; "server"]) as [hostname | e];
      [| left; split; [constructor | eexists; reflexivity]].
    rewrite bind_evaluate.
    destruct (getpath config ["simulator_request"; "mqtt"; "port"]) as [port | e];
      [| left; split; [constructor | eexists; reflexivity]].
    rewrite bind_evaluate.
    destruct (getpath config ["simulator_request"; "mqtt"]) as [mqtt | e];
      [| left; split; [constructor | eexists; reflexivity]].
    rewrite bind_evaluate.
    destruct (get_or_none mqtt "username") as [username | e];
      [| left; split; [constructor | eexists; reflexivity]].
    rewrite bind_evaluate, bind_evaluate.
    destruct (get_or_none mqtt "password") as [password | e];
      [| left; split; [constructor | eexists; reflexivity]].
    rewrite bind_call.
    destruct ((do_setup (NewMessager hostname port username password) w0).1) as [[] | e];
      cbn [built calls];
      [| left; split; [repeat constructor; intros a Hc; exact Hc | eexists; reflexivity]].
    set (w1 := (do_setup (NewMessager hostname port username password) w0).2). clearbody w1.
    rewrite bind_evaluate.
    destruct (getitem config "llm_request") as [llm | e]; cbn [built calls];
      [| left; split; [repeat constructor; intros a Hc; exact Hc | eexists; reflexivity]].
    rewrite bind_call.
    destruct ((do_setup (NewLLMConfig llm) w1).1) as [[] | e]; cbn [built calls];
      [| left; split; [repeat constructor; intros a Hc; exact Hc | eexists; reflexivity]].
    set (w2 := (do_setup (NewLLMConfig llm) w1).2). clearbody w2.
    rewrite bind_call.
    destruct ((do_setup NewLLM w2).1) as [[] | e]; cbn [built calls];
      [| left; split; [repeat constructor; intros a Hc; exact Hc | eexists; reflexivity]].
    set (w3 := (do_setup NewLLM w2).2). clearbody w3.
    rewrite bind_evaluate.
    destruct (getitem config "simulator_request") as [sr | e]; cbn [built calls];
      [| left; split; [repeat constructor; intros a Hc; exact Hc | eexists; reflexivity]].
    rewrite bind_call.
    destruct ((do_setup (NewSimulator sr) w3).1) as [[] | e]; cbn [built calls];
      [| left; split; [repeat constructor; intros a Hc; exact Hc | eexists; reflexivity]].
    set (w4 := (do_setup (NewSimulator sr) w3).2). clearbody w4.
    rewrite bind_evaluate.
    set (m := if contains sr "economy"
              then evaluate (getpath config ["simulator_request"; "economy"; "server"])
                   ≫= fun server => call (NewEconomyClient server)
              else mret tt).
    assert (Hm : (exists e, built (m w4) = Raise e /\
                    Forall (fun cr => forall a, ~ configures a cr.1) (calls (m w4))) \/
                 (built (m w4) = Ok tt /\
                  if contains sr "economy"
                  then exists server,
                         getpath config ["simulator_request"; "economy"; "server"] = Ok server /\
                         calls (m w4) = [(NewEconomyClient server, Ok tt)]
                  else calls (m w4) = [])).
    { subst m. destruct (contains sr "economy"); [| right; split; reflexivity].
      rewrite bind_evaluate.
      destruct (getpath config ["simulator_request"; "economy"; "server"]) as [server | e];
        [| left; exists e; split; [reflexivity | constructor]].
      unfold call. destruct (do_setup (NewEconomyClient server) w4) as [[[] | e] w5];
        cbn [built calls].
      - right. split; [reflexivity |]. exists server. split; reflexivity.
      - left. exists e. split; [reflexivity |].
        repeat constructor; intros a Hc; exact Hc. }
    rewrite !setup_bind_unfold with (m := m).
    destruct Hm as [(e & -> & Hcalls) | (-> & Heco)]; cbn [built calls after].
    - left. split; [| eexists; reflexivity].
      repeat (constructor; [intros a Hc; exact Hc |]). exact Hcalls.
    - right. destruct (bind_loop
        (setup_each (configure_agent exp (contains sr "economy") avro path) l) group
        (after (m w4))) as (Hb & Hc).
      exists hostname, port, username, password, llm, sr, (calls (m w4)), (after (m w4)).
      repeat split; try reflexivity.
      + destruct (contains sr "economy"); [| exact Heco].
        destruct Heco as (server & Hs & Hcs). exists server. split; assumption.
      + cbn zeta. rewrite Hc. reflexivity.
      + cbn zeta. rewrite Hb. reflexivity. }
  destruct avro.
  - rewrite bind_call.
    destruct ((do_setup (Mkdir path) w).1) as [[] | e]; cbn [built calls];
      [| left; split; [repeat constructor; intros a Hc; exact Hc | eexists; reflexivity]].
    destruct (Hrest (do_setup (Mkdir path) w).2)
      as [(HF & e & He) | (hostname & port & username & password & llm & sr & eco & w1
                           & H1 & H2 & H3 & H4 & H5 & H6 & H7)].
    + left. split; [| exists e; exact He].
      constructor; [intros a Hc; exact Hc | exact HF].
    + right. exists hostname, port, username, password, llm, sr, eco, w1.
      repeat split; try assumption. cbn zeta in H6 |- *. rewrite H6. reflexivity.
  - rewrite bind_mret. exact (Hrest w).
Qed.

End ConstructorStages.

Section ConstructorLoop.

Context {W : Type} `{!Construction W}.

Lemma setup_each_calls {A} (body : A -> Setup W unit) (l : list A) (w : W)
    (x : setup_call * result unit) :
  In x (calls (setup_each body l w)) ->
  exists a w', In a l /\ In x (calls (body a w')).
Proof.
  revert w. induction l as [| a l IH]; intros w; cbn [setup_each]; [intros [] |].
  rewrite setup_bind_unfold. destruct (built (body a w)) as [[] | e]; cbn [calls].
  - intros Hin. apply in_app_or in Hin as [Hin | Hin].
    + exists a, w. split; [left; reflexivity | exact Hin].
    + destruct (IH _ Hin) as (a' & w' & Ha' & Hx). exists a', w'. split; [right |]; assumption.
  - intros Hin. exists a, w. split; [left; reflexivity | exact Hin].
Qed.

Lemma setup_each_ok {A} (body : A -> Setup W unit) (l : list A) (w : W) :
  built (setup_each body l w) = Ok tt ->
  forall a, In a l ->
    exists w', built (body a w') = Ok tt /\
               forall x, In x (calls (body a w')) -> In x (calls (setup_each body l w)).
Proof.
  revert w. induction l as [| a l IH]; intros w; cbn [setup_each]; [intros _ a [] |].
  rewrite setup_bind_unfold. destruct (built (body a w)) as [[] | e] eqn:Hb;
    cbn [built calls]; [| discriminate].
  intros Hok a' [<- | Ha'].
  - exists w. split; [exact Hb |]. intros x Hx. apply in_or_app. left. exact Hx.
  - destruct (IH _ Hok a' Ha') as (w' & Hb' & Hsub). exists w'. split; [exact Hb' |].
    intros x Hx. apply in_or_app. right. apply Hsub. exact Hx.
Qed.

Lemma setup_each_all_ok {A} (body : A -> Setup W unit) (l : list A) (w : W) :
  (forall a w', built (body a w') = Ok tt -> Forall (fun cr => cr.2 = Ok tt) (calls (body a w'))) ->
  built (setup_each body l w) = Ok tt ->
  Forall (fun cr => cr.2 = Ok tt) (calls (setup_each body l w)).
Proof.
  intros Hbody. revert w. induction l as [| a l IH]; intros w; cbn [setup_each];
    [intros _; constructor |].
  rewrite setup_bind_unfold. destruct (built (body a w)) as [[] | e] eqn:Hb;
    cbn [built calls]; [| discriminate].
  intros Hok. apply Forall_app. split; [apply Hbody; exact Hb | apply IH; exact Hok].
Qed.

(** The calls on one agent: its setters, in the order of the source; the
    economy client and the avro files only when the group has them. *)
Lemma configure_agent_spec (exp : string) (economy avro : bool) (path : string)
    (a : Agent) (w : W) :
  let o := configure_agent exp economy avro path a w in
  (forall c r, In (c, r) (calls o) ->
     configures a c /\
     (c = SetEconomyClient a -> economy = true) /\
     (forall p, c = SetAvroFile a p -> avro = true /\ p = path)) /\
  (built o = Ok tt ->
   calls o
   = [(SetExpId a exp, Ok tt); (SetLlmClient a, Ok tt); (SetSimulator a, Ok tt)]
     ++ (if economy then [(SetEconomyClient a, Ok tt)] else [])
     ++ [(SetMessager a, Ok tt)]
     ++ (if avro then [(SetAvroFile a path, Ok tt)] else [])).
Proof.
  assert (Hone : forall (c c' : setup_call) (r r' : result unit),
            c' = SetExpId a exp \/ c' = SetLlmClient a \/ c' = SetSimulator a \/
            (c' = SetEconomyClient a /\ economy = true) \/ c' = SetMessager a \/
            (c' = SetAvroFile a path /\ avro = true) ->
            (c', r') = (c, r) ->
            configures a c /\
            (c = SetEconomyClient a -> economy = true) /\
            (forall p, c = SetAvroFile a p -> avro = true /\ p = path)).
  { intros c c' r r' Hc' [= <- _].
    destruct Hc' as [-> | [-> | [-> | [[-> He] | [-> | [-> Hv]]]]]];
      repeat split; cbn; intros; try congruence; split; congruence. }
  unfold configure_agent. cbv zeta.
  rewrite bind_call.
  destruct ((do_setup (SetExpId a exp) w).1) as [[] | e1]; cbn [built calls].
  2:{ split; [| discriminate]. intros c r [Hc | []]. revert Hc. apply Hone. tauto. }
  set (w1 := (do_setup (SetExpId a exp) w).2). clearbody w1.
  rewrite bind_call.
  destruct ((do_setup (SetLlmClient a) w1).1) as [[] | e2]; cbn [built calls].
  2:{ split; [| discriminate].
      intros c r [Hc | [Hc | []]]; revert Hc; apply Hone; tauto. }
  set (w2 := (do_setup (SetLlmClient a) w1).2). clearbody w2.
  rewrite bind_call.
  destruct ((do_setup (SetSimulator a) w2).1) as [[] | e3]; cbn [built calls].
  2:{ split; [| discriminate].
      intros c r [Hc | [Hc | [Hc | []]]]; revert Hc; apply Hone; tauto. }
  set (w3 := (do_setup (SetSimulator a) w2).2). clearbody w3.
  assert (Hlast : forall w4,
    let o := (call (SetMessager a) ≫= fun _ =>
              if avro then call (SetAvroFile a path) else mret tt) w4 in
    (forall c r, In (c, r) (calls o) ->
       configures a c /\ (c = SetEconomyClient a -> economy = true) /\
       (forall p, c = SetAvroFile a p -> avro = true /\ p = path)) /\
    (built o = Ok tt ->
     calls o = [(SetMessager a, Ok tt)]
               ++ (if avro then [(SetAvroFile a path, Ok tt)] else []))).
  { intros w4 o. subst o. rewrite bind_call.
    destruct ((do_setup (SetMessager a) w4).1) as [[] | e5]; cbn [built calls].
    2:{ split; [| discriminate]. intros c r [Hc | []]. revert Hc. apply Hone. tauto. }
    destruct avro.
    - unfold call. destruct (do_setup (SetAvroFile a path) _) as [[[] | e6] w6];
        cbn [built calls].
      + split; [| reflexivity].
        intros c r [Hc | [Hc | []]]; revert Hc; apply Hone; tauto.
      + split; [| discriminate].
        intros c r [Hc | [Hc | []]]; revert Hc; apply Hone; tauto.
    - split; [| reflexivity]. intros c r [Hc | []]. revert Hc. apply Hone. tauto. }
  destruct economy.
  - rewrite bind_call.
    destruct ((do_setup (SetEconomyClient a) w3).1) as [[] | e4]; cbn [built calls].
    2:{ split; [| discriminate].
        intros c r [Hc | [Hc | [Hc | [Hc | []]]]]; revert Hc; apply Hone; tauto. }
    destruct (Hlast (do_setup (SetEconomyClient a) w3).2) as (Hc & Hok). cbv zeta in Hc, Hok.
    split.
    + intros c r [H | [H | [H | [H | H]]]]; [| | | | exact (Hc c r H)];
        revert H; apply Hone; tauto.
    + intros Hb. rewrite (Hok Hb). reflexivity.
  - rewrite bind_mret. destruct (Hlast w3) as (Hc & Hok). cbv zeta in Hc, Hok.
    split.
    + intros c r [H | [H | [H | H]]]; [| | | exact (Hc c r H)];
        revert H; apply Hone; tauto.
    + intros Hb. rewrite (Hok Hb). reflexivity.
Qed.

End ConstructorLoop.

Section ConstructorClaims.

Context {W : Type} `{!Construction W}.

(** X19.  [__init__] touches no agent before the clients exist: a setter
    is called on an agent only when the configuration has the broker
    address, ["llm_request"] and ["simulator_request"] and the messager, the
    language-model configuration and client and the simulator have all been
    created (so a missing key or a failing constructor leaves every agent
    as it was given).  The economy client is set only where
    ["simulator_request"] has the key ["economy"] and the client has been
    created, the avro files only with [enable_avro], after the directory of
    the group has been made. *)
Theorem agents_are_configured_last (fresh : string) (l : list Agent) (config : value)
    (exp : string) (avro : bool) (root : string) (w : W)
    (c : setup_call) (r : result unit) (a : Agent) :
  let path := root +:+ "/" +:+ fresh in
  let o := __init__ fresh l config exp avro root w in
  In (c, r) (calls o) ->
  configures a c ->
  In a l /\
  (exists hostname port username password llm sr,
     getpath config ["simulator_request"; "mqtt"; "server"] = Ok hostname /\
     getpath config ["simulator_request"; "mqtt"; "port"] = Ok port /\
     getitem config "llm_request" = Ok llm /\
     getitem config "simulator_request" = Ok sr /\
     In (NewMessager hostname port username password, Ok tt) (calls o) /\
     In (NewLLMConfig llm, Ok tt) (calls o) /\
     In (NewLLM, Ok tt) (calls o) /\
     In (NewSimulator sr, Ok tt) (calls o) /\
     (c = SetEconomyClient a ->
      contains sr "economy" = true /\
      exists server, In (NewEconomyClient server, Ok tt) (calls o))) /\
  (forall p, c = SetAvroFile a p ->
     avro = true /\ p = path /\ In (Mkdir path, Ok tt) (calls o)).
Proof.
  intros path o Hin Hc.
  destruct (init_stages fresh l config exp avro root w)
    as [(HF & _) | (hostname & port & username & password & llm & sr & eco & w1
                    & H1 & H2 & H3 & H4 & Heco & Hcalls & _)].
  { fold o in HF. rewrite Forall_forall in HF.
    apply list_elem_of_In in Hin. destruct (HF _ Hin a Hc). }
  cbv zeta in Hcalls. fold path o in Hcalls.
  assert (Hloop : In (c, r) (calls (setup_each
            (configure_agent exp (contains sr "economy") avro path) l w1))).
  { rewrite Hcalls in Hin.
    apply in_app_or in Hin as [Hin | Hin].
    { destruct avro; [destruct Hin as [[= <- _] | []]; destruct Hc | destruct Hin]. }
    apply in_app_or in Hin as [Hin | Hin].
    { destruct Hin as [[= <- _] | [[= <- _] | [[= <- _] | [[= <- _] | []]]]]; destruct Hc. }
    apply in_app_or in Hin as [Hin | Hin]; [| exact Hin].
    destruct (contains sr "economy").
    - destruct Heco as (server & _ & ->). destruct Hin as [[= <- _] | []]. destruct Hc.
    - subst eco. destruct Hin. }
  apply setup_each_calls in Hloop as (a' & w' & Ha' & Hx).
  destruct (configure_agent_spec exp (contains sr "economy") avro path a' w') as (Hs & _).
  destruct (Hs c r Hx) as (Hc' & Hec & Hav).
  assert (a' = a) as -> by (destruct c; cbn in Hc, Hc'; first [contradiction | congruence]).
  split; [exact Ha' |]. split.
  - exists hostname, port, username, password, llm, sr.
    repeat split; try assumption.
    1-4: rewrite Hcalls; apply in_or_app; right; cbn [app In]; tauto.
    + exact (Hec H).
    + specialize (Hec H). rewrite Hec in Heco. destruct Heco as (server & _ & ->).
      exists server. rewrite Hcalls. apply in_or_app. right.
      apply in_or_app. right. left. reflexivity.
  - intros p Hp. destruct (Hav p Hp) as (-> & ->). repeat split.
    rewrite Hcalls. left. reflexivity.
Qed.

(** X20.  When [__init__] returns, every call it made returned, and every
    agent of the group has been given the experiment id, the language-model
    client, the simulator and the messager; the economy client too where
    ["simulator_request"] has the key ["economy"], and the avro files where
    [enable_avro] is set.  The group keeps the agents, the experiment id
    and the flag it was given, and its avro directory is the given path
    followed by the uuid of the group. *)
Theorem constructor_configures_every_agent (fresh : string) (l : list Agent)
    (config : value) (exp : string) (avro : bool) (root : string) (w : W)
    (g : AgentGroup) :
  let path := root +:+ "/" +:+ fresh in
  let o := __init__ fresh l config exp avro root w in
  built o = Ok g ->
  Forall (fun cr => cr.2 = Ok tt) (calls o) /\
  (agents g = l /\ exp_id g = exp /\ enable_avro g = avro /\ avro_path g = path /\
   group_uuid g = fresh) /\
  (avro = true -> In (Mkdir path, Ok tt) (calls o)) /\
  (forall a, In a l ->
     In (SetExpId a exp, Ok tt) (calls o) /\
     In (SetLlmClient a, Ok tt) (calls o) /\
     In (SetSimulator a, Ok tt) (calls o) /\
     In (SetMessager a, Ok tt) (calls o) /\
     (avro = true -> In (SetAvroFile a path, Ok tt) (calls o)) /\
     (forall sr, getitem config "simulator_request" = Ok sr ->
                 contains sr "economy" = true ->
                 In (SetEconomyClient a, Ok tt) (calls o))).
Proof.
  intros path o Hok.
  destruct (init_stages fresh l config exp avro root w)
    as [(_ & e & He) | (hostname & port & username & password & llm & sr & eco & w1
                        & H1 & H2 & H3 & H4 & Heco & Hcalls & Hbuilt)].
  { fold o in He. congruence. }
  cbv zeta in Hcalls, Hbuilt. fold path o in Hcalls, Hbuilt.
  set (loop := setup_each (configure_agent exp (contains sr "economy") avro path) l w1) in *.
  destruct (built loop) as [[] | e] eqn:Hloop; [| congruence].
  rewrite Hok in Hbuilt. injection Hbuilt as ->. cbn [agents exp_id enable_avro avro_path group_uuid].
  split; [| split; [repeat split | split]].
  - rewrite Hcalls. repeat (apply Forall_app; split).
    + destruct avro; repeat constructor.
    + repeat constructor.
    + destruct (contains sr "economy"); [destruct Heco as (server & _ & ->) | subst eco];
        repeat constructor.
    + apply setup_each_all_ok; [| exact Hloop]. intros a w' Hb.
      destruct (configure_agent_spec exp (contains sr "economy") avro path a w') as (_ & Hc).
      rewrite (Hc Hb). destruct (contains sr "economy"), avro; repeat constructor.
  - intros ->. rewrite Hcalls. left. reflexivity.
  - intros a Ha.
    destruct (setup_each_ok _ _ _ Hloop a Ha) as (w' & Hb & Hsub).
    destruct (configure_agent_spec exp (contains sr "economy") avro path a w') as (_ & Hc).
    specialize (Hc Hb).
    assert (Hsub' : forall x,
              In x (calls (configure_agent exp (contains sr "economy") avro path a w')) ->
              In x (calls o)).
    { intros x Hx. rewrite Hcalls. apply in_or_app. right. apply in_or_app. right.
      apply in_or_app. right. apply Hsub. exact Hx. }
    rewrite Hc in Hsub'.
    repeat split.
    + apply Hsub'. cbn [app In]. tauto.
    + apply Hsub'. cbn [app In]. tauto.
    + apply Hsub'. cbn [app In]. tauto.
    + apply Hsub'. rewrite !in_app_iff. cbn [In]. tauto.
    + intros ->. apply Hsub'. rewrite !in_app_iff. cbn [In]. tauto.
    + intros sr' Hsr' Hec. assert (sr' = sr) as -> by congruence.
      apply Hsub'. rewrite Hec, !in_app_iff. cbn [In]. tauto.
Qed.

End ConstructorClaims.

Section ConstructedGroup.

Context {W : Type} `{!Construction W} {W' : Type} `{!MemoryWriter W'}.

(** X21.  A group that [__init__] has just returned is not initialized and
    maps no id: [update] raises [KeyError] on it for every target, the ids
    of its own agents included, and calls no memory; only [init_agents]
    (run by the first [step]) makes the agents reachable. *)
Theorem update_before_init_agents_raises (fresh : string) (l : list Agent)
    (config : value) (exp : string) (avro : bool) (root : string) (w : W)
    (g : AgentGroup) :
  built (__init__ fresh l config exp avro root w) = Ok g ->
  initialized g = false /\
  id2agent g = ∅ /\
  forall (w' : W') (target key : string) (content : value),
    update target key content {| self := g; world := w' |}
    = (Raise (KeyError target), {| self := g; world := w' |}).
Proof.
  intros Hok.
  destruct (init_stages fresh l config exp avro root w)
    as [(_ & e & He) | (hostname & port & username & password & llm & sr & eco & w1
                        & _ & _ & _ & _ & _ & _ & Hbuilt)]; [congruence |].
  cbv zeta in Hbuilt. rewrite Hok in Hbuilt.
  destruct (built (setup_each _ l w1)) as [[] | e]; [| discriminate].
  injection Hbuilt as ->. split; [reflexivity |]. split; [reflexivity |].
  intros w' target key content. unfold update. cbn [self id2agent].
  rewrite lookup_empty. reflexivity.
Qed.

End ConstructedGroup.


(** ** The files of a group *)

Section Files.

Context {W : Type} `{!Collaborators W}.

Lemma group_file_event_config (g g' : AgentGroup) (ev : event) :
  same_config g g' -> group_file_event g' ev -> group_file_event g ev.
Proof.
  intros (_ & _ & _ & He & Hp).
  assert (Hf : forall kind, avro_file g' kind = avro_file g kind)
    by (intros kind; unfold avro_file; rewrite Hp; reflexivity).
  destruct ev as [[] r | | | | | | | |]; cbn; auto.
  - rewrite He, !Hf. intros (? & [(? & kind & ? & ->) | (? & ->)]); split; auto.
    + left. split; [assumption |]. exists kind. rewrite Hf. auto.
  - rewrite He. intros (? & ->). split; [assumption |]. destruct schema; cbn; apply Hf.
Qed.

Lemma tame_files_create_avro_files (g : AgentGroup) :
  enable_avro g = true -> tame (group_file_event g) (create_avro_files g).
Proof.
  intros Hen. unfold create_avro_files, first_agent.
  destruct (agents g) as [| a0 l] eqn:Eg; [apply tame_raise_bind |].
  tame_steps.
  all: try (unfold export_profile; tame_steps; apply tame_await_value; intros; exact I).
  all: apply tame_await_unit; intros r; cbn; split; try assumption; try reflexivity.
  all: left; split; [reflexivity |]; eexists; split; [| reflexivity]; cbn; tauto.
Qed.

Lemma files_save_status (s : St W) :
  Forall (group_file_event (self s)) (evs (save_status s)).
Proof.
  enough (H : self (st (save_status s)) = self s /\
              Forall (group_file_event (self s)) (evs (save_status s)) /\
              (forall ev e, In ev (evs (save_status s)) -> raised ev = Some e ->
                            res (save_status s) = Raise e)) by apply H.
  unfold save_status. apply (tame_get_self_bind group_file_event). intros g.
  destruct (enable_avro g) eqn:Hen; [| apply tame_ret].
  unfold first_agent. destruct (agents g) as [| a0 l] eqn:Eg; [apply tame_raise_bind |].
  tame_steps.
  all: first
    [ apply (tame_weaken read_event);
      [ intros [] Hev; cbn in Hev |- *; first [exact I | destruct Hev]
      | first [apply tame_read_citizen_status | apply tame_read_institution_status] ]
    | apply tame_await_unit; intros r; cbn; split; try assumption; try reflexivity;
      right; split; reflexivity ].
Qed.

(** X22.  The group keeps to its own files.  Whatever [init_agents],
    [save_status] and [step] open or write is one of the four avro files of
    the directory of the group, and only on a group with avro enabled; a
    file is opened for appending only if it is the status file, the others
    are only ever created; and every batch goes to the file of its schema
    (profiles to profile.avro, statuses of either schema to status.avro). *)
Theorem group_keeps_to_its_files (s : St W) :
  Forall (group_file_event (self s)) (evs (init_agents s)) /\
  Forall (group_file_event (self s)) (evs (save_status s)) /\
  Forall (group_file_event (self s)) (evs (step s)).
Proof.
  assert (Hinit : Forall (group_file_event (self s)) (evs (init_agents s))).
  { apply init_agents_forall; cbn; try tauto.
    - intros [[] | | | | | | | |]; cbn; tauto.
    - intros g s' Hcfg. unfold avro_block.
      destruct (enable_avro g) eqn:Hen; [| constructor].
      eapply Forall_impl; [apply (tame_files_create_avro_files g Hen s') |].
      intros ev. apply group_file_event_config. exact Hcfg. }
  split; [exact Hinit |]. split; [apply files_save_status |].
  pose proof (step_unfold s) as Hs. cbv zeta in Hs.
  destruct (step_init_spec s) as (_ & Hcfg & _).
  assert (Hi : Forall (group_file_event (self s)) (evs (step_init s))).
  { unfold step_init. destruct (initialized (self s)); [constructor | exact Hinit]. }
  assert (Hg : Forall (group_file_event (self s))
                 (evs (gather_runs (agents (self (st (step_init s)))) (st (step_init s)))))
    by (apply gather_runs_run_events; intros; exact I).
  destruct (res (step_init s)) as [[] | e].
  - destruct (res (gather_runs _ _)) as [[] | e].
    + destruct Hs as (_ & -> & _).
      constructor; [exact I |]. apply Forall_app; split; [exact Hi |].
      apply Forall_app; split; [exact Hg |].
      eapply Forall_impl; [apply files_save_status |].
      intros ev. apply group_file_event_config.
      rewrite gather_runs_self. exact Hcfg.
    + destruct Hs as (_ & -> & _).
      constructor; [exact I |]. apply Forall_app; split; assumption.
  - destruct Hs as (_ & -> & _). constructor; [exact I | assumption].
Qed.

End Files.


(** ** Failures inside [run] *)

Section RunFailures.

Context {W : Type} `{!Collaborators W}.

Lemma gather_runs_only_runs (l : list Agent) (s : St W) (ev : event) :
  In ev (evs (gather_runs l s)) -> exists a r, ev = EvU (AgentRun a) r.
Proof.
  intros Hin. pose proof (gather_runs_evs l s) as H.
  induction H as [| a ev' l1 l2 (r & ->) _ IH]; [destruct Hin |].
  destruct Hin as [<- | Hin]; [eauto | exact (IH Hin)].
Qed.

Lemma gather_runs_fails (l : list Agent) (s : St W) (ev : event) (e : exn) :
  In ev (evs (gather_runs l s)) -> raised ev = Some e ->
  exists e', res (gather_runs l s) = Raise e'.
Proof.
  revert s. induction l as [| a l IH]; intros s; cbn [gather_runs res evs]; [intros [] |].
  rewrite await_unit_evs. cbn [app]. intros [<- | Hin] Hr.
  - cbn in Hr. destruct (res (await_unit (AgentRun a) s)) as [[] | e0]; [discriminate |].
    eauto.
  - destruct (res (await_unit (AgentRun a) s)) as [[] | e0]; [| eauto].
    exact (IH _ Hin Hr).
Qed.

Lemma step_init_fails (s : St W) (ev : event) (e : exn) :
  In ev (evs (step_init s)) -> raised ev = Some e -> res (step_init s) = Raise e.
Proof.
  unfold step_init. destruct (initialized (self s)); [intros [] |].
  destruct (init_agents_spec s) as (_ & Hr & _). apply Hr.
Qed.

Lemma step_fails (s : St W) (ev : event) (e : exn) :
  In ev (evs (step s)) -> raised ev = Some e ->
  exists e', res (step s) = Raise e' /\ ((forall a r, ev <> EvU (AgentRun a) r) -> e' = e).
Proof.
  intros Hin Hr. pose proof (step_unfold s) as Hs. cbv zeta in Hs.
  pose proof (step_init_fails s ev e) as Hi.
  destruct (res (step_init s)) as [[] | e0].
  - pose proof (gather_runs_fails (agents (self (st (step_init s)))) (st (step_init s)) ev e)
      as Hg.
    pose proof (gather_runs_only_runs (agents (self (st (step_init s)))) (st (step_init s)) ev)
      as Hg'.
    destruct (res (gather_runs _ _)) as [[] | e1].
    + destruct Hs as (Hres & Hev & _). rewrite Hev in Hin.
      destruct Hin as [<- | Hin]; [discriminate |].
      apply in_app_or in Hin as [Hin | Hin]; [specialize (Hi Hin Hr); discriminate |].
      apply in_app_or in Hin as [Hin | Hin];
        [destruct (Hg Hin Hr) as (e' & He'); discriminate |].
      destruct (save_status_spec (st (gather_runs (agents (self (st (step_init s))))
                                        (st (step_init s))))) as (_ & _ & Hsv).
      exists e. rewrite Hres. split; [exact (Hsv ev e Hin Hr) | reflexivity].
    + destruct Hs as (Hres & Hev & _). rewrite Hev in Hin.
      destruct Hin as [<- | Hin]; [discriminate |].
      apply in_app_or in Hin as [Hin | Hin]; [specialize (Hi Hin Hr); discriminate |].
      exists e1. split; [exact Hres |]. intros Hno.
      destruct (Hg' Hin) as (a & r & ->). destruct (Hno a r eq_refl).
  - destruct Hs as (Hres & Hev & _). rewrite Hev in Hin.
    destruct Hin as [<- | Hin]; [discriminate |].
    specialize (Hi Hin Hr). exists e0. split; [exact Hres |]. intros _. congruence.
Qed.

Lemma run_loop_fails (fuel : nat) (end_time : Z) (s : St W) (ev : event) (e : exn) :
  In ev (evs (run_loop fuel end_time s)) -> raised ev = Some e ->
  exists e', res (run_loop fuel end_time s) = Raise e' /\
             ((forall a r, ev <> EvU (AgentRun a) r) -> e' = e).
Proof.
  revert s. induction fuel as [| n IH]; intros s; cbn [run_loop]; [intros [] |].
  rewrite bind_unfold, await_int_evs.
  destruct (res (await_int GetTime s)) as [t | e0]; cbn [res evs].
  2:{ intros [<- | []] Hr. cbn in Hr. injection Hr as ->. eauto. }
  destruct (bool_decide (t >= end_time)%Z).
  { cbn [ret evs app]. intros [<- | []]. discriminate. }
  cbn [app]. intros [<- | Hin] Hr; [discriminate |].
  rewrite bind_unfold in Hin |- *.
  pose proof (step_fails (st (await_int GetTime s)) ev e) as Hst.
  destruct (res (step (st (await_int GetTime s)))) as [[] | e1]; cbn [res evs] in Hin |- *.
  - apply in_app_or in Hin as [Hin | Hin].
    + destruct (Hst Hin Hr) as (e' & He' & _). discriminate.
    + exact (IH _ Hin Hr).
  - destruct (Hst Hin Hr) as (e' & [= <-] & He'). eauto.
Qed.

(** X23.  [run] hides no failure.  When any call made during a [run]
    raised (a read of the simulator time, a binding, a subscription, the
    [run] of an agent, a read or a write of a snapshot), [run] raises too:
    a [run] that returns has seen every call return.  The exception is the
    one of that call, unless the call is the [run] of an agent: of several
    agents that raise in the same [step], [run] reports one only. *)
Theorem run_hides_no_failure (fuel : nat) (day : Z) (s : St W) (ev : event) (e : exn) :
  In ev (evs (run fuel day s)) ->
  raised ev = Some e ->
  exists e', res (run fuel day s) = Raise e' /\
             ((forall a r, ev <> EvU (AgentRun a) r) -> e' = e).
Proof.
  unfold run. rewrite bind_unfold, await_int_evs.
  destruct (res (await_int GetTime s)) as [t | e0]; cbn [res evs].
  2:{ intros [<- | []] Hr. cbn in Hr. injection Hr as ->. eauto. }
  cbn [app]. intros [<- | Hin] Hr; [discriminate |].
  exact (run_loop_fails _ _ _ _ _ Hin Hr).
Qed.

End RunFailures.


(** ** The further properties on concrete groups *)

Lemma failed_binding_stops_init_witness :
  In (EvU (BindToSimulator (citizen "a3")) (Raise (External "refused")))
     (evs (init_agents failing_second_bind_start)) /\
  exists pre post,
    agents (self failing_second_bind_start) = pre ++ citizen "a3" :: post /\
    evs (init_agents failing_second_bind_start)
    = map (fun x => EvU (BindToSimulator x) (Ok tt)) pre
      ++ [EvU (BindToSimulator (citizen "a3")) (Raise (External "refused"))] /\
    res (init_agents failing_second_bind_start) = Raise (External "refused") /\
    self (st (init_agents failing_second_bind_start)) = self failing_second_bind_start.
Proof.
  assert (H : In (EvU (BindToSimulator (citizen "a3")) (Raise (External "refused")))
                 (evs (init_agents failing_second_bind_start)))
    by (vm_compute; repeat (first [left; reflexivity | right])).
  split; [exact H |].
  exact (failed_binding_stops_init failing_second_bind_start (citizen "a3")
           (External "refused") H).
Defined.

Lemma init_agents_without_connection_witness :
  res (init_agents disconnected_start) = Ok tt /\
  In (EvIsConnected false) (evs (init_agents disconnected_start)) /\
  subscriptions (evs (init_agents disconnected_start)) = [] /\
  (forall r, ~ In (EvU MessagerStartListening r) (evs (init_agents disconnected_start))) /\
  In EvCreateTask (evs (init_agents disconnected_start)) /\
  initialized (self (st (init_agents disconnected_start))) = true.
Proof.
  assert (H1 : res (init_agents disconnected_start) = Ok tt) by (vm_compute; reflexivity).
  assert (H2 : In (EvIsConnected false) (evs (init_agents disconnected_start)))
    by (vm_compute; repeat (first [left; reflexivity | right])).
  split; [exact H1 |]. split; [exact H2 |].
  exact (init_agents_without_connection disconnected_start H1 H2).
Defined.

Lemma dispatch_task_outlives_failed_init_witness :
  res (init_agents failing_file_start) = Raise (External "refused") /\
  In EvCreateTask (evs (init_agents failing_file_start)) /\
  initialized (self (st (init_agents failing_file_start)))
  = initialized (self failing_file_start) /\
  message_dispatch_task (self (st (init_agents failing_file_start)))
  = S (message_dispatch_task (self failing_file_start)) /\
  id2agent (self (st (init_agents failing_file_start)))
  = dict_of_agents (agents (self failing_file_start)).
Proof.
  assert (H1 : res (init_agents failing_file_start) = Raise (External "refused"))
    by (vm_compute; reflexivity).
  assert (H2 : In EvCreateTask (evs (init_agents failing_file_start)))
    by (vm_compute; repeat (first [left; reflexivity | right])).
  split; [exact H1 |]. split; [exact H2 |].
  exact (dispatch_task_outlives_failed_init failing_file_start (External "refused") H1 H2).
Defined.

Lemma empty_group_with_avro_never_initializes_witness :
  agents (self empty_avro_start) = [] /\
  enable_avro (self empty_avro_start) = true /\
  exists e,
    res (init_agents empty_avro_start) = Raise e /\
    initialized (self (st (init_agents empty_avro_start)))
    = initialized (self empty_avro_start) /\
    (In EvCreateTask (evs (init_agents empty_avro_start)) -> e = IndexError).
Proof.
  split; [reflexivity |]. split; [reflexivity |].
  exact (empty_group_with_avro_never_initializes empty_avro_start eq_refl eq_refl).
Defined.

Lemma no_avro_no_snapshot_work_witness :
  enable_avro (self no_avro_start) = false /\
  Forall (fun ev => ~ snapshot_work ev) (evs (init_agents no_avro_start)) /\
  Forall (fun ev => ~ snapshot_work ev) (evs (step no_avro_start)).
Proof.
  split; [reflexivity |]. exact (no_avro_no_snapshot_work no_avro_start eq_refl).
Defined.

Lemma step_initializes_first_witness :
  initialized (self single_start) = false /\
  res (init_agents single_start) = Ok tt /\
  exists rest,
    evs (step single_start) = EvStep :: evs (init_agents single_start) ++ rest /\
    Forall (fun ev => ~ initialization_work ev) rest.
Proof.
  assert (H : res (init_agents single_start) = Ok tt) by (vm_compute; reflexivity).
  split; [reflexivity |]. split; [exact H |].
  exact (proj2 (step_initializes_first single_start eq_refl) H).
Defined.

Lemma only_init_agents_assigns_fields_witness :
  initialized (self mixed_initialized) = true /\
  self (st (step mixed_initialized)) = self mixed_initialized /\
  self (st (save_status mixed_initialized)) = self mixed_initialized /\
  self (st (message_dispatch 2 mixed_initialized)) = self mixed_initialized.
Proof.
  assert (H : initialized (self mixed_initialized) = true) by (vm_compute; reflexivity).
  destruct (only_init_agents_assigns_fields mixed_initialized) as (H1 & H2 & H3).
  split; [exact H |]. split; [exact (H1 H) |]. split; [exact H2 | exact (H3 2%nat)].
Defined.

Lemma unknown_kind_is_ignored_witness :
  decoded ping_a1 = Ok (VDict []) /\
  topic_fields ping_a1 = ["exps"; "E"; "agents"; "a1"; "ping"] /\
  ~ In "ping" four_kinds /\
  dispatch_message ping_a1 stranger_start = ret tt stranger_start.
Proof.
  assert (H : ~ In "ping" four_kinds).
  { intros [E | [E | [E | [E | []]]]]; discriminate E. }
  split; [reflexivity |]. split; [reflexivity |]. split; [exact H |].
  exact (unknown_kind_is_ignored stranger_start ping_a1 (VDict [])
           "exps" "E" "agents" "a1" "ping" eq_refl eq_refl H).
Defined.

Lemma raising_message_ends_the_loop_witness :
  decoded garbled_for_stranger = Raise ValueError /\
  dispatch_message garbled_for_stranger garbled_start = raise ValueError garbled_start /\
  res (messager_fetch_messages garbled_start)
  = Ok ([gather_a1] ++ garbled_for_stranger :: [gather_a1]) /\
  res (message_dispatch 1 garbled_start) = Raise ValueError.
Proof.
  assert (H0 : decoded garbled_for_stranger = Raise ValueError) by reflexivity.
  assert (H1 : res (messager_fetch_messages garbled_start)
               = Ok ([gather_a1] ++ garbled_for_stranger :: [gather_a1])) by reflexivity.
  assert (H2 : res (for_each dispatch_message [gather_a1]
                      (st (messager_fetch_messages garbled_start))) = Ok tt)
    by (vm_compute; reflexivity).
  assert (H3 : res (dispatch_message garbled_for_stranger
                      (st (for_each dispatch_message [gather_a1]
                             (st (messager_fetch_messages garbled_start)))))
               = Raise ValueError) by (vm_compute; reflexivity).
  destruct (raising_message_ends_the_loop garbled_start) as (Ha & Hb).
  split; [exact H0 |]. split; [exact (Ha _ _ H0) |]. split; [exact H1 |].
  exact (proj1 (Hb [gather_a1] garbled_for_stranger [gather_a1] ValueError O H1 H2 H3)).
Defined.

Lemma idle_loop_keeps_polling_witness :
  nothing_to_fetch (W := unit) /\
  res (message_dispatch 3 calm_idle) = Ok tt /\
  exists connections,
    length connections = 3%nat /\
    evs (message_dispatch 3 calm_idle) = flat_map idle_turn connections.
Proof.
  assert (H : nothing_to_fetch (W := unit)) by (intros w; exists w; reflexivity).
  split; [exact H |]. exact (idle_loop_keeps_polling 3 calm_idle H).
Defined.

Lemma subscribed_topic_reaches_its_agent_witness :
  res (init_agents single_start) = Ok tt /\
  NoDup (map _uuid (agents (self single_start))) /\
  In ("gather", HandleGather) kind_handlers /\
  topic gather_a1 = agent_topic (exp_id (self single_start)) (citizen "a1") "gather" /\
  decoded gather_a1 = Ok (VDict []) /\
  dispatch_message gather_a1
    {| self := self (st (init_agents single_start)); world := quiet_world |}
  = await_unit (HandleGather (citizen "a1") (VDict []))
      {| self := self (st (init_agents single_start)); world := quiet_world |}.
Proof.
  assert (H1 : res (init_agents single_start) = Ok tt) by (vm_compute; reflexivity).
  assert (H2 : NoDup (map _uuid (agents (self single_start)))).
  { apply (bool_decide_unpack _). vm_compute. exact I. }
  assert (H3 : In ("gather", HandleGather) kind_handlers)
    by (cbv [kind_handlers]; repeat (first [left; reflexivity | right])).
  split; [exact H1 |]. split; [exact H2 |]. split; [exact H3 |].
  split; [reflexivity |]. split; [reflexivity |].
  exact (subscribed_topic_reaches_its_agent single_start (citizen "a1") "gather"
           HandleGather gather_a1 (VDict []) quiet_world H1 H2
           (or_introl eq_refl) eq_refl eq_refl H3 eq_refl eq_refl).
Defined.

Lemma slash_in_ids_breaks_dispatch_witness :
  In "gather" four_kinds /\
  (0 < count_char "/" "lab/7" + count_char "/" (_uuid (citizen "a1")))%nat /\
  dispatch_message
    {| topic := agent_topic "lab/7" (citizen "a1") "gather"; payload := VDict [] |}
    slash_start
  = raise ValueError slash_start.
Proof.
  assert (H1 : In "gather" four_kinds)
    by (cbv [four_kinds]; repeat (first [left; reflexivity | right])).
  assert (H2 : (0 < count_char "/" "lab/7" + count_char "/" (_uuid (citizen "a1")))%nat)
    by (vm_compute; lia).
  split; [exact H1 |]. split; [exact H2 |].
  exact (slash_in_ids_breaks_dispatch slash_start "lab/7" (citizen "a1") "gather"
           {| topic := agent_topic "lab/7" (citizen "a1") "gather"; payload := VDict [] |}
           (VDict []) H1 H2 eq_refl eq_refl).
Defined.

Lemma last_agent_with_an_id_wins_witness :
  res (init_agents twins_start) = Ok tt /\
  agents (self twins_start) = [citizen "a1"] ++ institution "a1" :: [] /\
  id2agent (self (st (init_agents twins_start))) !! "a1" = Some (institution "a1") /\
  id2agent (self (st (init_agents twins_start))) !! "a1" <> Some (citizen "a1").
Proof.
  assert (H1 : res (init_agents twins_start) = Ok tt) by (vm_compute; reflexivity).
  destruct (last_agent_with_an_id_wins twins_start [citizen "a1"] [] (institution "a1")
              H1 eq_refl (fun H => H)) as (Ha & Hb).
  split; [exact H1 |]. split; [reflexivity |]. split; [exact Ha |].
  apply (Hb (citizen "a1")); [left; reflexivity | reflexivity | discriminate].
Defined.

Lemma exported_profile_carries_agent_id_witness :
  res (export_profile (citizen "a1") single_start)
  = Ok (VDict [("name", VStr "a1"); ("id", VStr "a1")]) /\
  exists exported items,
    evs (export_profile (citizen "a1") single_start)
    = [EvV (ProfileExport (citizen "a1")) (Ok exported)] /\
    index0 exported = Ok (VDict items) /\
    VDict [("name", VStr "a1"); ("id", VStr "a1")]
    = VDict (dict_set items "id" (VStr (_uuid (citizen "a1")))) /\
    getitem (VDict [("name", VStr "a1"); ("id", VStr "a1")]) "id"
    = Ok (VStr (_uuid (citizen "a1"))) /\
    (forall k, k <> "id" ->
       getitem (VDict [("name", VStr "a1"); ("id", VStr "a1")]) k = getitem (VDict items) k).
Proof.
  split; [reflexivity |].
  exact (exported_profile_carries_agent_id (citizen "a1") single_start _ eq_refl).
Defined.

Lemma save_status_appends_all_or_nothing_witness :
  exists records,
    In (EvU (FastavroWriter "avro/g/status.avro" STATUS_SCHEMA records (Some "snappy"))
          (Ok tt))
       (evs (save_status calm_start)) /\
    res (save_status calm_start) = Ok tt /\
    length records = length (agents (self calm_start)).
Proof.
  assert (H : { records |
                In (EvU (FastavroWriter "avro/g/status.avro" STATUS_SCHEMA records
                           (Some "snappy")) (Ok tt))
                   (evs (save_status calm_start)) }).
  { eexists. vm_compute. repeat (first [left; reflexivity | right]). }
  destruct H as (records & Hin). exists records. split; [exact Hin |].
  exact (save_status_appends_all_or_nothing calm_start _ _ _ _ Hin).
Defined.

Lemma gather_reads_every_agent_witness :
  NoDup (map _uuid (agents (self mixed_start))) /\
  res (gather "needs" mixed_start)
  = Ok [("a1", sim_memory (citizen "a1") "needs");
        ("b2", sim_memory (institution "b2") "needs")] /\
  exists values,
    length values = length (agents (self mixed_start)) /\
    [("a1", sim_memory (citizen "a1") "needs");
     ("b2", sim_memory (institution "b2") "needs")]
    = combine (map _uuid (agents (self mixed_start))) values /\
    evs (gather "needs" mixed_start)
    = map (fun av => EvV (MemoryGet (fst av) "needs") (Ok (snd av)))
        (combine (agents (self mixed_start)) values).
Proof.
  assert (H1 : NoDup (map _uuid (agents (self mixed_start)))).
  { apply (bool_decide_unpack _). vm_compute. exact I. }
  assert (H2 : res (gather "needs" mixed_start)
               = Ok [("a1", sim_memory (citizen "a1") "needs");
                     ("b2", sim_memory (institution "b2") "needs")]) by reflexivity.
  split; [exact H1 |]. split; [exact H2 |].
  exact (proj2 (proj2 (gather_reads_every_agent "needs" mixed_start)) _ H1 H2).
Defined.

Lemma update_needs_the_mapping_witness :
  id2agent (self single_start) = ∅ /\
  res (init_agents single_start) = Ok tt /\
  ~ In "zz" (map _uuid (agents (self single_start))) /\
  NoDup (map _uuid (agents (self single_start))) /\
  update "a1" "needs" VNone single_start = (Raise (KeyError "a1"), single_start) /\
  update "zz" "needs" VNone (st (init_agents single_start))
  = (Raise (KeyError "zz"), st (init_agents single_start)) /\
  update "a1" "needs" VNone (st (init_agents single_start))
  = (Ok tt, {| self := self (st (init_agents single_start));
               world := world (st (init_agents single_start)) |}).
Proof.
  assert (H1 : res (init_agents single_start) = Ok tt) by (vm_compute; reflexivity).
  assert (H2 : ~ In "zz" (map _uuid (agents (self single_start)))).
  { intros [E | []]; discriminate E. }
  assert (H3 : NoDup (map _uuid (agents (self single_start)))).
  { apply (bool_decide_unpack _). vm_compute. exact I. }
  destruct (update_needs_the_mapping single_start "needs" VNone) as (Ha & Hb).
  destruct (Hb H1) as (Hc & Hd).
  split; [reflexivity |]. split; [exact H1 |]. split; [exact H2 |]. split; [exact H3 |].
  split; [exact (Ha eq_refl "a1") |]. split; [exact (Hc "zz" H2) |].
  exact (Hd H3 (citizen "a1") (or_introl eq_refl)).
Defined.

Lemma agents_are_configured_last_witness :
  In (SetEconomyClient (citizen "a1"), Ok tt)
     (calls (__init__ "g" [citizen "a1"] full_config "E" true "avro" tt)) /\
  configures (citizen "a1") (SetEconomyClient (citizen "a1")) /\
  In (citizen "a1") [citizen "a1"] /\
  exists server,
    In (NewEconomyClient server, Ok tt)
       (calls (__init__ "g" [citizen "a1"] full_config "E" true "avro" tt)).
Proof.
  assert (H : In (SetEconomyClient (citizen "a1"), Ok tt)
                 (calls (__init__ "g" [citizen "a1"] full_config "E" true "avro" tt)))
    by (vm_compute; repeat (first [left; reflexivity | right])).
  split; [exact H |]. split; [reflexivity |].
  destruct (agents_are_configured_last "g" [citizen "a1"] full_config "E" true "avro" tt
              (SetEconomyClient (citizen "a1")) (Ok tt) (citizen "a1") H eq_refl)
    as (Ha & (hostname & port & username & password & llm & sr & _ & _ & _ & _ & _ & _
              & _ & _ & Hec) & _).
  split; [exact Ha |]. exact (proj2 (Hec eq_refl)).
Defined.

Lemma constructor_configures_every_agent_witness :
  built (__init__ "g" [citizen "a1"; institution "b2"] plain_config "E" true "avro" tt)
  = Ok (new_group [citizen "a1"; institution "b2"] "E" true) /\
  Forall (fun cr => cr.2 = Ok tt)
    (calls (__init__ "g" [citizen "a1"; institution "b2"] plain_config "E" true "avro" tt)) /\
  In (SetAvroFile (institution "b2") "avro/g", Ok tt)
    (calls (__init__ "g" [citizen "a1"; institution "b2"] plain_config "E" true "avro" tt)).
Proof.
  assert (H : built (__init__ "g" [citizen "a1"; institution "b2"] plain_config "E" true
                       "avro" tt)
              = Ok (new_group [citizen "a1"; institution "b2"] "E" true))
    by (vm_compute; reflexivity).
  destruct (constructor_configures_every_agent "g" [citizen "a1"; institution "b2"]
              plain_config "E" true "avro" tt _ H) as (Ha & _ & _ & Hb).
  split; [exact H |]. split; [exact Ha |].
  destruct (Hb (institution "b2") (or_intror (or_introl eq_refl)))
    as (_ & _ & _ & _ & Hc & _).
  exact (Hc eq_refl).
Defined.

Lemma update_before_init_agents_raises_witness :
  built (__init__ "g" [citizen "a1"] plain_config "E" false "avro" tt)
  = Ok (new_group [citizen "a1"] "E" false) /\
  update "a1" "needs" VNone single_start = (Raise (KeyError "a1"), single_start).
Proof.
  assert (H : built (__init__ "g" [citizen "a1"] plain_config "E" false "avro" tt)
              = Ok (new_group [citizen "a1"] "E" false)) by (vm_compute; reflexivity).
  split; [exact H |].
  exact (proj2 (proj2 (update_before_init_agents_raises (W' := Sim) "g" [citizen "a1"]
                         plain_config "E" false "avro" tt _ H))
           quiet_world "a1" "needs" VNone).
Defined.

Lemma run_hides_no_failure_witness :
  In (EvU (BindToSimulator (citizen "a1")) (Raise (External "refused")))
     (evs (run 3 1 failing_bind_start)) /\
  raised (EvU (BindToSimulator (citizen "a1")) (Raise (External "refused")))
  = Some (External "refused") /\
  exists e',
    res (run 3 1 failing_bind_start) = Raise e' /\
    ((forall a r, EvU (BindToSimulator (citizen "a1")) (Raise (External "refused"))
                  <> EvU (AgentRun a) r) ->
     e' = External "refused").
Proof.
  assert (H : In (EvU (BindToSimulator (citizen "a1")) (Raise (External "refused")))
                 (evs (run 3 1 failing_bind_start)))
    by (vm_compute; repeat (first [left; reflexivity | right])).
  split; [exact H |]. split; [reflexivity |].
  exact (run_hides_no_failure 3 1 failing_bind_start _ _ H eq_refl).
Defined.
